(** * create_bot_dir.py: the emoji-verification handler and the credential store

    A shallow embedding of [src/create_bot_dir.py].  The program is a thin
    layer of Python over the matrix-nio client; what it owns is

    - [Callbacks.to_device_callback], the per-event handler of the key
      verification exchange,
    - [write_details_to_disk] and [login], the credential store,
    - [main] and the module entry point with its two [except] clauses,
    - the statements run at import: the choice of the device name and the
      preparation of the bot directory.

    The nio client, the terminal and the json module are outside the
    repository.  They appear here as an interface ([NioRuntime]) whose
    operations may return or raise; every theorem about the program holds for
    every implementation of that interface.  The program logs each call it
    makes and each line it prints in a trace, and the properties are stated on
    that trace.

    The terminal that [print] writes to is a second interface ([Console]):
    a line is written or an exception is raised.  The theorems that say so
    hold on every console; the others are about [reliable], the console that
    takes every line.

    The event loop comes in two versions.  [sync_forever] and [run_module]
    are the loop under an [asyncio.run] that leaves SIGINT to Python (Python
    3.8 to 3.10); [sync_forever_sigint] and [run_module_sigint] are the loop
    under the [asyncio.run] of Python 3.11 and later, which cancels the main
    task on the first SIGINT.

    Left out of the model: the local disk does not fail (a write succeeds, a
    file that exists can be read, the store of the client can be opened). *)

From Stdlib Require Import ZArith String Ascii Bool List DecimalString.
From stdpp Require Import base option list gmap strings.

Local Open Scope string_scope.
Local Set Warnings "-register-all".

(** ** Python values *)

(** Values that [json.loads] and the to-device transport produce.  JSON
    floats are not needed by any path of the program and behave like [PNum]
    wherever a value is only tested or passed on. *)
Inductive pyval : Type :=
| PNone
| PBool (b : bool)
| PNum (z : Z)
| PStr (s : string)
| PList (l : list pyval)
| PDict (d : gmap string pyval).

(** The exceptions the model distinguishes.  [OtherException] stands for any
    further subclass of [Exception]; the last four derive from
    [BaseException] only. *)
Inductive exn : Type :=
| KeyError (key : pyval)
| TypeError
| AssertionError
| AttributeError
| OSError
| JSONDecodeError
| LocalProtocolError (msg : string)
| OtherException (name : string)
| KeyboardInterrupt
| SystemExit (code : Z)
| CancelledError
| GeneratorExit.

(** [isinstance(e, Exception)] *)
Definition is_Exception (e : exn) : bool :=
  match e with
  | KeyboardInterrupt | SystemExit _ | CancelledError | GeneratorExit => false
  | _ => true
  end.

(** A call either returns a value or raises. *)
Inductive outcome (A : Type) : Type :=
| Return (a : A)
| Raise (e : exn).
Arguments Return {A} a.
Arguments Raise {A} e.

(** ** String helpers *)

(** [str.lower] on the ASCII range.  The handler only compares the lowered
    answer with ["y"] and ["n"]; no character outside ASCII lowers to either
    of them, so bytes above 127 are left alone. *)
Definition lower_char (c : ascii) : ascii :=
  let n := nat_of_ascii c in
  if (65 <=? n)%nat && (n <=? 90)%nat then ascii_of_nat (n + 32) else c.

Fixpoint lower (s : string) : string :=
  match s with
  | EmptyString => EmptyString
  | String c t => String (lower_char c) (lower t)
  end.

(** [needle in hay] for two strings: substring search. *)
Fixpoint str_contains (needle hay : string) : bool :=
  String.prefix needle hay ||
  match hay with
  | EmptyString => false
  | String _ t => str_contains needle t
  end.

(** [x == s] for a string [s]: only an equal string compares equal. *)
Definition py_eq_str (x : pyval) (s : string) : bool :=
  match x with
  | PStr s' => String.eqb s' s
  | _ => false
  end.

(** [s in v] (and so [s not in v]) for a string [s]: element of a list,
    substring of a string, key of a dict, [TypeError] for the rest. *)
Definition py_in (s : string) (v : pyval) : outcome bool :=
  match v with
  | PList l => Return (existsb (fun x => py_eq_str x s) l)
  | PStr h => Return (str_contains s h)
  | PDict d => Return (bool_decide (is_Some (d !! s)))
  | PNone | PBool _ | PNum _ => Raise TypeError
  end.

(** [d[k]] on a dict with string keys. *)
Definition dict_getitem (d : gmap string pyval) (k : string) : outcome pyval :=
  match d !! k with
  | Some v => Return v
  | None => Raise (KeyError (PStr k))
  end.

(** [v[k]] for a value that should be a dict. *)
Definition py_getitem (v : pyval) (k : string) : outcome pyval :=
  match v with
  | PDict d => dict_getitem d k
  | _ => Raise TypeError
  end.

(** ** nio data *)

(** [nio.ToDeviceMessage] *)
Record ToDeviceMessage : Type := {
  msg_type : string;
  recipient : string;
  recipient_device : pyval;
  msg_content : gmap string pyval;
}.

(** What [client.to_device] and the verification calls return. *)
Inductive Response : Type :=
| ToDeviceResponse
| ToDeviceError (message : string).

(** [isinstance(resp, ToDeviceError)] *)
Definition is_ToDeviceError (r : Response) : bool :=
  match r with
  | ToDeviceError _ => true
  | ToDeviceResponse => false
  end.

(** The attributes of a [nio.crypto.Sas] object that the handler reads and
    that never change after the object is built. *)
Record Sas : Type := {
  sas_transaction_id : string;
  other_olm_device_id : string;
}.

(** The flags of a [Sas] object printed when the exchange is done. *)
Record SasFlags : Type := {
  we_started_it : bool;
  sas_accepted : bool;
  canceled : bool;
  timed_out : bool;
  verified : bool;
  verified_devices : list string;
}.

(** The to-device events the callback is registered for
    ([KeyVerificationEvent] with its subclasses, and [UnknownToDeviceEvent]).
    nio builds a typed event only from a payload of the matching type, so the
    type string of a typed event is fixed by its class; an unknown event
    carries whatever type and content the sender chose.
    [KeyVerificationAccept] is the one further subclass of
    [KeyVerificationEvent]; the handler has no branch for it. *)
Inductive Event : Type :=
| KeyVerificationStart (sender transaction_id from_device method : string)
    (short_authentication_string : list string)
| KeyVerificationAccept (sender transaction_id : string)
| KeyVerificationKey (sender transaction_id key : string)
| KeyVerificationMac (sender transaction_id : string)
    (mac : gmap string pyval) (keys : string)
| KeyVerificationCancel (sender transaction_id code reason : string)
| UnknownToDeviceEvent (sender type : string) (content : gmap string pyval).

(** [event.sender] *)
Definition event_sender (ev : Event) : string :=
  match ev with
  | KeyVerificationStart s _ _ _ _ | KeyVerificationAccept s _
  | KeyVerificationKey s _ _ | KeyVerificationMac s _ _ _
  | KeyVerificationCancel s _ _ _ | UnknownToDeviceEvent s _ _ => s
  end.

(** [event.source['type']] *)
Definition source_type (ev : Event) : string :=
  match ev with
  | KeyVerificationStart _ _ _ _ _ => "m.key.verification.start"
  | KeyVerificationAccept _ _ => "m.key.verification.accept"
  | KeyVerificationKey _ _ _ => "m.key.verification.key"
  | KeyVerificationMac _ _ _ _ => "m.key.verification.mac"
  | KeyVerificationCancel _ _ _ _ => "m.key.verification.cancel"
  | UnknownToDeviceEvent _ ty _ => ty
  end.

(** [event.source['content']].  For a typed event this is the payload its
    attributes were parsed from (the entries no branch reads are left out). *)
Definition source_content (ev : Event) : gmap string pyval :=
  match ev with
  | KeyVerificationStart _ t d m f =>
      {[ "method" := PStr m; "from_device" := PStr d;
         "short_authentication_string" := PList (PStr <$> f);
         "transaction_id" := PStr t ]}
  | KeyVerificationAccept _ t => {[ "transaction_id" := PStr t ]}
  | KeyVerificationKey _ t k => {[ "key" := PStr k; "transaction_id" := PStr t ]}
  | KeyVerificationMac _ t m k =>
      {[ "mac" := PDict m; "keys" := PStr k; "transaction_id" := PStr t ]}
  | KeyVerificationCancel _ t c r =>
      {[ "code" := PStr c; "reason" := PStr r; "transaction_id" := PStr t ]}
  | UnknownToDeviceEvent _ _ c => c
  end.

(** The attributes of [nio.AsyncClient] the program sets and reads.  They hold
    whatever was passed in, so they are Python values ([PNone] is [None]). *)
Record AsyncClient : Type := {
  homeserver : pyval;
  user : pyval;
  user_id : pyval;
  device_id : pyval;
  access_token : pyval;
  store_path : string;
}.

(** [nio.LoginResponse] *)
Record LoginResponse : Type := {
  resp_user_id : string;
  resp_device_id : string;
  resp_access_token : string;
}.

(** What [client.login] returns. *)
Inductive LoginResult : Type :=
| LoginOk (resp : LoginResponse)
| LoginError (message : string).

(** ** What the program prints and calls *)

(** One constructor per [print] statement of the source, with the values its
    f-string interpolates. *)
Inductive console_line : Type :=
| GotVerificationRequest
    (* "Got verification request. Waiting for other device to accept SAS method..." *)
| NoSasSupport (methods : pyval)
    (* "Other device does not support SAS authentication. Methods: ..." *)
| ToDeviceFailed (resp : Response)             (* "to_device failed with ..." *)
| NoEmojiSupport (formats : list string)
    (* "Other device does not support emoji verification ..." *)
| AcceptFailed (resp : Response)    (* "accept_key_verification failed with ..." *)
| CancelledBy (sender reason : string)
    (* "Verification has been cancelled by ... for reason ..." *)
| ShowEmoji (emoji : list (string * string))                (* sas.get_emoji() *)
| MatchAccepted       (* "Match! The verification for this device will be accepted." *)
| ConfirmFailed (resp : Response) (* "confirm_short_auth_string failed with ..." *)
| NoMatch    (* "No match! Device will NOT be verified by rejecting verification." *)
| CancelFailed (resp : Response)    (* "cancel_key_verification failed with ..." *)
| CancelledByUser       (* "Cancelled by user! Verification will be cancelled." *)
| ProtocolError (e : exn) (sender : string)
    (* "Cancelled or protocol error: Reason: ... Verification with ... not concluded. Try again?" *)
| SasSummary (flags : SasFlags)                  (* "sas.we_started_it = ..." *)
| VerificationSuccessful              (* "Emoji verification was successful! ..." *)
| UnexpectedEvent (ev : Event)         (* "Received unexpected event type ..." *)
| Traceback (e : exn)                                (* traceback.format_exc() *)
| FirstTimeUse             (* "First time use. Did not find credential file. ..." *)
| LoginAttempt (homeserver user : string)     (* homeserver = "..."; user = "..." *)
| FailedToLogIn (message : string)                   (* "Failed to log in: ..." *)
| LoggedInWithPassword  (* "Logged in using a password. Credentials were stored. ..." *)
| LoggedInStored                       (* "Logged in using stored credentials." *)
| ReadyAndWaiting                    (* "This program is ready and waiting ..." *)
| CreatingBotDir (path : string)   (* "Creating bot directory at the path: ..." *)
| UsingBotDir (path : string)  (* "Using the existing bot directory at the path: ..." *)
| ReceivedKeyboardInterrupt                  (* "Received keyboard interrupt." *).

(** The calls the program makes, in the order it makes them.  A call is
    logged when it is made, whether it then returns or raises. *)
Inductive action : Type :=
| Print (line : console_line)
| LogError (resp : Response)                     (* client.log.error(...) *)
| Input (prompt : string)
| Getpass
| ToDevice (msg : ToDeviceMessage) (tx_id : option pyval)
| AcceptKeyVerification (transaction_id : string)
| ConfirmShortAuthString (transaction_id : string)
| CancelKeyVerification (transaction_id : string) (reject : bool)
| ShareKey (sas : Sas)
| GetMac (sas : Sas)
| GetEmoji (sas : Sas)
| PasswordLogin (client : AsyncClient) (password device_name : string)
| LoadStore (client : AsyncClient)
| KeysUpload
| Mkdir (path : string)
| FileRead (path : string)
| FileWrite (path contents : string).

(** ** The world outside the program *)

(** The nio client, the terminal and the json module, over a state [W] of
    their own.  Every call takes the current state and gives the next one; a
    call that can fail in Python gives an [outcome]. *)
Class NioRuntime (W : Type) : Type := {
  (* client.key_verifications, a dict from transaction id to Sas object *)
  key_verifications : W -> gmap string Sas;
  nio_to_device : ToDeviceMessage -> option pyval -> W -> outcome Response * W;
  nio_accept_key_verification : string -> W -> outcome Response * W;
  nio_confirm_short_auth_string : string -> W -> outcome Response * W;
  nio_cancel_key_verification : string -> bool -> W -> outcome Response * W;
  sas_share_key : Sas -> W -> outcome ToDeviceMessage * W;
  sas_get_mac : Sas -> W -> outcome ToDeviceMessage * W;
  sas_get_emoji : Sas -> W -> outcome (list (string * string)) * W;
  sas_flags : Sas -> W -> SasFlags;
  client_log_error : Response -> W -> outcome unit * W;
  builtin_input : string -> W -> outcome string * W;
  getpass_getpass : W -> outcome string * W;
  nio_login : AsyncClient -> string -> string -> W -> outcome LoginResult * W;
  nio_load_store : AsyncClient -> W -> W;
  should_upload_keys : W -> bool;
  nio_keys_upload : W -> outcome unit * W;
  json_dumps : pyval -> string;
  json_loads : string -> outcome pyval;
}.

(** The terminal that [print] writes to, seen from the program:
    [console line w] is [None] when the line can be written in the state [w]
    of the world, and otherwise the exception that [print] raises
    ([UnicodeEncodeError] for text that the encoding of the terminal does not
    have, [OSError] for a stream that was closed).  Writing a line leaves the
    world as it is. *)
Class Console (W : Type) : Type := console : console_line -> W -> option exn.

(** What a run can change: the world and the local disk (regular files with
    their contents, and the directories). *)
Record state (W : Type) : Type := {
  world : W;
  files : gmap string string;
  dirs : gset string;
}.
Arguments world {W} s.
Arguments files {W} s.
Arguments dirs {W} s.

Definition set_world {W} (w : W) (s : state W) : state W :=
  {| world := w; files := files s; dirs := dirs s |}.

(** ** The monad of the program: state, exceptions, and the log of calls *)

Definition M (W A : Type) : Type := state W -> outcome A * state W * list action.

(** The three observations of a run. *)
Definition result_of {A S L} (x : A * S * L) : A := fst (fst x).
Definition state_of {A S L} (x : A * S * L) : S := snd (fst x).
Definition trace_of {A S L} (x : A * S * L) : L := snd x.

(** A run that comes after the calls [l]. *)
Definition after {R S} (l : list action) (x : R * S * list action)
  : R * S * list action :=
  (result_of x, state_of x, (l ++ trace_of x)%list).

Definition ret {W A} (a : A) : M W A := fun s => (Return a, s, []).

Definition raise {W A} (e : exn) : M W A := fun s => (Raise e, s, []).

Definition bind {W A B} (m : M W A) (k : A -> M W B) : M W B :=
  fun s =>
    match m s with
    | (Return a, s1, l1) => after l1 (k a s1)
    | (Raise e, s1, l1) => (Raise e, s1, l1)
    end.

(** [try: m  except <classes accepted by handles>: h] *)
Definition try_except {W A} (m : M W A) (handles : exn -> bool) (h : exn -> M W A)
  : M W A :=
  fun s =>
    match m s with
    | (Return a, s1, l1) => (Return a, s1, l1)
    | (Raise e, s1, l1) =>
        if handles e then after l1 (h e s1) else (Raise e, s1, l1)
    end.

Declare Scope py_scope.
Delimit Scope py_scope with py.
Notation "x <- m ;; k" := (bind m (fun x => k))
  (at level 100, m at next level, right associativity) : py_scope.
Notation "m ;;; k" := (bind m (fun _ => k))
  (at level 100, right associativity) : py_scope.
Local Open Scope py_scope.

(** A pure computation that may raise. *)
Definition lift {W A} (o : outcome A) : M W A :=
  match o with
  | Return a => ret a
  | Raise e => raise e
  end.

(** A call into the world, logged as [a]. *)
Definition call {W A} (a : action) (op : W -> outcome A * W) : M W A :=
  fun s => (fst (op (world s)), set_world (snd (op (world s))) s, [a]).

(** [print(line)]: the line is written, or the exception of the terminal is
    raised. *)
Definition print {W} `{Console W} (line : console_line) : M W unit :=
  fun s =>
    match console line (world s) with
    | None => (Return tt, s, [Print line])
    | Some e => (Raise e, s, [Print line])
    end.

(** [assert b] *)
Definition py_assert {W} (b : bool) : M W unit :=
  if b then ret tt else raise AssertionError.

(** [if b: m] *)
Definition when {W} (b : bool) (m : M W unit) : M W unit :=
  if b then m else ret tt.

(** [v is not None] *)
Definition is_not_None (v : pyval) : bool :=
  match v with
  | PNone => false
  | _ => true
  end.

(** ** Callbacks.to_device_callback *)

(** [class Callbacks]: the object keeps the client it was built with. *)
Record Callbacks : Type := { client : AsyncClient }.

(** Lines 136-145: the reply to a request, for the transaction id and the
    device found in its content. *)
Definition ready_message (c : AsyncClient) (ev : Event) (txid from_device : pyval)
  : ToDeviceMessage :=
  {| msg_type := "m.key.verification.ready";
     recipient := event_sender ev;
     recipient_device := from_device;
     msg_content := {[ "from_device" := device_id c;
                       "methods" := PList [PStr "m.sas.v1"];
                       "transaction_id" := txid ]} |}.

(** Lines 249-256: the message that closes a verification. *)
Definition done_message (sender other_device transaction_id : string) : ToDeviceMessage :=
  {| msg_type := "m.key.verification.done";
     recipient := sender;
     recipient_device := PStr other_device;
     msg_content := {[ "transaction_id" := PStr transaction_id ]} |}.

Section Handler.
Context {W : Type} `{NioRuntime W} {terminal : Console W}.

(** [await client.to_device(msg, tx_id)] and the verification calls *)
Definition to_device (msg : ToDeviceMessage) (tx_id : option pyval) : M W Response :=
  call (ToDevice msg tx_id) (nio_to_device msg tx_id).

Definition accept_key_verification (txid : string) : M W Response :=
  call (AcceptKeyVerification txid) (nio_accept_key_verification txid).

Definition confirm_short_auth_string (txid : string) : M W Response :=
  call (ConfirmShortAuthString txid) (nio_confirm_short_auth_string txid).

Definition cancel_key_verification (txid : string) (reject : bool) : M W Response :=
  call (CancelKeyVerification txid reject) (nio_cancel_key_verification txid reject).

Definition share_key (sas : Sas) : M W ToDeviceMessage :=
  call (ShareKey sas) (sas_share_key sas).

Definition get_mac (sas : Sas) : M W ToDeviceMessage :=
  call (GetMac sas) (sas_get_mac sas).

Definition get_emoji (sas : Sas) : M W (list (string * string)) :=
  call (GetEmoji sas) (sas_get_emoji sas).

Definition log_error (resp : Response) : M W unit :=
  call (LogError resp) (client_log_error resp).

Definition input (prompt : string) : M W string :=
  call (Input prompt) (builtin_input prompt).

(** [client.key_verifications[txid]] for a string key *)
Definition lookup_sas (txid : string) : M W Sas :=
  fun s =>
    match key_verifications (world s) !! txid with
    | Some sas => (Return sas, s, [])
    | None => (Raise (KeyError (PStr txid)), s, [])
    end.

(** [client.key_verifications[k]] for a key taken from a payload: a list or
    a dict is unhashable, and nothing but a string can equal a key. *)
Definition lookup_sas_py (k : pyval) : M W Sas :=
  match k with
  | PStr txid => lookup_sas txid
  | PList _ | PDict _ => raise TypeError
  | _ => raise (KeyError k)
  end.

(** Lines 118-148: [event.source['type'] == 'm.key.verification.request'] *)
Definition on_request (client : AsyncClient) (event : Event) : M W unit :=
  print GotVerificationRequest;;;
  methods <- lift (dict_getitem (source_content event) "methods");;
  present <- lift (py_in "m.sas.v1" methods);;
  if negb present then
    print (NoSasSupport methods)
  else
    py_assert (is_not_None (device_id client));;;
    py_assert (is_not_None (user_id client));;;
    txid <- lift (dict_getitem (source_content event) "transaction_id");;
    from_device <- lift (dict_getitem (source_content event) "from_device");;
    let ready_event := ready_message client event txid from_device in
    resp <- to_device ready_event (Some txid);;
    when (is_ToDeviceError resp) (print (ToDeviceFailed resp)).

(** Lines 179-194: [isinstance(event, KeyVerificationStart)] *)
Definition on_start (transaction_id : string)
    (short_authentication_string : list string) : M W unit :=
  if negb (existsb (String.eqb "emoji") short_authentication_string) then
    print (NoEmojiSupport short_authentication_string)
  else
    resp <- accept_key_verification transaction_id;;
    when (is_ToDeviceError resp) (print (AcceptFailed resp));;;
    sas <- lookup_sas transaction_id;;
    todevice_msg <- share_key sas;;
    resp <- to_device todevice_msg None;;
    when (is_ToDeviceError resp) (print (ToDeviceFailed resp)).

(** Lines 210-217: [isinstance(event, KeyVerificationCancel)] *)
Definition on_cancel (sender reason : string) : M W unit :=
  print (CancelledBy sender reason).

Definition emoji_prompt : string :=
  "Do the emojis match? (Y/N) (C for Cancel) - verify them on the other device first:".

(** Lines 232-277: [isinstance(event, KeyVerificationKey)] *)
Definition on_key (sender transaction_id : string) : M W unit :=
  sas <- lookup_sas transaction_id;;
  emoji <- get_emoji sas;;
  print (ShowEmoji emoji);;;
  yn <- input emoji_prompt;;
  if String.eqb (lower yn) "y" then
    print MatchAccepted;;;
    resp <- confirm_short_auth_string transaction_id;;
    when (is_ToDeviceError resp) (print (ConfirmFailed resp));;;
    let done_message :=
      done_message sender (other_olm_device_id sas) (sas_transaction_id sas) in
    resp <- to_device done_message (Some (PStr (sas_transaction_id sas)));;
    if is_ToDeviceError resp then log_error resp else ret tt
  else if String.eqb (lower yn) "n" then
    print NoMatch;;;
    resp <- cancel_key_verification transaction_id true;;
    when (is_ToDeviceError resp) (print (CancelFailed resp))
  else
    print CancelledByUser;;;
    resp <- cancel_key_verification transaction_id false;;
    when (is_ToDeviceError resp) (print (CancelFailed resp)).

(** [isinstance(e, LocalProtocolError)] *)
Definition is_LocalProtocolError (e : exn) : bool :=
  match e with
  | LocalProtocolError _ => true
  | _ => false
  end.

(** Lines 295-308: [isinstance(event, KeyVerificationMac)].  The [try]
    covers [sas.get_mac()] only; the send is its [else] clause. *)
Definition on_mac (sender transaction_id : string) : M W unit :=
  sas <- lookup_sas transaction_id;;
  got <- try_except (msg <- get_mac sas;; ret (Some msg)) is_LocalProtocolError
           (fun e => print (ProtocolError e sender);;; ret None);;
  match got with
  | None => ret tt
  | Some todevice_msg =>
      resp <- to_device todevice_msg None;;
      when (is_ToDeviceError resp) (print (ToDeviceFailed resp))
  end.

(** Lines 309-327: [event.source['type'] == 'm.key.verification.done'] *)
Definition on_done (event : Event) : M W unit :=
  txid <- lift (dict_getitem (source_content event) "transaction_id");;
  sas <- lookup_sas_py txid;;
  (fun s => print (SasSummary (sas_flags sas (world s))) s);;;
  print VerificationSuccessful.

(** The body of the [try] statement, lines 116-332: the chain of
    [if]/[elif] in the order of the source. *)
Definition to_device_callback_body (self : Callbacks) (event : Event) : M W unit :=
  let client := client self in
  if String.eqb (source_type event) "m.key.verification.request" then
    on_request client event
  else
    match event with
    | KeyVerificationStart _ transaction_id _ _ short_authentication_string =>
        on_start transaction_id short_authentication_string
    | KeyVerificationCancel sender _ _ reason => on_cancel sender reason
    | KeyVerificationKey sender transaction_id _ => on_key sender transaction_id
    | KeyVerificationMac sender transaction_id _ _ => on_mac sender transaction_id
    | _ =>
        if String.eqb (source_type event) "m.key.verification.done" then
          on_done event
        else
          print (UnexpectedEvent event)
    end.

(** [except BaseException]: every exception *)
Definition is_BaseException (e : exn) : bool := true.

(** Lines 113-334 *)
Definition to_device_callback (self : Callbacks) (event : Event) : M W unit :=
  try_except (to_device_callback_body self event) is_BaseException
    (fun e => print (Traceback e)).

End Handler.

(** ** The credential store and the entry point *)

(** The module-level names fixed while the module is imported (lines 78-92):
    the directory of the script and the device name chosen at the first
    prompt.  How the name is chosen (the scan for existing directories, the
    random default) is [choose_device_name] below; it reads the listing of
    the directory and the terminal and writes nothing. *)
Record Globals : Type := {
  ROOT_DIR : string;
  device_name : string;
}.

(** [Path(__file__).parent.resolve() / ("botdir_" + device_name)] *)
Definition BOT_DIR (g : Globals) : string :=
  ROOT_DIR g ++ "/" ++ "botdir_" ++ device_name g.

(** [BOT_DIR / "login.json"] *)
Definition CONFIG_FILE (g : Globals) : string := BOT_DIR g ++ "/" ++ "login.json".

(** [BOT_DIR / "store"] *)
Definition STORE_PATH (g : Globals) : string := BOT_DIR g ++ "/" ++ "store".

(** Lines 382-383: the scheme is added unless the input has one. *)
Definition normalize_homeserver (homeserver : string) : string :=
  if negb (String.prefix "https://" homeserver || String.prefix "http://" homeserver)
  then "https://" ++ homeserver
  else homeserver.

(** The dict that [write_details_to_disk] hands to [json.dump]. *)
Definition credential_record (resp : LoginResponse) (homeserver device_name : string)
  : pyval :=
  PDict {[ "homeserver" := PStr homeserver;
           "user_id" := PStr (resp_user_id resp);
           "device_id" := PStr (resp_device_id resp);
           "access_token" := PStr (resp_access_token resp);
           "device_name" := PStr device_name ]}.

(** [AsyncClient(homeserver, user, device_id=..., store_path=...)]: nio keeps
    its arguments and starts with an empty [user_id] and [access_token]. *)
Definition AsyncClient_init (homeserver user device_id : pyval) (store_path : string)
  : AsyncClient :=
  {| homeserver := homeserver; user := user; user_id := PStr "";
     device_id := device_id; access_token := PStr ""; store_path := store_path |}.

(** The attribute assignments of [client.restore_login] and of a successful
    [client.login]. *)
Definition set_login (c : AsyncClient) (user_id device_id access_token : pyval)
  : AsyncClient :=
  {| homeserver := homeserver c; user := user c; user_id := user_id;
     device_id := device_id; access_token := access_token;
     store_path := store_path c |}.

(** The client that the restore branch of [login] (lines 422-434) builds
    from the credential record of [resp] and [hs]. *)
Definition restored_client (g : Globals) (resp : LoginResponse) (hs : string)
  : AsyncClient :=
  set_login
    (AsyncClient_init (PStr hs) (PStr (resp_user_id resp)) (PStr (resp_device_id resp))
       (STORE_PATH g))
    (PStr (resp_user_id resp)) (PStr (resp_device_id resp))
    (PStr (resp_access_token resp)).

(** What [sync_forever] is fed with: an event for the callback, or an
    exception raised by the sync itself (a transport failure, or an interrupt
    while it waits for the server). *)
Inductive sync_item : Type :=
| Deliver (ev : Event)
| SyncRaises (e : exn).

(** [sync_forever] does not return; when the items run out it is still
    polling. *)
Inductive pending : Type := Pending.

(** How the process ends, if it does. *)
Inductive exit_status : Type :=
| Exit (code : Z)
| Running.

Section Program.
Context {W : Type} `{NioRuntime W} {terminal : Console W}.
Variable g : Globals.

(** [Path.exists()] *)
Definition path_exists (p : string) : M W bool :=
  fun s => (Return (bool_decide (is_Some (files s !! p)) || bool_decide (p ∈ dirs s)),
            s, []).

(** [Path.mkdir()], called only for a path that was just found missing and
    whose parent exists. *)
Definition mkdir (p : string) : M W unit :=
  fun s => (Return tt,
            {| world := world s; files := files s; dirs := {[p]} ∪ dirs s |},
            [Mkdir p]).

(** [with open(p, "w") as f: f.write(contents)] *)
Definition write_file (p contents : string) : M W unit :=
  fun s => (Return tt,
            {| world := world s; files := <[p := contents]> (files s); dirs := dirs s |},
            [FileWrite p contents]).

(** [async with aiofiles.open(p, "r") as f: contents = await f.read()] *)
Definition read_file (p : string) : M W string :=
  fun s =>
    match files s !! p with
    | Some contents => (Return contents, s, [FileRead p])
    | None => (Raise OSError, s, [FileRead p])
    end.

(** [BOT_DIR / "README.md"] and [ROOT_DIR / "botdirinfo.md"] *)
Definition README : string := BOT_DIR g ++ "/" ++ "README.md".
Definition BOTDIRINFO : string := ROOT_DIR g ++ "/" ++ "botdirinfo.md".

(** Lines 94-103, executed while the module is imported: the bot directory
    is created if it is missing and the README is copied into it.  Opening
    the README for writing empties it before the source is read. *)
Definition prepare_bot_dir : M W unit :=
  bot_dir_exists <- path_exists (BOT_DIR g);;
  (if negb bot_dir_exists then
     print (CreatingBotDir (BOT_DIR g));;;
     mkdir (BOT_DIR g)
   else
     print (UsingBotDir (BOT_DIR g)));;;
  readme_exists <- path_exists README;;
  when (negb readme_exists)
    (write_file README "";;;
     text <- read_file BOTDIRINFO;;
     write_file README text).

(** Lines 337-360 *)
Definition write_details_to_disk (resp : LoginResponse) (homeserver device_name : string)
  : M W unit :=
  write_file (CONFIG_FILE g) (json_dumps (credential_record resp homeserver device_name)).

(** [await client.login(password=pw, device_name=device_name)]: on success
    nio stores the identity of the response in the client. *)
Definition client_login (c : AsyncClient) (pw device_name : string)
  : M W (LoginResult * AsyncClient) :=
  r <- call (PasswordLogin c pw device_name) (nio_login c pw device_name);;
  match r with
  | LoginOk resp =>
      ret (r, set_login c (PStr (resp_user_id resp)) (PStr (resp_device_id resp))
                (PStr (resp_access_token resp)))
  | LoginError _ => ret (r, c)
  end.

(** [client.restore_login(user_id, device_id, access_token)]: nio stores the
    three values and opens the store under [store_path].  A store that cannot
    be opened is a damaged disk, which the model leaves out like any other
    failure of the disk; so is the refusal of nio to open a store for a
    client whose user id or device id is empty or null. *)
Definition restore_login (c : AsyncClient) (user_id device_id access_token : pyval)
  : M W AsyncClient :=
  let c' := set_login c user_id device_id access_token in
  fun s => (Return c', set_world (nio_load_store c' (world s)) s, [LoadStore c']).

(** [sys.exit(code)] *)
Definition sys_exit {A} (code : Z) : M W A := raise (SystemExit code).

(** Lines 363-437 *)
Definition login : M W AsyncClient :=
  found <- path_exists (CONFIG_FILE g);;
  if negb found then
    print FirstTimeUse;;;
    homeserver <- input "Enter your homeserver URL: [https://matrix.example.org] ";;
    let homeserver := normalize_homeserver homeserver in
    user_id <- input "Enter your full user ID: [@user:example.org] ";;
    store_exists <- path_exists (STORE_PATH g);;
    when (negb store_exists) (mkdir (STORE_PATH g));;;
    let client :=
      AsyncClient_init (PStr homeserver) (PStr user_id) (PStr "") (STORE_PATH g) in
    pw <- call Getpass getpass_getpass;;
    logged <- client_login client pw (device_name g);;
    let resp := fst logged in
    let client := snd logged in
    match resp with
    | LoginOk resp => write_details_to_disk resp homeserver (device_name g)
    | LoginError message =>
        print (LoginAttempt homeserver user_id);;;
        print (FailedToLogIn message);;;
        sys_exit 1
    end;;;
    print LoggedInWithPassword;;;
    ret client
  else
    contents <- read_file (CONFIG_FILE g);;
    config <- lift (json_loads contents);;
    homeserver <- lift (py_getitem config "homeserver");;
    user <- lift (py_getitem config "user_id");;
    device_id <- lift (py_getitem config "device_id");;
    let client := AsyncClient_init homeserver user device_id (STORE_PATH g) in
    user_id <- lift (py_getitem config "user_id");;
    device_id <- lift (py_getitem config "device_id");;
    access_token <- lift (py_getitem config "access_token");;
    client <- restore_login client user_id device_id access_token;;
    print LoggedInStored;;;
    ret client.

(** [client.sync_forever(...)] with the callback registered for
    [(KeyVerificationEvent, UnknownToDeviceEvent)]: each event of these
    classes is passed to the callback, one after the other; what the
    callback raises, and what the sync itself raises, ends the loop.  The
    items are what the event loop does, as the program meets it; nothing in
    this definition says which item can follow which.  That is right for an
    [asyncio.run] that leaves SIGINT to Python (Python 3.8 to 3.10); for the
    [asyncio.run] of Python 3.11 and later, which ties the loop to what the
    handler swallowed, see [sync_forever_sigint] below. *)
Fixpoint sync_forever (callbacks : Callbacks) (items : list sync_item) : M W pending :=
  match items with
  | [] => ret Pending
  | Deliver ev :: rest =>
      to_device_callback callbacks ev;;;
      sync_forever callbacks rest
  | SyncRaises e :: _ => raise e
  end.

(** Lines 440-455 *)
Definition main (items : list sync_item) : M W pending :=
  client <- login;;
  let callbacks := {| client := client |} in
  upload <- (fun s => (Return (should_upload_keys (world s)), s, []));;
  when upload (call KeysUpload nio_keys_upload);;;
  print ReadyAndWaiting;;;
  sync_forever callbacks items.

(** Lines 458-465, applied to the coroutine that [asyncio.run] drives and
    to what leaves [asyncio.run].  An exception that neither clause catches
    ends the interpreter: with its code for [SystemExit], with 1 (and a
    report on the error stream) otherwise; so does an exception that the
    [print] of a clause raises.  [asyncio.run] itself is taken to hand on
    what leaves the coroutine; what it does on SIGINT since Python 3.11 is in
    [run_module_sigint] below. *)
Definition run_module (m : M W pending) (s : state W)
  : exit_status * state W * list action :=
  match m s with
  | (Return Pending, s', l) => (Running, s', l)
  | (Raise e, s', l) =>
      if is_Exception e then (Exit 1, s', (l ++ [Print (Traceback e)])%list)
      else
        match e with
        | KeyboardInterrupt =>
            match console ReceivedKeyboardInterrupt (world s') with
            | None => (Exit 0, s', (l ++ [Print ReceivedKeyboardInterrupt])%list)
            | Some _ => (Exit 1, s', (l ++ [Print ReceivedKeyboardInterrupt])%list)
            end
        | SystemExit code => (Exit code, s', l)
        | _ => (Exit 1, s', l)
        end
  end.

(** [asyncio.run(main())] under the module's [try] *)
Definition program (items : list sync_item) (s : state W)
  : exit_status * state W * list action :=
  run_module (main items) s.

(** One start of the process, from the preparation of the directory on
    (line 94; the prompt for the device name of line 85 comes before, see
    [start] below for the start from line 78 on).  An exception at module
    level is not caught by anything: the interpreter reports it on the error
    stream and exits with 1. *)
Definition process (items : list sync_item) (s : state W)
  : exit_status * state W * list action :=
  match prepare_bot_dir s with
  | (Return _, s1, l1) => after l1 (program items s1)
  | (Raise e, s1, l1) => (Exit 1, s1, l1)
  end.

(** One process after the other on the same disk: each run starts the
    program afresh, in whatever state the world [w] is by then, and is fed
    [items] until it ends or the items run out. *)
Fixpoint runs (rs : list (W * list sync_item)) (s : state W)
  : state W * list action :=
  match rs with
  | [] => (s, [])
  | (w, items) :: rest =>
      let x := process items (set_world w s) in
      let y := runs rest (state_of x) in
      (fst y, (trace_of x ++ snd y)%list)
  end.

End Program.

(** ** asyncio.run and SIGINT

    Since Python 3.11 [asyncio.run] installs a SIGINT handler of its own
    (asyncio/runners.py, [Runner._on_sigint]): the first SIGINT cancels the
    main task and returns, and only a later SIGINT raises
    [KeyboardInterrupt] in the code that is running.  The cancellation
    reaches the program as [CancelledError] at the next [await] that
    suspends the main task: inside the handler, where the catch-all prints it
    like any exception, or in the sync loop, where it ends [main()];
    [asyncio.run] then raises [KeyboardInterrupt] in its place.

    So a [KeyboardInterrupt] that the handler swallowed (the prompt of line
    236 is where the program waits without an [await]) comes with a
    cancellation that is still on its way, unless the program has met the
    [CancelledError] before. *)

(** What the program can tell about the cancellation of the main task. *)
Inductive cancellation : Type :=
| NotCancelled          (* no sign of a SIGINT so far *)
| CancelPending         (* cancelled; the [CancelledError] is still to come *)
| CancelDelivered.      (* the [CancelledError] was raised in the program *)

(** The cancellation after a run of the handler whose body ended with
    [swallowed]. *)
Definition after_handler (c : cancellation) (swallowed : outcome unit) : cancellation :=
  match swallowed with
  | Raise CancelledError => CancelDelivered
  | Raise KeyboardInterrupt =>
      match c with
      | CancelDelivered => CancelDelivered
      | _ => CancelPending
      end
  | _ => c
  end.

Section Sigint.
Context {W : Type} `{NioRuntime W} {terminal : Console W}.

(** [client.sync_forever(...)] under that handler.  Events that follow one
    another in the feed are delivered without an [await] of the loop in
    between (they came with one response); where the loop itself is at an
    [await] (the feed has run out, or the sync is about to raise) a pending
    cancellation takes the place of what the [await] would have given. *)
Fixpoint sync_forever_sigint (c : cancellation) (callbacks : Callbacks)
    (items : list sync_item) : M W pending :=
  match items with
  | Deliver ev :: rest =>
      fun s =>
        (to_device_callback callbacks ev;;;
         sync_forever_sigint
           (after_handler c (result_of (to_device_callback_body callbacks ev s)))
           callbacks rest) s
  | [] =>
      match c with
      | CancelPending => raise CancelledError
      | _ => ret Pending
      end
  | SyncRaises e :: _ =>
      match c with
      | CancelPending => raise CancelledError
      | _ => raise e
      end
  end.

(** [asyncio.run] of Python 3.11 and later under the module's [try]: a
    [CancelledError] that leaves [main()] after a SIGINT is replaced by
    [KeyboardInterrupt] ([Runner.run]; the handler of [asyncio.run] is the
    only one to cancel the main task of this program). *)
Definition run_module_sigint (m : M W pending) (s : state W)
  : exit_status * state W * list action :=
  run_module
    (fun s =>
       match m s with
       | (Raise CancelledError, s', l) => (Raise KeyboardInterrupt, s', l)
       | x => x
       end) s.

End Sigint.

(** ** A test double of the world

    A small implementation of [NioRuntime], used to run the program on
    concrete inputs.  It follows what nio documents: a verification call for
    a transaction id that is not in [key_verifications], or for a
    verification that was cancelled meanwhile, raises [LocalProtocolError];
    the transport always answers. *)

Module Mock.

Record World : Type := {
  sas_table : gmap string Sas;         (* client.key_verifications *)
  sas_canceled : bool;                 (* the pending verification was cancelled *)
  typed : list (outcome string);       (* what input() and getpass() will give *)
  login_result : LoginResult;          (* what the homeserver answers to a login *)
}.

Definition unknown_transaction {A} (w : World) : outcome A * World :=
  (Raise (LocalProtocolError "Key verification with the transaction id does not exist."), w).

Definition was_canceled {A} (w : World) : outcome A * World :=
  (Raise (LocalProtocolError "Key verification was canceled."), w).

(** A verification call that needs a known, live transaction. *)
Definition verification_call (txid : string) (w : World) : outcome Response * World :=
  match sas_table w !! txid with
  | None => unknown_transaction w
  | Some _ => if sas_canceled w then was_canceled w else (Return ToDeviceResponse, w)
  end.

Definition cancel_call (txid : string) (w : World) : outcome Response * World :=
  match sas_table w !! txid with
  | None => unknown_transaction w
  | Some _ => (Return ToDeviceResponse, w)
  end.

Definition sas_message (type field : string) (sas : Sas) : ToDeviceMessage :=
  {| msg_type := type;
     recipient := "@alice:example.org";
     recipient_device := PStr (other_olm_device_id sas);
     msg_content := {[ field := PStr "c2FzLXBheWxvYWQ";
                       "transaction_id" := PStr (sas_transaction_id sas) ]} |}.

Definition sas_call (type field : string) (sas : Sas) (w : World)
  : outcome ToDeviceMessage * World :=
  if sas_canceled w then was_canceled w else (Return (sas_message type field sas), w).

Definition read_line (w : World) : outcome string * World :=
  match typed w with
  | [] => (Raise (OtherException "EOFError"), w)
  | x :: rest =>
      (x, {| sas_table := sas_table w; sas_canceled := sas_canceled w;
             typed := rest; login_result := login_result w |})
  end.

(** *** A JSON codec for flat objects of strings *)

Definition dquote : ascii := "034"%char.
Definition backslash : ascii := "092"%char.

Fixpoint escape (s : string) : string :=
  match s with
  | EmptyString => EmptyString
  | String c t =>
      if Ascii.eqb c dquote || Ascii.eqb c backslash
      then String backslash (String c (escape t))
      else String c (escape t)
  end.

Definition quote (s : string) : string :=
  String dquote (escape s ++ String dquote EmptyString).

Definition is_nil {A} (l : list A) : bool :=
  match l with
  | [] => true
  | _ :: _ => false
  end.

Fixpoint dump_members (l : list (string * pyval)) : option string :=
  match l with
  | [] => Some ""
  | (k, v) :: rest =>
      match v with
      | PStr v =>
          if is_nil rest then Some (quote k ++ ": " ++ quote v)
          else
            match dump_members rest with
            | Some r => Some (quote k ++ ": " ++ quote v ++ ", " ++ r)
            | None => None
            end
      | _ => None
      end
  end.

Definition dumps (v : pyval) : string :=
  match v with
  | PDict d =>
      match dump_members (map_to_list d) with
      | Some m => "{" ++ m ++ "}"
      | None => "null"
      end
  | _ => "null"
  end.

(** Reads a string literal after its opening quote; gives the text and
    what follows the closing quote. *)
Fixpoint read_string (s : string) : option (string * string) :=
  match s with
  | EmptyString => None
  | String c t =>
      if Ascii.eqb c dquote then Some (EmptyString, t)
      else if Ascii.eqb c backslash then
        match t with
        | EmptyString => None
        | String c' t' =>
            match read_string t' with
            | Some (r, rest) => Some (String c' r, rest)
            | None => None
            end
        end
      else
        match read_string t with
        | Some (r, rest) => Some (String c r, rest)
        | None => None
        end
  end.

Fixpoint strip_prefix (p s : string) : option string :=
  match p, s with
  | EmptyString, _ => Some s
  | String a p', String b s' => if Ascii.eqb a b then strip_prefix p' s' else None
  | _, _ => None
  end.

Definition read_literal (s : string) : option (string * string) :=
  match s with
  | String c t => if Ascii.eqb c dquote then read_string t else None
  | EmptyString => None
  end.

Fixpoint read_members (fuel : nat) (s : string) : option (list (string * pyval)) :=
  match fuel with
  | O => None
  | S fuel' =>
      match read_literal s with
      | None => None
      | Some (k, r1) =>
          match strip_prefix ": " r1 with
          | None => None
          | Some r2 =>
              match read_literal r2 with
              | None => None
              | Some (v, r3) =>
                  if String.eqb r3 "}" then Some [(k, PStr v)]
                  else
                    match strip_prefix ", " r3 with
                    | None => None
                    | Some r4 =>
                        match read_members fuel' r4 with
                        | Some rest => Some ((k, PStr v) :: rest)
                        | None => None
                        end
                    end
              end
          end
      end
  end.

Definition loads (s : string) : outcome pyval :=
  if String.eqb s "{}" then Return (PDict ∅)
  else
    match strip_prefix "{" s with
    | None => Raise JSONDecodeError
    | Some t =>
        match read_members (String.length t) t with
        | Some l => Return (PDict (list_to_map l))
        | None => Raise JSONDecodeError
        end
    end.

#[global] Instance runtime : NioRuntime World := {|
  key_verifications w := sas_table w;
  nio_to_device _ _ w := (Return ToDeviceResponse, w);
  nio_accept_key_verification := verification_call;
  nio_confirm_short_auth_string := verification_call;
  nio_cancel_key_verification txid _ := cancel_call txid;
  sas_share_key := sas_call "m.key.verification.key" "key";
  sas_get_mac := sas_call "m.key.verification.mac" "mac";
  sas_get_emoji _ w := (Return [("dog", "Dog"); ("key", "Key"); ("hat", "Hat")], w);
  sas_flags _ w :=
    {| we_started_it := false; sas_accepted := true; canceled := sas_canceled w;
       timed_out := false; verified := negb (sas_canceled w);
       verified_devices := [] |};
  client_log_error _ w := (Return tt, w);
  builtin_input _ := read_line;
  getpass_getpass := read_line;
  nio_login _ _ _ w := (Return (login_result w), w);
  nio_load_store _ w := w;
  should_upload_keys _ := false;
  nio_keys_upload w := (Return tt, w);
  json_dumps := dumps;
  json_loads := loads;
|}.

(** *** Concrete inputs *)

Definition bot : AsyncClient :=
  {| homeserver := PStr "https://matrix.example.org";
     user := PStr "@bot:example.org"; user_id := PStr "@bot:example.org";
     device_id := PStr "BOTDEVICE"; access_token := PStr "syt_token";
     store_path := "/srv/botdir_bot1/store" |}.

Definition callbacks : Callbacks := {| client := bot |}.

Definition sas1 : Sas :=
  {| sas_transaction_id := "T1"; other_olm_device_id := "ALICEDEVICE" |}.

Definition world0 (answers : list (outcome string)) (known canceled : bool) : World :=
  {| sas_table := if known then {[ "T1" := sas1 ]} else ∅;
     sas_canceled := canceled;
     typed := answers;
     login_result := LoginOk {| resp_user_id := "@bot:example.org";
                                resp_device_id := "BOTDEVICE";
                                resp_access_token := "syt_token" |} |}.

Definition state0 (answers : list (outcome string)) (known canceled : bool)
  : state World :=
  {| world := world0 answers known canceled; files := ∅; dirs := {[ "/srv/botdir_bot1" ]} |}.

Definition globals : Globals := {| ROOT_DIR := "/srv"; device_name := "bot1" |}.

Definition request (content : gmap string pyval) : Event :=
  UnknownToDeviceEvent "@alice:example.org" "m.key.verification.request" content.

Definition start_event : Event :=
  KeyVerificationStart "@alice:example.org" "T1" "ALICEDEVICE" "m.sas.v1"
    ["decimal"; "emoji"].

Definition key_event : Event :=
  KeyVerificationKey "@alice:example.org" "T1" "c29tZS1rZXk".

Definition mac_event : Event :=
  KeyVerificationMac "@alice:example.org" "T1"
    {[ "ed25519:ALICEDEVICE" := PStr "bWFj" ]} "a2V5cw".

Definition cancel_event : Event :=
  KeyVerificationCancel "@alice:example.org" "T1" "m.user" "User cancelled".

End Mock.

(** ** Reading a trace *)

(** The messages handed to [client.to_device], in order. *)
Definition sent (tr : list action) : list (ToDeviceMessage * option pyval) :=
  flat_map (fun a => match a with ToDevice m t => [(m, t)] | _ => [] end) tr.

(** The calls that make the client transmit to the other device: a message
    of the handler's own, or one that nio builds for an accept, a confirm or
    a cancel. *)
Definition is_outbound (a : action) : bool :=
  match a with
  | ToDevice _ _ | AcceptKeyVerification _ | ConfirmShortAuthString _
  | CancelKeyVerification _ _ => true
  | _ => false
  end.

Definition outbound (tr : list action) : list action := List.filter is_outbound tr.

(** Everything but the printed lines: the calls into nio and the terminal. *)
Definition is_call (a : action) : bool :=
  match a with
  | Print _ => false
  | _ => true
  end.

Definition calls (tr : list action) : list action := List.filter is_call tr.

(** The writes to the local disk. *)
Definition file_writes (tr : list action) : list (string * string) :=
  flat_map (fun a => match a with FileWrite p c => [(p, c)] | _ => [] end) tr.

(** The writes to the credential file. *)
Definition config_writes (g : Globals) (tr : list action) : list (string * string) :=
  List.filter (fun pc => String.eqb (fst pc) (CONFIG_FILE g)) (file_writes tr).

(** The password logins. *)
Definition password_logins (tr : list action) : list action :=
  List.filter (fun a => match a with PasswordLogin _ _ _ => true | _ => false end) tr.

(** The credential file is there: as a file, or at least as a path that
    [Path.exists()] accepts. *)
Definition config_exists {W} (g : Globals) (s : state W) : Prop :=
  is_Some (files s !! CONFIG_FILE g) \/ CONFIG_FILE g ∈ dirs s.

(** A run from [s] that writes no file and leaves files and directories as
    they were. *)
Definition keeps_disk_at {W A} (m : M W A) (s : state W) : Prop :=
  files (state_of (m s)) = files s /\
  dirs (state_of (m s)) = dirs s /\
  file_writes (trace_of (m s)) = [].

Definition keeps_disk {W A} (m : M W A) : Prop := forall s, keeps_disk_at m s.

(** A run from [s] to [s'] with trace [tr] that leaves the credential file
    alone. *)
Definition keeps_config {W} (g : Globals) (s s' : state W) (tr : list action) : Prop :=
  files s' !! CONFIG_FILE g = files s !! CONFIG_FILE g /\
  (CONFIG_FILE g ∈ dirs s -> CONFIG_FILE g ∈ dirs s') /\
  config_writes g tr = [].

Definition leaves_config {W A} (g : Globals) (m : M W A) : Prop :=
  forall s, keeps_config g s (state_of (m s)) (trace_of (m s)).

(** ** The choice of the device name *)

(** [s[n:]] *)
Fixpoint string_drop (n : nat) (s : string) : string :=
  match n, s with
  | O, _ => s
  | S _, EmptyString => EmptyString
  | S n', String _ t => string_drop n' t
  end.

(** Lines 79-82: the names of the bot directories found beside the script,
    in the order in which [iterdir] lists the entries. *)
Definition bot_dir_names (listing : list string) : list string :=
  map (string_drop 7) (List.filter (String.prefix "botdir_") listing).

(** [str(n)] for a number that is not negative *)
Definition str (n : N) : string := NilZero.string_of_uint (N.to_uint n).

(** Line 84; [rand] is what [randint(1000, 9999)] gives. *)
Definition default_bot_name (names : list string) (rand : N) : string :=
  match names with
  | name :: _ => name
  | [] => "bot" ++ str rand
  end.

Definition device_name_prompt (default : string) : string :=
  "Choose a name for the bot device (default '" ++ default ++ "'): ".

Section DeviceName.
Context {W : Type} `{NioRuntime W}.

(** Lines 78-85: [root] is the directory of the script and [listing] the
    names of its entries.  [input(...) or default_bot_name] takes the default
    for an empty answer. *)
Definition choose_device_name (root : string) (listing : list string) (rand : N)
  : M W Globals :=
  let default_bot_name := default_bot_name (bot_dir_names listing) rand in
  answer <- input (device_name_prompt default_bot_name);;
  ret {| ROOT_DIR := root;
         device_name := if String.eqb answer "" then default_bot_name else answer |}.

End DeviceName.

(** ** The start as a whole *)

(** The prompts of a trace, in order. *)
Definition prompts (tr : list action) : list string :=
  flat_map (fun a => match a with Input p => [p] | _ => [] end) tr.

Section Start.
Context {W : Type} `{NioRuntime W} {terminal : Console W}.

(** Lines 78-465 in the order in which the interpreter runs them: the
    device name is chosen, the bot directory is prepared, the program runs.
    An exception at the first prompt is caught by nothing; it is the result
    (the exit status that the interpreter gives it is left out). *)
Definition start (root : string) (listing : list string) (rand : N)
    (items : list sync_item) (s : state W)
  : outcome exit_status * state W * list action :=
  match choose_device_name root listing rand s with
  | (Return g, s1, l1) =>
      (Return (result_of (process g items s1)), state_of (process g items s1),
       (l1 ++ trace_of (process g items s1))%list)
  | (Raise e, s1, l1) => (Raise e, s1, l1)
  end.

End Start.

(** ** Kinds of calls *)

(** A run whose calls all satisfy [allowed]. *)
Definition only {W A} (allowed : action -> bool) (m : M W A) : Prop :=
  forall s, forallb allowed (trace_of (m s)) = true.

(** The calls of the verification exchange: printing, the prompt, and the
    calls into the client and its verification objects.  The rest (the disk,
    the password login, the store, the key upload) belongs to the start of
    the program. *)
Definition is_exchange (a : action) : bool :=
  match a with
  | Print _ | LogError _ | Input _ | ToDevice _ _ | AcceptKeyVerification _
  | ConfirmShortAuthString _ | CancelKeyVerification _ _ | ShareKey _ | GetMac _
  | GetEmoji _ => true
  | _ => false
  end.

Definition is_not_input (a : action) : bool :=
  match a with
  | Input _ => false
  | _ => true
  end.

(** [isinstance(event, KeyVerificationKey)] *)
Definition is_key_event (ev : Event) : bool :=
  match ev with
  | KeyVerificationKey _ _ _ => true
  | _ => false
  end.

(** ** How a run ends *)

(** The exit code of the process for an exception that leaves
    [asyncio.run(main())]: lines 460-465, and the interpreter's own handling
    of what neither clause catches. *)
Definition exit_code (e : exn) : Z :=
  match e with
  | KeyboardInterrupt => 0
  | SystemExit code => code
  | _ => 1
  end.

(** ** Further inputs for the test double *)

(** A homeserver that refuses the password. *)
Definition world_denied (answers : list (outcome string)) : Mock.World :=
  {| Mock.sas_table := ∅; Mock.sas_canceled := false; Mock.typed := answers;
     Mock.login_result := LoginError "M_FORBIDDEN: Invalid username or password" |}.

(** A first start against that homeserver. *)
Definition state_denied (answers : list (outcome string)) : state Mock.World :=
  {| world := world_denied answers; files := ∅; dirs := {[ "/srv/botdir_bot1" ]} |}.

(** The disk of [Mock.state0] with a credential file holding [contents]. *)
Definition state_with_config (contents : string) : state Mock.World :=
  {| world := Mock.world0 [] false false;
     files := {[ CONFIG_FILE Mock.globals := contents ]};
     dirs := {[ "/srv/botdir_bot1" ]} |}.

(** The test double with a client that has keys to upload and a homeserver
    that cannot be reached for the upload. *)
Definition runtime_uploading : NioRuntime Mock.World := {|
  key_verifications := @key_verifications _ Mock.runtime;
  nio_to_device := @nio_to_device _ Mock.runtime;
  nio_accept_key_verification := @nio_accept_key_verification _ Mock.runtime;
  nio_confirm_short_auth_string := @nio_confirm_short_auth_string _ Mock.runtime;
  nio_cancel_key_verification := @nio_cancel_key_verification _ Mock.runtime;
  sas_share_key := @sas_share_key _ Mock.runtime;
  sas_get_mac := @sas_get_mac _ Mock.runtime;
  sas_get_emoji := @sas_get_emoji _ Mock.runtime;
  sas_flags := @sas_flags _ Mock.runtime;
  client_log_error := @client_log_error _ Mock.runtime;
  builtin_input := @builtin_input _ Mock.runtime;
  getpass_getpass := @getpass_getpass _ Mock.runtime;
  nio_login := @nio_login _ Mock.runtime;
  nio_load_store := @nio_load_store _ Mock.runtime;
  should_upload_keys _ := true;
  nio_keys_upload w := (Raise (OtherException "ClientConnectorError"), w);
  json_dumps := @json_dumps _ Mock.runtime;
  json_loads := @json_loads _ Mock.runtime;
|}.

(** A client that holds, under the id ["T1"], a verification object that
    carries another id. *)
Definition world_misfiled (answers : list (outcome string)) : Mock.World :=
  {| Mock.sas_table := {[ "T1" := {| sas_transaction_id := "OTHER";
                                     other_olm_device_id := "ALICEDEVICE" |} ]};
     Mock.sas_canceled := false; Mock.typed := answers;
     Mock.login_result := LoginOk {| resp_user_id := "@bot:example.org";
                                     resp_device_id := "BOTDEVICE";
                                     resp_access_token := "syt_token" |} |}.

Definition state_misfiled (answers : list (outcome string)) : state Mock.World :=
  {| world := world_misfiled answers; files := ∅; dirs := {[ "/srv/botdir_bot1" ]} |}.

(** [s] has ASCII characters only. *)
Fixpoint ascii_only (s : string) : bool :=
  match s with
  | EmptyString => true
  | String c t => (nat_of_ascii c <? 128)%nat && ascii_only t
  end.

(** A terminal with the ASCII encoding, as far as the key of a [KeyError]
    goes: the traceback of a [KeyError] whose key has other characters
    cannot be written. *)
Definition ascii_terminal : Console Mock.World :=
  fun line _ =>
    match line with
    | Traceback (KeyError (PStr k)) =>
        if ascii_only k then None else Some (OtherException "UnicodeEncodeError")
    | _ => None
    end.

(** A mac event for a transaction with a name outside ASCII. *)
Definition mac_event_latin : Event :=
  KeyVerificationMac "@alice:example.org" (String "233"%char "T1")
    {[ "ed25519:ALICEDEVICE" := PStr "bWFj" ]} "a2V5cw".

(** ** Where the program writes *)

(** [p] is the bot directory or a path below it. *)
Definition in_bot_dir (g : Globals) (p : string) : bool :=
  String.eqb p (BOT_DIR g) || String.prefix (BOT_DIR g ++ "/") p.

(** A call that creates or changes nothing outside the bot directory. *)
Definition stays_in_bot_dir (g : Globals) (a : action) : bool :=
  match a with
  | Mkdir p | FileWrite p _ => in_bot_dir g p
  | _ => true
  end.

(** [Path.exists()] as a test on the state. *)
Definition exists_at {W} (s : state W) (p : string) : bool :=
  bool_decide (is_Some (files s !! p)) || bool_decide (p ∈ dirs s).

(** Lines 100-103 on their own: the copy of the README, the second of the
    two statements of [prepare_bot_dir]. *)
Definition copy_readme {W} `{NioRuntime W} (g : Globals) : M W unit :=
  readme_exists <- path_exists (README g);;
  when (negb readme_exists)
    (write_file (README g) "";;;
     text <- read_file (BOTDIRINFO g);;
     write_file (README g) text).

(** A disk with the template. *)
Definition state_with_template : state Mock.World :=
  {| world := Mock.world0 [] false false;
     files := {[ "/srv/botdirinfo.md" := "About this bot directory" ]};
     dirs := {[ "/srv" ]} |}.

(** ** The console that takes every line

    The instance in force from here on: a theorem that names no console is
    about the program on a terminal on which [print] does not fail. *)
#[global] Instance reliable {W : Type} : Console W := fun _ _ => None.

(** * Properties *)

(** ** Running the program step by step *)

Section Steps.

Context {W : Type} `{NioRuntime W}.

Lemma after_nil {A} (x : outcome A * state W * list action) : after [] x = x.
Proof. destruct x as [[r s] l]. reflexivity. Qed.

Lemma bind_ret {A B} (a : A) (k : A -> M W B) (s : state W) :
  bind (ret a) k s = k a s.
Proof. unfold bind, ret. apply after_nil. Qed.

Lemma bind_raise {A B} (e : exn) (k : A -> M W B) (s : state W) :
  bind (raise e) k s = (Raise e, s, []).
Proof. reflexivity. Qed.

Lemma bind_print {B} (line : console_line) (k : unit -> M W B) (s : state W) :
  bind (print line) k s = after [Print line] (k tt s).
Proof. reflexivity. Qed.

Lemma bind_call_return {A B} (a : action) (op : W -> outcome A * W)
    (k : A -> M W B) (s : state W) (v : A) (w : W) :
  op (world s) = (Return v, w) ->
  bind (call a op) k s = after [a] (k v (set_world w s)).
Proof. intros Hop. unfold bind, call. rewrite Hop. reflexivity. Qed.

Lemma bind_call_raise {A B} (a : action) (op : W -> outcome A * W)
    (k : A -> M W B) (s : state W) (e : exn) (w : W) :
  op (world s) = (Raise e, w) ->
  bind (call a op) k s = (Raise e, set_world w s, [a]).
Proof. intros Hop. unfold bind, call. rewrite Hop. reflexivity. Qed.

Lemma call_return {A} (a : action) (op : W -> outcome A * W) (s : state W)
    (v : A) (w : W) :
  op (world s) = (Return v, w) -> call a op s = (Return v, set_world w s, [a]).
Proof. intros Hop. unfold call. rewrite Hop. reflexivity. Qed.

Lemma call_raise {A} (a : action) (op : W -> outcome A * W) (s : state W)
    (e : exn) (w : W) :
  op (world s) = (Raise e, w) -> call a op s = (Raise e, set_world w s, [a]).
Proof. intros Hop. unfold call. rewrite Hop. reflexivity. Qed.

Lemma bind_lookup_some {B} (txid : string) (sas : Sas) (k : Sas -> M W B)
    (s : state W) :
  key_verifications (world s) !! txid = Some sas ->
  bind (lookup_sas txid) k s = k sas s.
Proof. intros Hl. unfold bind, lookup_sas. rewrite Hl. apply after_nil. Qed.

Lemma bind_lookup_none {B} (txid : string) (k : Sas -> M W B) (s : state W) :
  key_verifications (world s) !! txid = None ->
  bind (lookup_sas txid) k s = (Raise (KeyError (PStr txid)), s, []).
Proof. intros Hl. unfold bind, lookup_sas. rewrite Hl. reflexivity. Qed.

Lemma bind_returned {A B} (m : M W A) (k : A -> M W B) (s s1 : state W)
    (a : A) (l1 : list action) :
  m s = (Return a, s1, l1) -> bind m k s = after l1 (k a s1).
Proof. intros Hm. unfold bind. rewrite Hm. reflexivity. Qed.

Lemma bind_raised {A B} (m : M W A) (k : A -> M W B) (s s1 : state W)
    (e : exn) (l1 : list action) :
  m s = (Raise e, s1, l1) -> bind m k s = (Raise e, s1, l1).
Proof. intros Hm. unfold bind. rewrite Hm. reflexivity. Qed.

Lemma try_except_returned {A} (m : M W A) (handles : exn -> bool) (h : exn -> M W A)
    (s s1 : state W) (a : A) (l1 : list action) :
  m s = (Return a, s1, l1) -> try_except m handles h s = (Return a, s1, l1).
Proof. intros Hm. unfold try_except. rewrite Hm. reflexivity. Qed.

Lemma try_except_caught {A} (m : M W A) (handles : exn -> bool) (h : exn -> M W A)
    (s s1 : state W) (e : exn) (l1 : list action) :
  m s = (Raise e, s1, l1) -> handles e = true ->
  try_except m handles h s = after l1 (h e s1).
Proof. intros Hm He. unfold try_except. rewrite Hm, He. reflexivity. Qed.

Lemma try_except_passed {A} (m : M W A) (handles : exn -> bool) (h : exn -> M W A)
    (s s1 : state W) (e : exn) (l1 : list action) :
  m s = (Raise e, s1, l1) -> handles e = false ->
  try_except m handles h s = (Raise e, s1, l1).
Proof. intros Hm He. unfold try_except. rewrite Hm, He. reflexivity. Qed.

Lemma bind_assoc {A B C} (m : M W A) (f : A -> M W B) (k : B -> M W C)
    (s : state W) :
  bind (bind m f) k s = bind m (fun x => bind (f x) k) s.
Proof.
  unfold bind. destruct (m s) as [[[a|e] s1] l1]; [|reflexivity].
  destruct (f a s1) as [[[b|e] s2] l2]; cbn; [|reflexivity].
  unfold after. cbn. by rewrite app_assoc.
Qed.

End Steps.

(** Symbolic execution of a run: the pure steps, a call whose answer is
    known by [H], a call whose answer is not known, a lookup in
    [key_verifications], and the [if isinstance(resp, ToDeviceError)] that
    follows most calls. *)
Ltac exec_pure := repeat first [rewrite bind_print | rewrite bind_ret | rewrite bind_raise].

Ltac exec_call H :=
  match goal with
  | |- context [bind (call ?a ?op) ?k ?s] =>
      first [rewrite (bind_call_return a op k s _ _ H)
            |rewrite (bind_call_raise a op k s _ _ H)]
  | |- context [call ?a ?op ?s] =>
      first [rewrite (call_return a op s _ _ H)|rewrite (call_raise a op s _ _ H)]
  end; exec_pure.

Ltac exec_any :=
  let Hop := fresh "Hop" in
  match goal with
  | |- context [bind (call ?a ?op) ?k ?s] =>
      destruct (op (world s)) as [[?|?] ?] eqn:Hop;
      [rewrite (bind_call_return a op k s _ _ Hop)
      |rewrite (bind_call_raise a op k s _ _ Hop)]
  | |- context [call ?a ?op ?s] =>
      destruct (op (world s)) as [[?|?] ?] eqn:Hop;
      [rewrite (call_return a op s _ _ Hop)|rewrite (call_raise a op s _ _ Hop)]
  end; exec_pure.

Ltac exec_lookup H :=
  match goal with
  | |- context [bind (lookup_sas ?t) ?k ?s] =>
      first [rewrite (bind_lookup_some t _ k s H)|rewrite (bind_lookup_none t k s H)]
  end; exec_pure.

Ltac exec_when :=
  match goal with
  | |- context [when (is_ToDeviceError ?r) _] =>
      destruct r; cbn [is_ToDeviceError when]; exec_pure
  end.

(** ** The handler *)

(** The handler with its [try] statement unfolded: what the body returns is
    returned, what it raises is printed. *)
Lemma to_device_callback_unfold {W} `{NioRuntime W} (self : Callbacks) (ev : Event)
    (s : state W) :
  to_device_callback self ev s =
    match to_device_callback_body self ev s with
    | (Return _, s1, l1) => (Return tt, s1, l1)
    | (Raise e, s1, l1) => (Return tt, s1, (l1 ++ [Print (Traceback e)])%list)
    end.
Proof.
  unfold to_device_callback, try_except.
  destruct (to_device_callback_body self ev s) as [[[[]|e] s1] l1]; reflexivity.
Qed.

(** *** Verification requests *)

Lemma is_not_None_true (v : pyval) : v <> PNone <-> is_not_None v = true.
Proof. destruct v; cbn; split; congruence. Qed.

Lemma in_methods (l : list pyval) (m : string) :
  existsb (fun x => py_eq_str x m) l = true <-> In (PStr m) l.
Proof.
  rewrite existsb_exists. split.
  - intros [x [Hin Hx]]. destruct x; simpl in Hx; try discriminate.
    apply String.eqb_eq in Hx. subst. exact Hin.
  - intros Hin. exists (PStr m). split; [exact Hin|]. simpl. apply String.eqb_refl.
Qed.

Lemma request_body {W} `{NioRuntime W} (self : Callbacks) (ev : Event) :
  source_type ev = "m.key.verification.request" ->
  to_device_callback_body self ev = on_request (client self) ev.
Proof. intros Hty. unfold to_device_callback_body. rewrite Hty. reflexivity. Qed.

(** C1, as the code has it.  For a request event whose content has a list
    under ['methods']: when ['m.sas.v1'] is not in the list, nothing is sent
    to the other device.  When it is in the list, and the content also has a
    ['transaction_id'] and a ['from_device'] entry and the client's
    [device_id] and [user_id] are not [None], exactly one message is sent:
    the ready message with this device's id, the method list
    [['m.sas.v1']] and the transaction id of the request.  When it is in the
    list and one of those four is missing, nothing is sent. *)
Theorem request_reply {W} `{NioRuntime W} (self : Callbacks) (ev : Event)
    (methods : list pyval) (s : state W) :
  source_type ev = "m.key.verification.request" ->
  source_content ev !! "methods" = Some (PList methods) ->
  let tr := trace_of (to_device_callback self ev s) in
  (~ In (PStr "m.sas.v1") methods -> outbound tr = []) /\
  (In (PStr "m.sas.v1") methods ->
     (forall txid from_device,
        device_id (client self) <> PNone ->
        user_id (client self) <> PNone ->
        source_content ev !! "transaction_id" = Some txid ->
        source_content ev !! "from_device" = Some from_device ->
        outbound tr = [ToDevice (ready_message (client self) ev txid from_device) (Some txid)]) /\
     (device_id (client self) = PNone \/ user_id (client self) = PNone \/
      source_content ev !! "transaction_id" = None \/
      source_content ev !! "from_device" = None ->
      outbound tr = [])).
Proof.
  intros Hty Hm tr. subst tr.
  rewrite to_device_callback_unfold, (request_body self ev Hty).
  assert (Hhead :
    on_request (client self) ev s =
    after [Print GotVerificationRequest]
      (if negb (existsb (fun x => py_eq_str x "m.sas.v1") methods)
       then print (NoSasSupport (PList methods)) s
       else
         (py_assert (is_not_None (device_id (client self)));;;
          py_assert (is_not_None (user_id (client self)));;;
          txid <- lift (dict_getitem (source_content ev) "transaction_id");;
          from_device <- lift (dict_getitem (source_content ev) "from_device");;
          resp <- to_device (ready_message (client self) ev txid from_device) (Some txid);;
          when (is_ToDeviceError resp) (print (ToDeviceFailed resp))) s)).
  { unfold on_request. rewrite bind_print.
    unfold dict_getitem at 1. rewrite Hm. cbn [lift]. rewrite bind_ret.
    cbn [py_in lift]. rewrite bind_ret.
    destruct (existsb _ methods); reflexivity. }
  rewrite Hhead. clear Hhead.
  destruct (existsb (fun x => py_eq_str x "m.sas.v1") methods) eqn:Hin; cbn [negb].
  - apply in_methods in Hin. split; [tauto|]. intros _. split.
    + intros txid from_device Hd Hu Ht Hf.
      apply is_not_None_true in Hd, Hu. rewrite Hd, Hu. cbn [py_assert].
      exec_pure.
      unfold dict_getitem; rewrite Ht, Hf; cbn [lift]; exec_pure.
      unfold to_device. exec_any; try exec_when; reflexivity.
    + intros Hmissing.
      destruct (is_not_None (device_id (client self))) eqn:Hd; cbn [py_assert];
        [rewrite bind_ret|reflexivity].
      destruct (is_not_None (user_id (client self))) eqn:Hu; cbn [py_assert];
        [rewrite bind_ret|reflexivity].
      unfold dict_getitem.
      destruct (source_content ev !! "transaction_id") as [txid|] eqn:Ht; cbn [lift];
        [rewrite bind_ret|reflexivity].
      destruct (source_content ev !! "from_device") as [fd|] eqn:Hf; cbn [lift];
        [rewrite bind_ret|reflexivity].
      exfalso. destruct Hmissing as [Hx|[Hx|[Hx|Hx]]]; try discriminate.
      * rewrite Hx in Hd. discriminate.
      * rewrite Hx in Hu. discriminate.
  - split.
    + intros _. reflexivity.
    + intros Hin'. apply in_methods in Hin'. congruence.
Qed.

(** C1 as stated fails: a request that offers ['m.sas.v1'] and has a
    transaction id but no ['from_device'] entry gets no reply; the
    [KeyError] is caught and printed. *)
Lemma request_reply_counterexample :
  let ev := Mock.request {[ "methods" := PList [PStr "m.sas.v1"];
                            "transaction_id" := PStr "T1" ]} in
  let s := Mock.state0 [] false false in
  source_type ev = "m.key.verification.request" /\
  source_content ev !! "methods" = Some (PList [PStr "m.sas.v1"]) /\
  In (PStr "m.sas.v1") [PStr "m.sas.v1"] /\
  to_device_callback Mock.callbacks ev s
  = (Return tt, s,
     [Print GotVerificationRequest; Print (Traceback (KeyError (PStr "from_device")))]) /\
  sent (trace_of (to_device_callback Mock.callbacks ev s)) = [].
Proof. cbv zeta. repeat split; try reflexivity. by left. Qed.

(** [request_reply] on a well-formed request. *)
Lemma request_reply_witness :
  let ev := Mock.request {[ "methods" := PList [PStr "m.other.v1"; PStr "m.sas.v1"];
                            "transaction_id" := PStr "T1";
                            "from_device" := PStr "ALICEDEVICE" ]} in
  let s := Mock.state0 [] false false in
  source_type ev = "m.key.verification.request" /\
  source_content ev !! "methods" = Some (PList [PStr "m.other.v1"; PStr "m.sas.v1"]) /\
  In (PStr "m.sas.v1") [PStr "m.other.v1"; PStr "m.sas.v1"] /\
  device_id (client Mock.callbacks) <> PNone /\
  user_id (client Mock.callbacks) <> PNone /\
  source_content ev !! "transaction_id" = Some (PStr "T1") /\
  source_content ev !! "from_device" = Some (PStr "ALICEDEVICE") /\
  outbound (trace_of (to_device_callback Mock.callbacks ev s))
  = [ToDevice (ready_message Mock.bot ev (PStr "T1") (PStr "ALICEDEVICE"))
       (Some (PStr "T1"))].
Proof.
  cbv zeta.
  assert (Hin : In (PStr "m.sas.v1") [PStr "m.other.v1"; PStr "m.sas.v1"])
    by (right; left; reflexivity).
  repeat (split; [first [reflexivity | exact Hin | discriminate]|]).
  refine (proj1 (proj2 (request_reply Mock.callbacks
                          (Mock.request
                             {[ "methods" := PList [PStr "m.other.v1"; PStr "m.sas.v1"];
                                "transaction_id" := PStr "T1";
                                "from_device" := PStr "ALICEDEVICE" ]})
                          [PStr "m.other.v1"; PStr "m.sas.v1"]
                          (Mock.state0 [] false false)
                          eq_refl eq_refl) Hin)
            (PStr "T1") (PStr "ALICEDEVICE") _ _ eq_refl eq_refl);
    discriminate.
Defined.

(** A request that offers another method only is not answered. *)
Example request_other_method :
  to_device_callback Mock.callbacks
    (Mock.request {[ "methods" := PList [PStr "m.other.v1"];
                     "transaction_id" := PStr "T1";
                     "from_device" := PStr "ALICEDEVICE" ]})
    (Mock.state0 [] false false)
  = (Return tt, Mock.state0 [] false false,
     [Print GotVerificationRequest; Print (NoSasSupport (PList [PStr "m.other.v1"]))]).
Proof. reflexivity. Qed.

(** *** Verification start *)

Lemma in_formats (l : list string) (f : string) :
  existsb (String.eqb f) l = true <-> In f l.
Proof.
  rewrite existsb_exists. split.
  - intros [x [Hin Hx]]. apply String.eqb_eq in Hx. by subst.
  - intros Hin. exists f. split; [exact Hin|apply String.eqb_refl].
Qed.

Lemma not_in_formats (l : list string) (f : string) :
  existsb (String.eqb f) l = false <-> ~ In f l.
Proof. rewrite <- in_formats. destruct (existsb _ l); split; congruence. Qed.




(** *** Verification key *)




(** The answer ["n"]: one cancel with [reject=True], no 'done' message. *)
Example key_rejected :
  let run := to_device_callback Mock.callbacks Mock.key_event
               (Mock.state0 [Return "n"] true false) in
  result_of run = Return tt /\
  trace_of run
  = [GetEmoji Mock.sas1;
     Print (ShowEmoji [("dog", "Dog"); ("key", "Key"); ("hat", "Hat")]);
     Input emoji_prompt; Print NoMatch; CancelKeyVerification "T1" true].
Proof. split; reflexivity. Qed.

(** *** Verification cancel *)


(** Two cancel events in a row for a verification that is already
    cancelled. *)
Example cancel_twice :
  let s := Mock.state0 [] true true in
  sync_forever Mock.callbacks [Deliver Mock.cancel_event; Deliver Mock.cancel_event] s
  = (Return Pending, s,
     [Print (CancelledBy "@alice:example.org" "User cancelled");
      Print (CancelledBy "@alice:example.org" "User cancelled")]).
Proof. reflexivity. Qed.

(** *** Verification mac *)

(** C5, as the code has it.  For a mac event whose transaction is in
    [key_verifications]: if [get_mac] raises [LocalProtocolError] the handler
    prints the error and sends nothing; if [get_mac] returns a message the
    handler sends exactly that message, once; if [get_mac] raises anything
    else, the outer [except] prints the traceback and nothing is sent.  For
    a mac event whose transaction is not in [key_verifications] the lookup
    raises [KeyError], the traceback is printed and nothing is sent. *)
Theorem mac_reply {W} `{NioRuntime W} (self : Callbacks)
    (sender transaction_id : string) (mac : gmap string pyval) (keys : string)
    (s : state W) :
  let run := to_device_callback self
               (KeyVerificationMac sender transaction_id mac keys) s in
  (forall sas, key_verifications (world s) !! transaction_id = Some sas ->
     (forall reason w1,
        sas_get_mac sas (world s) = (Raise (LocalProtocolError reason), w1) ->
        run = (Return tt, set_world w1 s,
               [GetMac sas; Print (ProtocolError (LocalProtocolError reason) sender)])) /\
     (forall msg w1,
        sas_get_mac sas (world s) = (Return msg, w1) ->
        calls (trace_of run) = [GetMac sas; ToDevice msg None]) /\
     (forall e w1,
        sas_get_mac sas (world s) = (Raise e, w1) ->
        is_LocalProtocolError e = false ->
        run = (Return tt, set_world w1 s, [GetMac sas; Print (Traceback e)]))) /\
  (key_verifications (world s) !! transaction_id = None ->
     run = (Return tt, s, [Print (Traceback (KeyError (PStr transaction_id)))])).
Proof.
  cbv zeta. rewrite to_device_callback_unfold.
  change (to_device_callback_body self (KeyVerificationMac sender transaction_id mac keys))
    with (on_mac sender transaction_id).
  unfold on_mac, to_device. split.
  - intros sas Hl. exec_lookup Hl.
    split; [|split].
    + intros reason w1 Hg.
      assert (Hget : (msg <- get_mac sas;; ret (Some msg)) s
                     = (Raise (LocalProtocolError reason), set_world w1 s, [GetMac sas])).
      { unfold get_mac. exec_call Hg. reflexivity. }
      rewrite (bind_returned _ _ s (set_world w1 s) None
                 [GetMac sas; Print (ProtocolError (LocalProtocolError reason) sender)]).
      * reflexivity.
      * rewrite (try_except_caught _ _ _ _ _ _ _ Hget); reflexivity.
    + intros msg w1 Hg.
      assert (Hget : (msg <- get_mac sas;; ret (Some msg)) s
                     = (Return (Some msg), set_world w1 s, [GetMac sas])).
      { unfold get_mac. exec_call Hg. reflexivity. }
      rewrite (bind_returned _ _ s (set_world w1 s) (Some msg) [GetMac sas]).
      * exec_any; try exec_when; reflexivity.
      * rewrite (try_except_returned _ _ _ _ _ _ _ Hget); reflexivity.
    + intros e w1 Hg He.
      assert (Hget : (msg <- get_mac sas;; ret (Some msg)) s
                     = (Raise e, set_world w1 s, [GetMac sas])).
      { unfold get_mac. exec_call Hg. reflexivity. }
      rewrite (bind_raised _ _ s (set_world w1 s) e [GetMac sas]).
      * reflexivity.
      * rewrite (try_except_passed _ _ _ _ _ _ _ Hget He); reflexivity.
  - intros Hl. exec_lookup Hl. reflexivity.
Qed.

(** C5 as stated fails: for a mac event whose transaction the client does
    not know, [get_mac] is never called, no protocol error is reported, and
    still nothing is sent. *)
Lemma mac_reply_counterexample :
  let s := Mock.state0 [] false false in
  key_verifications (world s) !! "T1" = None /\
  to_device_callback Mock.callbacks Mock.mac_event s
  = (Return tt, s, [Print (Traceback (KeyError (PStr "T1")))]) /\
  sent (trace_of (to_device_callback Mock.callbacks Mock.mac_event s)) = [].
Proof. cbv zeta. repeat split; reflexivity. Qed.

(** [mac_reply] on a mac event for a live verification. *)
Lemma mac_reply_witness :
  let s := Mock.state0 [] true false in
  let msg := Mock.sas_message "m.key.verification.mac" "mac" Mock.sas1 in
  key_verifications (world s) !! "T1" = Some Mock.sas1 /\
  sas_get_mac Mock.sas1 (world s) = (Return msg, world s) /\
  calls (trace_of (to_device_callback Mock.callbacks Mock.mac_event s))
  = [GetMac Mock.sas1; ToDevice msg None].
Proof.
  cbv zeta. repeat (split; [reflexivity|]).
  exact (proj1 (proj2 (proj1 (mac_reply Mock.callbacks "@alice:example.org" "T1"
                                {[ "ed25519:ALICEDEVICE" := PStr "bWFj" ]} "a2V5cw"
                                (Mock.state0 [] true false)) Mock.sas1 eq_refl))
           _ _ eq_refl).
Defined.

(** *** Exceptions *)

(** A [print] on any console. *)
Lemma bind_print_accepted {W} `{Console W} {B} (line : console_line)
    (k : unit -> M W B) (s : state W) :
  console line (world s) = None -> bind (print line) k s = after [Print line] (k tt s).
Proof. intros Hc. unfold bind, print. by rewrite Hc. Qed.

Lemma bind_print_refused {W} `{Console W} {B} (line : console_line)
    (k : unit -> M W B) (s : state W) (e : exn) :
  console line (world s) = Some e -> bind (print line) k s = (Raise e, s, [Print line]).
Proof. intros Hc. unfold bind, print. by rewrite Hc. Qed.

(** The handler on any console, with its [try] statement unfolded: the
    print of the traceback is outside the [try], so what it raises leaves
    the handler. *)
Lemma to_device_callback_on_console {W} `{NioRuntime W} `{Console W} (self : Callbacks)
    (ev : Event) (s : state W) :
  to_device_callback self ev s =
    match to_device_callback_body self ev s with
    | (Return _, s1, l1) => (Return tt, s1, l1)
    | (Raise e, s1, l1) =>
        match console (Traceback e) (world s1) with
        | None => (Return tt, s1, (l1 ++ [Print (Traceback e)])%list)
        | Some e' => (Raise e', s1, (l1 ++ [Print (Traceback e)])%list)
        end
    end.
Proof.
  unfold to_device_callback, try_except.
  destruct (to_device_callback_body self ev s) as [[[[]|e] s1] l1]; [reflexivity|].
  cbn [is_BaseException]. unfold print, after, result_of, state_of, trace_of.
  destruct (console (Traceback e) (world s1)); reflexivity.
Qed.




(** An exception that the sync itself raises is not the handler's: a
    keyboard interrupt while the loop waits for the server ends the process
    with code 0. *)
Lemma interrupt_while_polling {W} `{NioRuntime W} (self : Callbacks)
    (rest : list sync_item) (s : state W) :
  run_module (sync_forever self (SyncRaises KeyboardInterrupt :: rest)) s
  = (Exit 0, s, [Print ReceivedKeyboardInterrupt]).
Proof. reflexivity. Qed.

(** What was run before the module's [try] statement took over. *)
Lemma run_module_after {W} `{NioRuntime W} `{Console W} (m m' : M W pending)
    (s s1 : state W) (tr : list action) :
  m s = after tr (m' s1) -> run_module m s = after tr (run_module m' s1).
Proof.
  intros Hm. unfold run_module. rewrite Hm.
  destruct (m' s1) as [[[[]|e] s2] l2]; unfold after, result_of, state_of, trace_of;
    cbn [fst snd]; [reflexivity|].
  destruct e; cbn [is_Exception];
    try destruct (console ReceivedKeyboardInterrupt (world s2));
    cbn [fst snd]; rewrite ?app_assoc; reflexivity.
Qed.

Lemma run_module_sigint_after {W} `{NioRuntime W} `{Console W} (m m' : M W pending)
    (s s1 : state W) (tr : list action) :
  m s = after tr (m' s1) ->
  run_module_sigint m s = after tr (run_module_sigint m' s1).
Proof.
  intros Hm. unfold run_module_sigint. apply run_module_after. rewrite Hm.
  destruct (m' s1) as [[[[]|e] s2] l2]; try reflexivity. by destruct e.
Qed.

(** The loop under the SIGINT handling of [asyncio.run], one event on. *)
Lemma sync_forever_sigint_deliver {W} `{NioRuntime W} `{Console W} (c : cancellation)
    (self : Callbacks) (ev : Event) (rest : list sync_item) (s s1 : state W)
    (tr : list action) :
  to_device_callback self ev s = (Return tt, s1, tr) ->
  sync_forever_sigint c self (Deliver ev :: rest) s
  = after tr
      (sync_forever_sigint
         (after_handler c (result_of (to_device_callback_body self ev s))) self rest s1).
Proof. intros Hrun. cbn [sync_forever_sigint]. unfold bind. by rewrite Hrun. Qed.




(** ** The credential store *)

Section Disk.

Context {W : Type} `{NioRuntime W}.

Lemma bind_path_exists {B} (p : string) (k : bool -> M W B) (s : state W) :
  bind (path_exists p) k s
  = k (bool_decide (is_Some (files s !! p)) || bool_decide (p ∈ dirs s)) s.
Proof. unfold bind, path_exists. apply after_nil. Qed.

Lemma bind_mkdir {B} (p : string) (k : unit -> M W B) (s : state W) :
  bind (mkdir p) k s
  = after [Mkdir p]
      (k tt {| world := world s; files := files s; dirs := {[p]} ∪ dirs s |}).
Proof. reflexivity. Qed.

Lemma bind_write_file {B} (p c : string) (k : unit -> M W B) (s : state W) :
  bind (write_file p c) k s
  = after [FileWrite p c]
      (k tt {| world := world s; files := <[p := c]> (files s); dirs := dirs s |}).
Proof. reflexivity. Qed.

Lemma bind_read_file {B} (p c : string) (k : string -> M W B) (s : state W) :
  files s !! p = Some c ->
  bind (read_file p) k s = after [FileRead p] (k c s).
Proof. intros Hf. unfold bind, read_file. rewrite Hf. reflexivity. Qed.

Lemma path_exists_false (p : string) (s : state W) :
  files s !! p = None -> p ∉ dirs s ->
  bool_decide (is_Some (files s !! p)) || bool_decide (p ∈ dirs s) = false.
Proof.
  intros Hf Hd. rewrite Hf. rewrite (bool_decide_eq_false_2 _ Hd).
  rewrite bool_decide_eq_false_2; [reflexivity|]. by intros [? ?].
Qed.

End Disk.

Lemma normalize_with_scheme (h : string) :
  String.prefix "https://" h = true \/ String.prefix "http://" h = true ->
  normalize_homeserver h = h.
Proof.
  intros Hp. unfold normalize_homeserver.
  destruct Hp as [-> | ->]; [reflexivity|].
  by rewrite orb_true_r.
Qed.

Lemma normalize_without_scheme (h : string) :
  String.prefix "https://" h = false -> String.prefix "http://" h = false ->
  normalize_homeserver h = "https://" ++ h.
Proof. intros H1 H2. unfold normalize_homeserver. by rewrite H1, H2. Qed.

(** C9.  At a first login (no credential file), let [entered] be the answer
    to the homeserver prompt and [used] its normal form.  If [entered]
    starts with ["https://"] or ["http://"], [used] is [entered]; otherwise
    [used] is ["https://"] followed by [entered]; in both cases [used]
    starts with a scheme.  [used] is the value that [login] goes on with:
    once the user id and the password were read, the one password login of
    the run is made with a client whose homeserver is [used], and when the
    homeserver accepts it, the client that [login] returns has the
    homeserver [used] and the credential record that is written holds
    [used].  Whatever the world does, no password login of this run is made
    with another homeserver. *)
Theorem homeserver_normalized {W} `{NioRuntime W} (g : Globals) (s : state W)
    (entered : string) (w1 : W) :
  files s !! CONFIG_FILE g = None -> CONFIG_FILE g ∉ dirs s ->
  builtin_input "Enter your homeserver URL: [https://matrix.example.org] " (world s)
    = (Return entered, w1) ->
  let used := normalize_homeserver entered in
  (String.prefix "https://" entered = true \/ String.prefix "http://" entered = true ->
     used = entered) /\
  (String.prefix "https://" entered = false -> String.prefix "http://" entered = false ->
     used = "https://" ++ entered) /\
  (String.prefix "https://" used = true \/ String.prefix "http://" used = true) /\
  (password_logins (trace_of (login g s)) = [] \/
   exists user pw,
     password_logins (trace_of (login g s))
     = [PasswordLogin (AsyncClient_init (PStr used) (PStr user) (PStr "") (STORE_PATH g))
          pw (device_name g)]) /\
  (forall user w2 pw w3,
     builtin_input "Enter your full user ID: [@user:example.org] " w1
       = (Return user, w2) ->
     getpass_getpass w2 = (Return pw, w3) ->
     let c0 := AsyncClient_init (PStr used) (PStr user) (PStr "") (STORE_PATH g) in
     password_logins (trace_of (login g s)) = [PasswordLogin c0 pw (device_name g)] /\
     (forall resp w4,
        nio_login c0 pw (device_name g) w3 = (Return (LoginOk resp), w4) ->
        (exists c, result_of (login g s) = Return c /\ homeserver c = PStr used) /\
        file_writes (trace_of (login g s))
        = [(CONFIG_FILE g,
            json_dumps (credential_record resp used (device_name g)))])).
Proof.
  intros Hf Hd Hin used.
  split; [apply normalize_with_scheme|]. split; [apply normalize_without_scheme|].
  split.
  { subst used. unfold normalize_homeserver.
    destruct (String.prefix "https://" entered) eqn:E1; cbn; [by left|].
    destruct (String.prefix "http://" entered) eqn:E2; cbn; [by right|].
    left. cbn. by destruct entered. }
  split.
  { unfold login. rewrite bind_path_exists, (path_exists_false _ _ Hf Hd). cbn [negb].
    exec_pure. unfold input. exec_call Hin. fold used.
    exec_any; [|by left].
    rewrite bind_path_exists.
    match goal with |- context [when ?b _] => destruct b; cbn [when] end;
      rewrite ?bind_mkdir; exec_pure.
    all: exec_any; [|by left].
    all: unfold client_login; rewrite bind_assoc.
    all: exec_any; [|right; eexists _, _; reflexivity].
    all: right; eexists _, _.
    all: match goal with |- context [match ?r with LoginOk _ => _ | LoginError _ => _ end] =>
           destruct r end; exec_pure; cbn [fst snd].
    all: unfold write_details_to_disk; rewrite ?bind_write_file; exec_pure.
    all: reflexivity. }
  intros user w2 pw w3 H2 H3 c0. split.
  - unfold login. rewrite bind_path_exists, (path_exists_false _ _ Hf Hd). cbn [negb].
    exec_pure. unfold input. exec_call Hin. fold used. exec_call H2.
    rewrite bind_path_exists.
    match goal with |- context [when ?b _] => destruct b; cbn [when] end;
      rewrite ?bind_mkdir; exec_pure.
    all: exec_call H3.
    all: unfold client_login; rewrite bind_assoc.
    all: exec_any; [|reflexivity].
    all: match goal with |- context [match ?r with LoginOk _ => _ | LoginError _ => _ end] =>
           destruct r end; exec_pure; cbn [fst snd].
    all: unfold write_details_to_disk; rewrite ?bind_write_file; exec_pure.
    all: reflexivity.
  - intros resp w4 H4.
    unfold login. rewrite bind_path_exists, (path_exists_false _ _ Hf Hd). cbn [negb].
    exec_pure. unfold input. exec_call Hin. fold used. exec_call H2.
    rewrite bind_path_exists.
    match goal with |- context [when ?b _] => destruct b; cbn [when] end;
      rewrite ?bind_mkdir; exec_pure.
    all: exec_call H3.
    all: unfold client_login; rewrite bind_assoc; exec_call H4; cbn [fst snd].
    all: unfold write_details_to_disk; rewrite ?bind_write_file; exec_pure.
    all: split; [eexists; split; reflexivity|reflexivity].
Qed.

(** [homeserver_normalized] on a homeserver entered without a scheme. *)
Lemma homeserver_normalized_witness :
  let s := Mock.state0 [Return "matrix.example.org"; Return "@bot:example.org";
                        Return "pw"] false false in
  files s !! CONFIG_FILE Mock.globals = None /\
  (CONFIG_FILE Mock.globals ∉ dirs s) /\
  builtin_input "Enter your homeserver URL: [https://matrix.example.org] " (world s)
  = (Return "matrix.example.org",
     Mock.world0 [Return "@bot:example.org"; Return "pw"] false false) /\
  normalize_homeserver "matrix.example.org" = "https://matrix.example.org" /\
  normalize_homeserver "http://localhost:8008" = "http://localhost:8008" /\
  password_logins (trace_of (login Mock.globals s))
  = [PasswordLogin
       (AsyncClient_init (PStr "https://matrix.example.org") (PStr "@bot:example.org")
          (PStr "") (STORE_PATH Mock.globals)) "pw" "bot1"] /\
  file_writes (trace_of (login Mock.globals s))
  = [(CONFIG_FILE Mock.globals,
      json_dumps (credential_record
                    {| resp_user_id := "@bot:example.org"; resp_device_id := "BOTDEVICE";
                       resp_access_token := "syt_token" |}
                    "https://matrix.example.org" "bot1"))].
Proof.
  cbv zeta.
  assert (Hd : CONFIG_FILE Mock.globals
               ∉ dirs (Mock.state0 [Return "matrix.example.org"; Return "@bot:example.org";
                                    Return "pw"] false false)).
  { apply (bool_decide_unpack _). vm_compute. exact I. }
  pose proof (homeserver_normalized Mock.globals
                (Mock.state0 [Return "matrix.example.org"; Return "@bot:example.org";
                              Return "pw"] false false)
                "matrix.example.org"
                (Mock.world0 [Return "@bot:example.org"; Return "pw"] false false)
                eq_refl Hd eq_refl) as (_ & _ & _ & _ & Hlogin).
  destruct (Hlogin "@bot:example.org" (Mock.world0 [Return "pw"] false false)
              "pw" (Mock.world0 [] false false) eq_refl eq_refl) as (Hcall & Hok).
  destruct (Hok {| resp_user_id := "@bot:example.org"; resp_device_id := "BOTDEVICE";
                   resp_access_token := "syt_token" |}
              (Mock.world0 [] false false) eq_refl) as (_ & Hw).
  split; [reflexivity|]. split; [exact Hd|]. split; [reflexivity|].
  split; [reflexivity|]. split; [reflexivity|].
  split; [exact Hcall|exact Hw].
Defined.

Lemma credential_record_fields (resp : LoginResponse) (hs name : string) :
  py_getitem (credential_record resp hs name) "homeserver" = Return (PStr hs) /\
  py_getitem (credential_record resp hs name) "user_id" = Return (PStr (resp_user_id resp)) /\
  py_getitem (credential_record resp hs name) "device_id"
    = Return (PStr (resp_device_id resp)) /\
  py_getitem (credential_record resp hs name) "access_token"
    = Return (PStr (resp_access_token resp)).
Proof. repeat split. Qed.

(** The restore branch: a disk that holds the record of [resp] and [hs]
    gives back the client of [resp] and [hs]. *)
Lemma login_restores {W} `{NioRuntime W} (g : Globals) (resp : LoginResponse)
    (hs name : string) (s : state W) :
  files s !! CONFIG_FILE g = Some (json_dumps (credential_record resp hs name)) ->
  json_loads (json_dumps (credential_record resp hs name))
    = Return (credential_record resp hs name) ->
  login g s
  = (Return (restored_client g resp hs),
     set_world (nio_load_store (restored_client g resp hs) (world s)) s,
     [FileRead (CONFIG_FILE g); LoadStore (restored_client g resp hs);
      Print LoggedInStored]).
Proof.
  intros Hfile Hjson.
  destruct (credential_record_fields resp hs name) as (Hh & Hu & Hd & Ht).
  unfold login. rewrite bind_path_exists, Hfile.
  rewrite bool_decide_eq_true_2 by eauto. cbn [orb negb].
  rewrite (bind_read_file _ _ _ _ Hfile).
  rewrite Hjson. cbn [lift]. exec_pure.
  rewrite Hh, Hu, Hd, Ht. cbn [lift]. exec_pure.
  reflexivity.
Qed.

(** C7.  Let the credential file be written by [write_details_to_disk] for
    a login response [resp] and a homeserver [hs], and let the json module
    read back the record it wrote.  Then [login], started on that disk in any
    state [w'] of the world, takes the restore branch and returns a client
    whose [homeserver], [user_id] and [device_id] are exactly [hs] and the
    user id and device id of [resp].  Its calls are the read of the file and
    the opening of the store: no password login is made. *)
Theorem credentials_round_trip {W} `{NioRuntime W} (g : Globals) (resp : LoginResponse)
    (hs name : string) (s : state W) (w' : W) :
  json_loads (json_dumps (credential_record resp hs name))
    = Return (credential_record resp hs name) ->
  let written := state_of (write_details_to_disk g resp hs name s) in
  exists c,
    login g (set_world w' written)
    = (Return c, set_world (nio_load_store c w') written,
       [FileRead (CONFIG_FILE g); LoadStore c; Print LoggedInStored]) /\
    homeserver c = PStr hs /\
    user_id c = PStr (resp_user_id resp) /\
    device_id c = PStr (resp_device_id resp) /\
    password_logins (trace_of (login g (set_world w' written))) = [].
Proof.
  intros Hjson written.
  assert (Hfile : files (set_world w' written) !! CONFIG_FILE g
                  = Some (json_dumps (credential_record resp hs name))).
  { subst written. cbn. apply lookup_insert_eq. }
  pose proof (login_restores g resp hs name _ Hfile Hjson) as Hrun.
  exists (restored_client g resp hs). split; [exact Hrun|].
  rewrite Hrun. repeat split.
Qed.

(** [credentials_round_trip] with the codec of the test double. *)
Lemma credentials_round_trip_witness :
  let resp := {| resp_user_id := "@bot:example.org"; resp_device_id := "BOTDEVICE";
                 resp_access_token := "syt_\token" |} in
  let record := credential_record resp "https://matrix.example.org" "bot1" in
  let written := state_of (write_details_to_disk Mock.globals resp
                             "https://matrix.example.org" "bot1"
                             (Mock.state0 [] false false)) in
  json_loads (json_dumps record) = Return record /\
  exists c,
    result_of (login Mock.globals (set_world (Mock.world0 [] false false) written))
    = Return c /\
    homeserver c = PStr "https://matrix.example.org" /\
    user_id c = PStr "@bot:example.org" /\
    device_id c = PStr "BOTDEVICE".
Proof.
  cbv zeta.
  assert (Hjson : json_loads (json_dumps
                    (credential_record
                       {| resp_user_id := "@bot:example.org"; resp_device_id := "BOTDEVICE";
                          resp_access_token := "syt_\token" |}
                       "https://matrix.example.org" "bot1"))
                  = Return (credential_record
                       {| resp_user_id := "@bot:example.org"; resp_device_id := "BOTDEVICE";
                          resp_access_token := "syt_\token" |}
                       "https://matrix.example.org" "bot1"))
    by (vm_compute; reflexivity).
  split; [exact Hjson|].
  destruct (credentials_round_trip Mock.globals _ _ _ (Mock.state0 [] false false)
              (Mock.world0 [] false false) Hjson) as (c & Hrun & Hh & Hu & Hd & _).
  exists c. rewrite Hrun. repeat split; assumption.
Defined.

(** *** The codec of the test double reads back what it writes *)

Section Codec.
Import Mock.

Lemma string_app_assoc (a b c : string) : (a ++ b) ++ c = a ++ (b ++ c).
Proof.
  induction a as [|x a IH]; [reflexivity|].
  change (String x ((a ++ b) ++ c) = String x (a ++ (b ++ c))). by rewrite IH.
Qed.

Lemma string_length_app (a b : string) :
  String.length (a ++ b) = String.length a + String.length b.
Proof.
  induction a as [|x a IH]; [reflexivity|].
  change (S (String.length (a ++ b)) = S (String.length a + String.length b)).
  by rewrite IH.
Qed.

Lemma read_string_escape (s rest : string) :
  read_string (escape s ++ String dquote rest) = Some (s, rest).
Proof.
  induction s as [|c s IH]; cbn [escape].
  - reflexivity.
  - destruct (Ascii.eqb c dquote || Ascii.eqb c backslash) eqn:Hc.
    + change (read_string (String backslash (String c (escape s ++ String dquote rest)))
              = Some (String c s, rest)).
      cbn [read_string]. change (Ascii.eqb backslash dquote) with false.
      change (Ascii.eqb backslash backslash) with true. cbn iota.
      by rewrite IH.
    + apply orb_false_elim in Hc as [Hq Hb].
      change (read_string (String c (escape s ++ String dquote rest))
              = Some (String c s, rest)).
      cbn [read_string]. rewrite Hq, Hb. by rewrite IH.
Qed.

Lemma read_literal_quote (s rest : string) :
  read_literal (quote s ++ rest) = Some (s, rest).
Proof.
  change (quote s ++ rest)
    with (String dquote ((escape s ++ String dquote EmptyString) ++ rest)).
  unfold read_literal. change (Ascii.eqb dquote dquote) with true. cbv iota.
  rewrite string_app_assoc. apply read_string_escape.
Qed.

Lemma strip_prefix_app (p s : string) : strip_prefix p (p ++ s) = Some s.
Proof.
  induction p as [|c p IH]; [by destruct s|].
  change (strip_prefix (String c p) (String c (p ++ s)) = Some s).
  cbn [strip_prefix]. by rewrite Ascii.eqb_refl.
Qed.

Lemma read_members_dump (l : list (string * pyval)) :
  forall (m : string) (fuel : nat),
    l <> [] -> dump_members l = Some m -> length l <= fuel ->
    read_members fuel (m ++ "}") = Some l.
Proof.
  induction l as [|[k v] l IH]; intros m fuel Hne Hm Hfuel; [done|].
  destruct fuel as [|fuel]; [cbn in Hfuel; lia|].
  cbn [dump_members] in Hm. destruct v as [| | |v| |]; try discriminate.
  cbn [read_members].
  destruct l as [|kv l'].
  - cbn [is_nil] in Hm. injection Hm as <-.
    rewrite !string_app_assoc, read_literal_quote.
    rewrite strip_prefix_app, read_literal_quote. reflexivity.
  - cbn [is_nil] in Hm.
    destruct (dump_members (kv :: l')) as [r|] eqn:Hr; [|discriminate].
    injection Hm as <-.
    rewrite !string_app_assoc, read_literal_quote.
    rewrite strip_prefix_app, read_literal_quote.
    change (String.eqb (", " ++ r ++ "}") "}") with false. cbv iota.
    rewrite strip_prefix_app.
    rewrite (IH r fuel); [reflexivity|done|reflexivity|cbn in *; lia].
Qed.

Lemma dump_members_total (l : list (string * pyval)) :
  Forall (fun kv => exists t, snd kv = PStr t) l -> is_Some (dump_members l).
Proof.
  induction 1 as [|[k v] l [t Hv] _ IH]; [by eexists|].
  cbn in Hv. subst v. cbn [dump_members].
  destruct (is_nil l); [by eexists|]. destruct IH as [r ->]. by eexists.
Qed.

Lemma dump_members_shape (l : list (string * pyval)) (m : string) :
  l <> [] -> dump_members l = Some m ->
  (exists t, m = String dquote t) /\ length l <= String.length m.
Proof.
  revert m. induction l as [|[k v] l IH]; intros m Hne Hm; [done|].
  cbn [dump_members] in Hm. destruct v as [| | |v| |]; try discriminate.
  destruct l as [|kv l'].
  - cbn [is_nil] in Hm. injection Hm as <-. split; [by eexists|].
    change (1 <= S (String.length ((escape k ++ String dquote EmptyString)
                                    ++ ": " ++ quote v))).
    lia.
  - cbn [is_nil] in Hm.
    destruct (dump_members (kv :: l')) as [r|] eqn:Hr; [|discriminate].
    injection Hm as <-. split; [by eexists|].
    destruct (IH r) as [_ Hlen]; [done|reflexivity|].
    change (S (length (kv :: l'))
            <= S (String.length ((escape k ++ String dquote EmptyString)
                                  ++ ": " ++ quote v ++ ", " ++ r))).
    rewrite !string_length_app. lia.
Qed.

(** A dict of strings is read back as it was written. *)
Lemma loads_dumps_strings (d : gmap string pyval) :
  map_Forall (fun _ v => exists t, v = PStr t) d ->
  loads (dumps (PDict d)) = Return (PDict d).
Proof.
  intros Hd. unfold dumps.
  destruct (dump_members_total (map_to_list d)) as [m Hm].
  { apply map_Forall_to_list in Hd. eapply Forall_impl; [exact Hd|].
    by intros [k v]. }
  rewrite Hm.
  destruct (map_to_list d) as [|kv l] eqn:Hl.
  - apply map_to_list_empty_iff in Hl. subst d.
    cbn in Hm. injection Hm as <-. reflexivity.
  - destruct (dump_members_shape (kv :: l) m) as [[t ->] Hlen]; [done|exact Hm|].
    unfold loads.
    change (String.eqb ("{" ++ String dquote t ++ "}") "{}") with false. cbv iota.
    change ("{" ++ String dquote t ++ "}") with ("{" ++ (String dquote t ++ "}")).
    rewrite strip_prefix_app.
    rewrite (read_members_dump (kv :: l) (String dquote t)); [|done|exact Hm|].
    + by rewrite <- Hl, list_to_map_to_list.
    + rewrite string_length_app. lia.
Qed.

(** So the codec reads back every credential record. *)
Lemma loads_dumps_credential_record (resp : LoginResponse) (hs name : string) :
  json_loads (json_dumps (credential_record resp hs name))
  = Return (credential_record resp hs name).
Proof.
  apply loads_dumps_strings.
  repeat (apply map_Forall_insert_2; [by eexists|]). apply map_Forall_empty.
Qed.

End Codec.

(** With that codec the round trip needs no assumption: whatever record
    [write_details_to_disk] writes, the next start restores it. *)
Lemma mock_round_trip (g : Globals) (resp : LoginResponse) (hs name : string)
    (s : state Mock.World) (w' : Mock.World) :
  let written := state_of (write_details_to_disk g resp hs name s) in
  login g (set_world w' written)
  = (Return (restored_client g resp hs), set_world w' written,
     [FileRead (CONFIG_FILE g); LoadStore (restored_client g resp hs);
      Print LoggedInStored]).
Proof.
  intros written.
  rewrite (login_restores g resp hs name (set_world w' written)).
  - reflexivity.
  - subst written. cbn. apply lookup_insert_eq.
  - apply loads_dumps_credential_record.
Qed.

(** *** What leaves the disk alone *)

Lemma file_writes_app (l1 l2 : list action) :
  file_writes (l1 ++ l2) = (file_writes l1 ++ file_writes l2)%list.
Proof. unfold file_writes. apply flat_map_app. Qed.

Section Frame.

Context {W : Type} `{NioRuntime W}.

Lemma keeps_disk_ret {A} (a : A) : keeps_disk (W:=W) (ret a).
Proof. by intros s. Qed.

Lemma keeps_disk_raise {A} (e : exn) : keeps_disk (@raise W A e).
Proof. by intros s. Qed.

Lemma keeps_disk_print (line : console_line) : keeps_disk (W:=W) (print line).
Proof. by intros s. Qed.

Lemma keeps_disk_lift {A} (o : outcome A) : keeps_disk (W:=W) (lift o).
Proof. by destruct o. Qed.

Lemma keeps_disk_call {A} (a : action) (op : W -> outcome A * W) :
  (forall p c, a <> FileWrite p c) -> keeps_disk (W:=W) (call a op).
Proof.
  intros Ha s. unfold keeps_disk_at, call. cbn. repeat split.
  destruct a; try reflexivity. by destruct (Ha path contents).
Qed.

Lemma keeps_disk_at_bind {A B} (m : M W A) (k : A -> M W B) (s : state W) :
  keeps_disk_at m s -> (forall a, keeps_disk (k a)) -> keeps_disk_at (bind m k) s.
Proof.
  intros (Hf & Hd & Hw) Hk. unfold keeps_disk_at, bind in *.
  destruct (m s) as [[[a|e] s1] l1]; unfold state_of, trace_of in *;
    cbn [fst snd] in *; [|done].
  destruct (Hk a s1) as (Hf' & Hd' & Hw').
  unfold after, state_of, trace_of in *. cbn [fst snd] in *.
  rewrite file_writes_app, Hw, Hw'. repeat split; congruence.
Qed.

Lemma keeps_disk_bind {A B} (m : M W A) (k : A -> M W B) :
  keeps_disk m -> (forall a, keeps_disk (k a)) -> keeps_disk (bind m k).
Proof. intros Hm Hk s. by apply keeps_disk_at_bind. Qed.

Lemma keeps_disk_try_except {A} (m : M W A) (handles : exn -> bool)
    (h : exn -> M W A) :
  keeps_disk m -> (forall e, keeps_disk (h e)) -> keeps_disk (try_except m handles h).
Proof.
  intros Hm Hh s. destruct (Hm s) as (Hf & Hd & Hw).
  unfold keeps_disk_at, try_except in *.
  destruct (m s) as [[[a|e] s1] l1]; unfold state_of, trace_of in *;
    cbn [fst snd] in *; [done|].
  destruct (handles e); [|done].
  destruct (Hh e s1) as (Hf' & Hd' & Hw').
  unfold after, state_of, trace_of in *. cbn [fst snd] in *.
  rewrite file_writes_app, Hw, Hw'. repeat split; congruence.
Qed.

Lemma keeps_disk_lookup_sas (txid : string) : keeps_disk (lookup_sas txid).
Proof. intros s. unfold keeps_disk_at, lookup_sas. by destruct (_ !! _). Qed.

Lemma keeps_disk_to_device_callback (self : Callbacks) (ev : Event) :
  keeps_disk (to_device_callback self ev).
Proof.
  unfold to_device_callback, to_device_callback_body,
    on_request, on_start, on_cancel, on_key, on_mac, on_done, lookup_sas_py,
    to_device, accept_key_verification, confirm_short_auth_string,
    cancel_key_verification, share_key, get_mac, get_emoji, log_error, input,
    when, py_assert.
  repeat first
    [ apply keeps_disk_try_except
    | apply keeps_disk_bind
    | apply keeps_disk_print
    | apply keeps_disk_ret
    | apply keeps_disk_raise
    | apply keeps_disk_lift
    | apply keeps_disk_lookup_sas
    | (apply keeps_disk_call; discriminate)
    | match goal with
      | |- forall _, _ => intro
      | |- keeps_disk (if ?b then _ else _) => destruct b
      | |- keeps_disk (match ?x with _ => _ end) => destruct x
      end ].
Qed.

Lemma keeps_disk_sync_forever (self : Callbacks) (items : list sync_item) :
  keeps_disk (sync_forever self items).
Proof.
  induction items as [|[ev|e] rest IH]; cbn [sync_forever].
  - apply keeps_disk_ret.
  - apply keeps_disk_bind; [apply keeps_disk_to_device_callback|intros _; exact IH].
  - apply keeps_disk_raise.
Qed.

Lemma keeps_disk_read_file (g : Globals) (p : string) : keeps_disk (W:=W) (read_file p).
Proof. intros s. unfold keeps_disk_at, read_file. by destruct (_ !! _). Qed.

Lemma keeps_disk_restore_login (c : AsyncClient) (u d t : pyval) :
  keeps_disk (W:=W) (restore_login c u d t).
Proof. by intros s. Qed.

Lemma path_exists_true (g : Globals) (s : state W) :
  config_exists g s ->
  bool_decide (is_Some (files s !! CONFIG_FILE g))
  || bool_decide (CONFIG_FILE g ∈ dirs s) = true.
Proof.
  intros [Hf|Hd].
  - by rewrite (bool_decide_eq_true_2 _ Hf).
  - rewrite (bool_decide_eq_true_2 _ Hd). apply orb_true_r.
Qed.

Lemma keeps_disk_login_restore (g : Globals) (s : state W) :
  config_exists g s -> keeps_disk_at (login g) s.
Proof.
  intros Hex. unfold keeps_disk_at, login.
  rewrite bind_path_exists, (path_exists_true g s Hex). cbn [negb].
  match goal with |- context [bind ?m ?k s] =>
    change (keeps_disk_at (bind m k) s) end.
  revert s Hex. intros s _. revert s.
  repeat first
    [ apply keeps_disk_bind
    | apply keeps_disk_print
    | apply keeps_disk_ret
    | apply keeps_disk_lift
    | apply (keeps_disk_read_file g)
    | apply keeps_disk_restore_login
    | match goal with |- forall _, _ => intro end ].
Qed.

Lemma keeps_disk_main (g : Globals) (items : list sync_item) (s : state W) :
  config_exists g s -> keeps_disk_at (main g items) s.
Proof.
  intros Hex. unfold main.
  apply keeps_disk_at_bind; [by apply keeps_disk_login_restore|].
  intros c. apply keeps_disk_bind; [by intros s'|]. intros up.
  apply keeps_disk_bind.
  { destruct up; [apply keeps_disk_call; discriminate|apply keeps_disk_ret]. }
  intros _. apply keeps_disk_bind; [apply keeps_disk_print|]. intros _.
  apply keeps_disk_sync_forever.
Qed.

Lemma keeps_disk_run_module (m : M W pending) (s : state W) :
  keeps_disk_at m s ->
  files (state_of (run_module m s)) = files s /\
  dirs (state_of (run_module m s)) = dirs s /\
  file_writes (trace_of (run_module m s)) = [].
Proof.
  unfold keeps_disk_at, run_module, console, reliable.
  destruct (m s) as [[[[]|e] s1] l1]; unfold state_of, trace_of; cbn [fst snd];
    [done|].
  intros (Hf & Hd & Hw).
  destruct e; cbn [is_Exception fst snd]; rewrite ?file_writes_app, ?Hw; done.
Qed.

Lemma append_inj_l (a b c : string) : a ++ b = a ++ c -> b = c.
Proof. induction a as [|x a IH]; cbn; [done|]. intros [= Heq]. by apply IH. Qed.

Lemma README_is_not_CONFIG_FILE (g : Globals) : README g <> CONFIG_FILE g.
Proof.
  unfold README, CONFIG_FILE. intros Heq. apply append_inj_l in Heq. discriminate.
Qed.

Lemma config_writes_app (g : Globals) (l1 l2 : list action) :
  config_writes g (l1 ++ l2) = (config_writes g l1 ++ config_writes g l2)%list.
Proof. unfold config_writes. by rewrite file_writes_app, List.filter_app. Qed.

Lemma config_writes_none (g : Globals) (l : list action) :
  file_writes l = [] -> config_writes g l = [].
Proof. unfold config_writes. by intros ->. Qed.

Lemma config_writes_README (g : Globals) (text : string) :
  config_writes g [FileWrite (README g) text] = [].
Proof.
  unfold config_writes. cbn.
  destruct (String.eqb_spec (README g) (CONFIG_FILE g)) as [Heq|]; [|done].
  by destruct (README_is_not_CONFIG_FILE g).
Qed.

Lemma keeps_config_refl (g : Globals) (s : state W) : keeps_config g s s [].
Proof. by repeat split. Qed.

Lemma keeps_config_trans (g : Globals) (s1 s2 s3 : state W) (l1 l2 : list action) :
  keeps_config g s1 s2 l1 -> keeps_config g s2 s3 l2 ->
  keeps_config g s1 s3 (l1 ++ l2).
Proof.
  intros (Hf1 & Hd1 & Hw1) (Hf2 & Hd2 & Hw2). repeat split.
  - congruence.
  - auto.
  - by rewrite config_writes_app, Hw1, Hw2.
Qed.

Lemma keeps_config_of_disk {A} (g : Globals) (m : M W A) (s : state W) :
  keeps_disk_at m s -> keeps_config g s (state_of (m s)) (trace_of (m s)).
Proof.
  intros (Hf & Hd & Hw). repeat split.
  - by rewrite Hf.
  - by rewrite Hd.
  - by apply config_writes_none.
Qed.

Lemma leaves_config_of_disk {A} (g : Globals) (m : M W A) :
  keeps_disk m -> leaves_config g m.
Proof. intros Hm s. apply keeps_config_of_disk, Hm. Qed.

Lemma leaves_config_bind {A B} (g : Globals) (m : M W A) (k : A -> M W B) :
  leaves_config g m -> (forall a, leaves_config g (k a)) -> leaves_config g (bind m k).
Proof.
  intros Hm Hk s. specialize (Hm s). unfold bind.
  destruct (m s) as [[[a|e] s1] l1]; cbn [state_of trace_of after fst snd] in *;
    [|exact Hm].
  eapply keeps_config_trans; [exact Hm|apply Hk].
Qed.

(** Writing the README leaves the credential file alone. *)
Lemma leaves_config_write_README (g : Globals) (text : string) :
  leaves_config (W:=W) g (write_file (README g) text).
Proof.
  intros s. repeat split.
  - cbn. apply lookup_insert_ne, README_is_not_CONFIG_FILE.
  - done.
  - apply config_writes_README.
Qed.

Lemma leaves_config_mkdir (g : Globals) (p : string) : leaves_config (W:=W) g (mkdir p).
Proof. intros s. repeat split. cbn. set_solver. Qed.

Lemma keeps_disk_path_exists (p : string) : keeps_disk (W:=W) (path_exists p).
Proof. by intros s. Qed.

Lemma leaves_config_prepare_bot_dir (g : Globals) :
  leaves_config (W:=W) g (prepare_bot_dir g).
Proof.
  unfold prepare_bot_dir, when.
  repeat first
    [ apply leaves_config_bind
    | apply leaves_config_write_README
    | apply leaves_config_mkdir
    | (apply leaves_config_of_disk;
       first [ apply keeps_disk_path_exists | apply keeps_disk_print
             | apply keeps_disk_ret | apply (keeps_disk_read_file g) ])
    | match goal with
      | |- forall _, _ => intro
      | |- leaves_config _ (if ?b then _ else _) => destruct b
      end ].
Qed.

Lemma config_exists_kept (g : Globals) (s s' : state W) (tr : list action) :
  keeps_config g s s' tr -> config_exists g s -> config_exists g s'.
Proof.
  intros (Hf & Hd & _) [Hex|Hex]; [left; by rewrite Hf|right; auto].
Qed.

Lemma keeps_config_process (g : Globals) (items : list sync_item) (s : state W) :
  config_exists g s ->
  keeps_config g s (state_of (process g items s)) (trace_of (process g items s)).
Proof.
  intros Hex. pose proof (leaves_config_prepare_bot_dir g s) as Hprep.
  unfold process.
  destruct (prepare_bot_dir g s) as [[[[]|e] s1] l1];
    cbn [state_of trace_of after fst snd] in *.
  - eapply keeps_config_trans; [exact Hprep|].
    destruct (keeps_disk_run_module (main g items) s1) as (Hf & Hd & Hw).
    { apply keeps_disk_main. eapply config_exists_kept; eauto. }
    repeat split.
    + by rewrite <- Hf.
    + by rewrite <- Hd.
    + by apply config_writes_none.
  - exact Hprep.
Qed.

Lemma runs_keep_config (g : Globals) (rs : list (W * list sync_item)) (s : state W) :
  config_exists g s -> keeps_config g s (fst (runs g rs s)) (snd (runs g rs s)).
Proof.
  revert s. induction rs as [|[w items] rest IH]; intros s Hex;
    [apply keeps_config_refl|].
  cbn [runs fst snd].
  assert (Hrun : keeps_config g s (state_of (process g items (set_world w s)))
                   (trace_of (process g items (set_world w s)))).
  { apply (keeps_config_process g items (set_world w s)). exact Hex. }
  eapply keeps_config_trans; [exact Hrun|].
  apply IH. eapply config_exists_kept; eauto.
Qed.

End Frame.

(** A first login that succeeds: the run of [login], call by call. *)
Lemma first_login_writes {W} `{NioRuntime W} (g : Globals) (s : state W)
    (entered user pw : string) (resp : LoginResponse) (w1 w2 w3 w4 : W) :
  files s !! CONFIG_FILE g = None -> CONFIG_FILE g ∉ dirs s ->
  builtin_input "Enter your homeserver URL: [https://matrix.example.org] " (world s)
    = (Return entered, w1) ->
  builtin_input "Enter your full user ID: [@user:example.org] " w1
    = (Return user, w2) ->
  getpass_getpass w2 = (Return pw, w3) ->
  let c0 := AsyncClient_init (PStr (normalize_homeserver entered)) (PStr user)
              (PStr "") (STORE_PATH g) in
  let record := json_dumps (credential_record resp (normalize_homeserver entered)
                              (device_name g)) in
  nio_login c0 pw (device_name g) w3 = (Return (LoginOk resp), w4) ->
  result_of (login g s)
  = Return (set_login c0 (PStr (resp_user_id resp)) (PStr (resp_device_id resp))
              (PStr (resp_access_token resp))) /\
  (exists before,
     trace_of (login g s)
     = (before ++ [PasswordLogin c0 pw (device_name g);
                   FileWrite (CONFIG_FILE g) record;
                   Print LoggedInWithPassword])%list /\
     file_writes before = [] /\ password_logins before = []) /\
  file_writes (trace_of (login g s)) = [(CONFIG_FILE g, record)] /\
  files (state_of (login g s)) = <[CONFIG_FILE g := record]> (files s).
Proof.
  intros Hf Hd H1 H2 H3 c0 record H4.
  unfold login. rewrite bind_path_exists, (path_exists_false _ _ Hf Hd). cbn [negb].
  exec_pure. unfold input. exec_call H1. exec_call H2.
  rewrite bind_path_exists.
  match goal with |- context [when ?b _] => destruct b; cbn [when] end;
    rewrite ?bind_mkdir; exec_pure.
  all: exec_call H3.
  all: unfold client_login; rewrite bind_assoc; exec_call H4; cbn [fst snd].
  all: unfold write_details_to_disk; rewrite ?bind_write_file; exec_pure.
  all: split; [reflexivity|]; split; [|split; reflexivity].
  - eexists [_; _; _; _; _]. repeat split.
  - eexists [_; _; _; _]. repeat split.
Qed.

(** What follows [login] in a run writes nothing. *)
Lemma program_writes_what_login_writes {W} `{NioRuntime W} (g : Globals)
    (items : list sync_item) (s : state W) :
  file_writes (trace_of (program g items s)) = file_writes (trace_of (login g s)).
Proof.
  unfold program, run_module, main, console, reliable. unfold bind at 1.
  destruct (login g s) as [[[c|e] s1] l1].
  - match goal with |- context [after l1 (?m s1)] =>
      assert (Hrest : keeps_disk m) end.
    { apply keeps_disk_bind; [by intros s'|]. intros up.
      apply keeps_disk_bind.
      { destruct up; [apply keeps_disk_call; discriminate|apply keeps_disk_ret]. }
      intros _. apply keeps_disk_bind; [apply keeps_disk_print|]. intros _.
      apply keeps_disk_sync_forever. }
    destruct (Hrest s1) as (_ & _ & Hw). revert Hw.
    match goal with |- context [after l1 ?x] => destruct x as [[[[]|e] s2] l2] end;
      unfold after, state_of, trace_of, result_of; cbn [fst snd]; intros Hw.
    + by rewrite file_writes_app, Hw, app_nil_r.
    + destruct e; cbn [is_Exception fst snd];
        rewrite ?file_writes_app, Hw; cbn; by rewrite ?app_nil_r.
  - unfold trace_of. destruct e; cbn [is_Exception fst snd]; rewrite ?file_writes_app;
      cbn; by rewrite ?app_nil_r.
Qed.

(** C8.  First part: at a start without a credential file, when the three
    prompts are answered and the password login succeeds with [resp], the
    trace of [login] ends with the password login, the write of the record
    to the credential file and the closing line, with no write and no login
    before them; that write is the only write of the run.  Second part: at a
    start without a credential file, whatever the world answers, [login]
    writes nothing or writes the credential file once.  Third part: what
    follows [login] in the same run (the key upload, the sync loop and the
    handler) writes no file.  Fourth part: from a disk where the credential
    file exists, any number of process runs, each in any state of the world
    and fed with any events, makes no write to the credential file and leaves
    its contents as they were. *)
Theorem credentials_written_once {W} `{NioRuntime W} (g : Globals) :
  (forall (s : state W) entered user pw resp w1 w2 w3 w4,
     files s !! CONFIG_FILE g = None -> CONFIG_FILE g ∉ dirs s ->
     builtin_input "Enter your homeserver URL: [https://matrix.example.org] " (world s)
       = (Return entered, w1) ->
     builtin_input "Enter your full user ID: [@user:example.org] " w1
       = (Return user, w2) ->
     getpass_getpass w2 = (Return pw, w3) ->
     let c0 := AsyncClient_init (PStr (normalize_homeserver entered)) (PStr user)
                 (PStr "") (STORE_PATH g) in
     let record := json_dumps (credential_record resp (normalize_homeserver entered)
                                 (device_name g)) in
     nio_login c0 pw (device_name g) w3 = (Return (LoginOk resp), w4) ->
     (exists before,
        trace_of (login g s)
        = (before ++ [PasswordLogin c0 pw (device_name g);
                      FileWrite (CONFIG_FILE g) record;
                      Print LoggedInWithPassword])%list /\
        file_writes before = [] /\ password_logins before = []) /\
     file_writes (trace_of (login g s)) = [(CONFIG_FILE g, record)] /\
     files (state_of (login g s)) = <[CONFIG_FILE g := record]> (files s)) /\
  (forall (s : state W),
     files s !! CONFIG_FILE g = None -> CONFIG_FILE g ∉ dirs s ->
     file_writes (trace_of (login g s)) = [] \/
     exists record, file_writes (trace_of (login g s)) = [(CONFIG_FILE g, record)]) /\
  (forall (items : list sync_item) (s : state W),
     file_writes (trace_of (program g items s)) = file_writes (trace_of (login g s))) /\
  (forall (rs : list (W * list sync_item)) (s : state W),
     config_exists g s ->
     config_writes g (snd (runs g rs s)) = [] /\
     files (fst (runs g rs s)) !! CONFIG_FILE g = files s !! CONFIG_FILE g).
Proof.
  split; [|split; [|split]].
  - intros s entered user pw resp w1 w2 w3 w4 Hf Hd H1 H2 H3 c0 record H4.
    apply (first_login_writes g s entered user pw resp w1 w2 w3 w4 Hf Hd H1 H2 H3 H4).
  - intros s Hf Hd.
    unfold login. rewrite bind_path_exists, (path_exists_false _ _ Hf Hd). cbn [negb].
    exec_pure. unfold input.
    exec_any; [|by left]. exec_any; [|by left].
    rewrite bind_path_exists.
    match goal with |- context [when ?b _] => destruct b; cbn [when] end;
      rewrite ?bind_mkdir; exec_pure.
    all: exec_any; [|by left].
    all: unfold client_login; rewrite bind_assoc.
    all: exec_any; [|by left].
    all: match goal with |- context [match ?r with LoginOk _ => _ | LoginError _ => _ end] =>
           destruct r end; exec_pure; cbn [fst snd].
    all: unfold write_details_to_disk; rewrite ?bind_write_file; exec_pure.
    all: first [by left | right; eexists; reflexivity].
  - apply program_writes_what_login_writes.
  - intros rs s Hex. destruct (runs_keep_config g rs s Hex) as (Hf & _ & Hw). done.
Qed.

(** A first login and a later start: the second run restores the identity
    that the first one got from the homeserver. *)
Lemma first_login_then_restore {W} `{NioRuntime W} (g : Globals) (s : state W)
    (entered user pw : string) (resp : LoginResponse) (w1 w2 w3 w4 w' : W) :
  files s !! CONFIG_FILE g = None -> CONFIG_FILE g ∉ dirs s ->
  builtin_input "Enter your homeserver URL: [https://matrix.example.org] " (world s)
    = (Return entered, w1) ->
  builtin_input "Enter your full user ID: [@user:example.org] " w1
    = (Return user, w2) ->
  getpass_getpass w2 = (Return pw, w3) ->
  nio_login (AsyncClient_init (PStr (normalize_homeserver entered)) (PStr user)
               (PStr "") (STORE_PATH g)) pw (device_name g) w3
    = (Return (LoginOk resp), w4) ->
  json_loads (json_dumps (credential_record resp (normalize_homeserver entered)
                            (device_name g)))
    = Return (credential_record resp (normalize_homeserver entered) (device_name g)) ->
  exists c1 c2,
    result_of (login g s) = Return c1 /\
    result_of (login g (set_world w' (state_of (login g s)))) = Return c2 /\
    homeserver c2 = homeserver c1 /\
    user_id c2 = user_id c1 /\
    device_id c2 = device_id c1 /\
    access_token c2 = access_token c1.
Proof.
  intros Hf Hd H1 H2 H3 H4 Hjson.
  destruct (first_login_writes g s entered user pw resp w1 w2 w3 w4 Hf Hd H1 H2 H3 H4)
    as (Hc1 & _ & _ & Hfiles).
  assert (Hfile : files (set_world w' (state_of (login g s))) !! CONFIG_FILE g
                  = Some (json_dumps (credential_record resp
                                        (normalize_homeserver entered) (device_name g)))).
  { cbn [files set_world]. rewrite Hfiles. apply lookup_insert_eq. }
  pose proof (login_restores g resp _ _ _ Hfile Hjson) as Hrun.
  eexists _, _. split; [exact Hc1|]. rewrite Hrun. repeat split.
Qed.

(** [credentials_written_once] on a first login followed by two more
    runs. *)
Lemma credentials_written_once_witness :
  let s := Mock.state0 [Return "matrix.example.org"; Return "@bot:example.org";
                        Return "pw"] false false in
  let resp := {| resp_user_id := "@bot:example.org"; resp_device_id := "BOTDEVICE";
                 resp_access_token := "syt_token" |} in
  let record := json_dumps (credential_record resp "https://matrix.example.org" "bot1") in
  files s !! CONFIG_FILE Mock.globals = None /\
  (CONFIG_FILE Mock.globals ∉ dirs s) /\
  file_writes (trace_of (login Mock.globals s)) = [(CONFIG_FILE Mock.globals, record)] /\
  config_exists Mock.globals (state_of (login Mock.globals s)) /\
  config_writes Mock.globals (snd (runs Mock.globals
                      [(Mock.world0 [] true false, [Deliver Mock.key_event]);
                       (Mock.world0 [] false false, [SyncRaises KeyboardInterrupt])]
                      (state_of (login Mock.globals s)))) = [].
Proof.
  cbv zeta.
  assert (Hd : CONFIG_FILE Mock.globals
               ∉ dirs (Mock.state0 [Return "matrix.example.org"; Return "@bot:example.org";
                                    Return "pw"] false false)).
  { apply (bool_decide_unpack _). vm_compute. exact I. }
  destruct (credentials_written_once (W:=Mock.World) Mock.globals)
    as (Hfirst & _ & _ & Hlater).
  destruct (Hfirst (Mock.state0 [Return "matrix.example.org"; Return "@bot:example.org";
                                 Return "pw"] false false)
              "matrix.example.org" "@bot:example.org" "pw"
              {| resp_user_id := "@bot:example.org"; resp_device_id := "BOTDEVICE";
                 resp_access_token := "syt_token" |}
              (Mock.world0 [Return "@bot:example.org"; Return "pw"] false false)
              (Mock.world0 [Return "pw"] false false)
              (Mock.world0 [] false false) (Mock.world0 [] false false)
              eq_refl Hd eq_refl eq_refl eq_refl eq_refl) as (_ & Hwrites & Hfiles).
  assert (Hex : config_exists Mock.globals
                  (state_of (login Mock.globals
                     (Mock.state0 [Return "matrix.example.org"; Return "@bot:example.org";
                                   Return "pw"] false false)))).
  { left. rewrite Hfiles, lookup_insert_eq. eauto. }
  repeat (split; [first [exact Hd | exact Hwrites | exact Hex | reflexivity]|]).
  exact (proj1 (Hlater _ _ Hex)).
Defined.

(** * Further properties *)

(** ** The handler: the remaining branches *)

Lemma done_body {W} `{NioRuntime W} (self : Callbacks) (sender : string)
    (content : gmap string pyval) :
  to_device_callback_body self
    (UnknownToDeviceEvent sender "m.key.verification.done" content)
  = on_done (UnknownToDeviceEvent sender "m.key.verification.done" content).
Proof. reflexivity. Qed.

(** X1.  A 'done' event whose transaction id is a string known to the client
    makes the handler print the flags of the verification and the closing
    line, and nothing else: no call into the client, the state is as before.
    A 'done' event without a transaction id, or with one that the client does
    not know, ends in the catch-all with a [KeyError]; nothing is sent. *)
Theorem done_only_reports {W} `{NioRuntime W} (self : Callbacks) (sender : string)
    (content : gmap string pyval) (s : state W) :
  let run := to_device_callback self
               (UnknownToDeviceEvent sender "m.key.verification.done" content) s in
  (forall txid sas,
     content !! "transaction_id" = Some (PStr txid) ->
     key_verifications (world s) !! txid = Some sas ->
     run = (Return tt, s,
            [Print (SasSummary (sas_flags sas (world s))); Print VerificationSuccessful])) /\
  (forall txid,
     content !! "transaction_id" = Some (PStr txid) ->
     key_verifications (world s) !! txid = None ->
     run = (Return tt, s, [Print (Traceback (KeyError (PStr txid)))])) /\
  (content !! "transaction_id" = None ->
   run = (Return tt, s, [Print (Traceback (KeyError (PStr "transaction_id")))])).
Proof.
  cbv zeta. rewrite to_device_callback_unfold, done_body. unfold on_done, dict_getitem.
  cbn [source_content]. split; [|split].
  - intros txid sas Ht Hl. rewrite Ht. cbn [lift]. exec_pure. cbn [lookup_sas_py].
    exec_lookup Hl. reflexivity.
  - intros txid Ht Hl. rewrite Ht. cbn [lift]. exec_pure. cbn [lookup_sas_py].
    exec_lookup Hl. reflexivity.
  - intros Ht. rewrite Ht. reflexivity.
Qed.

Lemma done_only_reports_witness :
  let s := Mock.state0 [] true false in
  let content : gmap string pyval := {[ "transaction_id" := PStr "T1" ]} in
  content !! "transaction_id" = Some (PStr "T1") /\
  key_verifications (world s) !! "T1" = Some Mock.sas1 /\
  to_device_callback Mock.callbacks
    (UnknownToDeviceEvent "@alice:example.org" "m.key.verification.done" content) s
  = (Return tt, s,
     [Print (SasSummary (sas_flags Mock.sas1 (world s))); Print VerificationSuccessful]).
Proof.
  cbv zeta. split; [reflexivity|]. split; [reflexivity|].
  exact (proj1 (done_only_reports Mock.callbacks "@alice:example.org"
                  {[ "transaction_id" := PStr "T1" ]} (Mock.state0 [] true false))
           "T1" Mock.sas1 eq_refl eq_refl).
Defined.

(** X2.  An event of any other kind (an unknown event whose type is neither
    the request nor the 'done' type, or a [KeyVerificationAccept]) is only
    reported: the handler prints one line, makes no call and leaves the state
    as it was. *)
Theorem unexpected_event_ignored {W} `{NioRuntime W} (self : Callbacks) (ev : Event)
    (s : state W) :
  source_type ev <> "m.key.verification.request" ->
  source_type ev <> "m.key.verification.done" ->
  (exists sender type content, ev = UnknownToDeviceEvent sender type content) \/
  (exists sender txid, ev = KeyVerificationAccept sender txid) ->
  to_device_callback self ev s = (Return tt, s, [Print (UnexpectedEvent ev)]).
Proof.
  intros Hreq Hdone Hkind. rewrite to_device_callback_unfold.
  unfold to_device_callback_body.
  apply String.eqb_neq in Hreq, Hdone. rewrite Hreq.
  destruct Hkind as [(sender & type & content & ->)|(sender & txid & ->)].
  - cbn [source_type] in *. rewrite Hdone. reflexivity.
  - reflexivity.
Qed.

Lemma unexpected_event_ignored_witness :
  let ev := UnknownToDeviceEvent "@alice:example.org" "m.room_key_request" ∅ in
  let s := Mock.state0 [] true false in
  source_type ev <> "m.key.verification.request" /\
  source_type ev <> "m.key.verification.done" /\
  to_device_callback Mock.callbacks ev s = (Return tt, s, [Print (UnexpectedEvent ev)]).
Proof.
  cbv zeta.
  assert (H1 : source_type (UnknownToDeviceEvent "@alice:example.org" "m.room_key_request" ∅)
               <> "m.key.verification.request") by discriminate.
  assert (H2 : source_type (UnknownToDeviceEvent "@alice:example.org" "m.room_key_request" ∅)
               <> "m.key.verification.done") by discriminate.
  split; [exact H1|]. split; [exact H2|].
  apply (unexpected_event_ignored Mock.callbacks _ (Mock.state0 [] true false) H1 H2).
  left. by eexists _, _, _.
Defined.

(** ** What the handler never does *)

Section Only.
Context {W : Type} `{NioRuntime W}.
Variable allowed : action -> bool.

Lemma only_ret {A} (a : A) : only (W:=W) allowed (ret a).
Proof. by intros s. Qed.

Lemma only_raise {A} (e : exn) : only allowed (@raise W A e).
Proof. by intros s. Qed.

Lemma only_lift {A} (o : outcome A) : only (W:=W) allowed (lift o).
Proof. by destruct o. Qed.

Lemma only_print (line : console_line) :
  allowed (Print line) = true -> only (W:=W) allowed (print line).
Proof. intros Ha s. cbn. by rewrite Ha. Qed.

Lemma only_call {A} (a : action) (op : W -> outcome A * W) :
  allowed a = true -> only (W:=W) allowed (call a op).
Proof. intros Ha s. cbn. by rewrite Ha. Qed.

Lemma only_lookup_sas (txid : string) : only (W:=W) allowed (lookup_sas txid).
Proof. intros s. unfold lookup_sas. by destruct (_ !! _). Qed.

Lemma only_bind {A B} (m : M W A) (k : A -> M W B) :
  only allowed m -> (forall a, only allowed (k a)) -> only allowed (bind m k).
Proof.
  intros Hm Hk s. specialize (Hm s). unfold bind.
  destruct (m s) as [[[a|e] s1] l1]; unfold after, trace_of in *; cbn [fst snd] in *;
    [|exact Hm].
  rewrite forallb_app, Hm. apply Hk.
Qed.

Lemma only_try_except {A} (m : M W A) (handles : exn -> bool) (h : exn -> M W A) :
  only allowed m -> (forall e, only allowed (h e)) -> only allowed (try_except m handles h).
Proof.
  intros Hm Hh s. specialize (Hm s). unfold try_except.
  destruct (m s) as [[[a|e] s1] l1]; unfold after, trace_of in *; cbn [fst snd] in *;
    [exact Hm|].
  destruct (handles e); [|exact Hm].
  cbn [snd]. rewrite forallb_app, Hm. apply Hh.
Qed.

End Only.

(** Builds a proof of [only allowed m] along the structure of [m]. *)
Ltac only_tac :=
  repeat first
    [ apply only_try_except
    | apply only_bind
    | (apply only_print; reflexivity)
    | apply only_ret
    | apply only_raise
    | apply only_lift
    | apply only_lookup_sas
    | (apply only_call; reflexivity)
    | solve [intros ?; reflexivity]
    | match goal with
      | |- forall _, _ => intro
      | |- only _ (if ?b then _ else _) => destruct b
      | |- only _ (match ?x with _ => _ end) => destruct x
      end ].

Ltac unfold_handler :=
  unfold to_device_callback, to_device_callback_body,
    on_request, on_start, on_cancel, on_key, on_mac, on_done, lookup_sas_py,
    to_device, accept_key_verification, confirm_short_auth_string,
    cancel_key_verification, share_key, get_mac, get_emoji, log_error, input,
    when, py_assert.

Lemma only_exchange_to_device_callback {W} `{NioRuntime W} (self : Callbacks) (ev : Event) :
  only (W:=W) is_exchange (to_device_callback self ev).
Proof. unfold_handler. only_tac. Qed.

(** X3.  Whatever the event and whatever the library does, the handler
    makes only calls of the verification exchange: it never reads or writes a
    file, makes no directory, asks for no password, makes no password login,
    opens no store and uploads no keys; the files and directories are as
    before. *)
Theorem handler_stays_in_the_exchange {W} `{NioRuntime W} (self : Callbacks) (ev : Event)
    (s : state W) :
  forallb is_exchange (trace_of (to_device_callback self ev s)) = true /\
  files (state_of (to_device_callback self ev s)) = files s /\
  dirs (state_of (to_device_callback self ev s)) = dirs s.
Proof.
  split; [apply only_exchange_to_device_callback|].
  destruct (keeps_disk_to_device_callback self ev s) as (Hf & Hd & _). by split.
Qed.

(** X4.  The prompt is the key branch's alone: for an event that is not a
    [KeyVerificationKey], the handler never calls [input], so it never waits
    for the operator. *)
Theorem prompt_only_for_key_events {W} `{NioRuntime W} (self : Callbacks) (ev : Event)
    (s : state W) :
  is_key_event ev = false ->
  forallb is_not_input (trace_of (to_device_callback self ev s)) = true.
Proof.
  intros Hkey. revert s.
  change (only (W:=W) is_not_input (to_device_callback self ev)).
  destruct ev; try discriminate; unfold_handler; only_tac.
Qed.

Lemma prompt_only_for_key_events_witness :
  is_key_event Mock.mac_event = false /\
  forallb is_not_input
    (trace_of (to_device_callback Mock.callbacks Mock.mac_event
                 (Mock.state0 [Return "y"] true false))) = true.
Proof.
  split; [reflexivity|].
  exact (prompt_only_for_key_events Mock.callbacks Mock.mac_event
           (Mock.state0 [Return "y"] true false) eq_refl).
Defined.

(** ** Requests whose methods entry is not a list *)

(** A request up to the membership test. *)
Lemma on_request_head {W} `{NioRuntime W} (c : AsyncClient) (ev : Event) (v : pyval)
    (s : state W) :
  source_content ev !! "methods" = Some v ->
  on_request c ev s =
  after [Print GotVerificationRequest]
    ((present <- lift (py_in "m.sas.v1" v);;
      if negb present then print (NoSasSupport v)
      else
        py_assert (is_not_None (device_id c));;;
        py_assert (is_not_None (user_id c));;;
        txid <- lift (dict_getitem (source_content ev) "transaction_id");;
        from_device <- lift (dict_getitem (source_content ev) "from_device");;
        resp <- to_device (ready_message c ev txid from_device) (Some txid);;
        when (is_ToDeviceError resp) (print (ToDeviceFailed resp))) s).
Proof.
  intros Hm. unfold on_request. rewrite bind_print.
  unfold dict_getitem at 1. rewrite Hm. cbn [lift]. by rewrite bind_ret.
Qed.

(** X5.  A request without a ['methods'] entry, or whose entry is [null], a
    boolean or a number, is dropped: the [KeyError] or [TypeError] of the
    membership test is caught, its traceback is printed, no call is made and
    the state is as before. *)
Theorem request_without_methods {W} `{NioRuntime W} (self : Callbacks) (ev : Event)
    (s : state W) :
  source_type ev = "m.key.verification.request" ->
  (source_content ev !! "methods" = None ->
   to_device_callback self ev s
   = (Return tt, s,
      [Print GotVerificationRequest; Print (Traceback (KeyError (PStr "methods")))])) /\
  (forall v,
     source_content ev !! "methods" = Some v ->
     v = PNone \/ (exists b, v = PBool b) \/ (exists z, v = PNum z) ->
     to_device_callback self ev s
     = (Return tt, s, [Print GotVerificationRequest; Print (Traceback TypeError)])).
Proof.
  intros Hty. rewrite to_device_callback_unfold, (request_body self ev Hty). split.
  - intros Hm. unfold on_request, dict_getitem. rewrite bind_print, Hm. reflexivity.
  - intros v Hm Hv. rewrite (on_request_head _ _ v _ Hm).
    destruct Hv as [->|[[b ->]|[z ->]]]; reflexivity.
Qed.

Lemma request_without_methods_witness :
  let ev := Mock.request {[ "transaction_id" := PStr "T1";
                            "from_device" := PStr "ALICEDEVICE" ]} in
  let s := Mock.state0 [] false false in
  source_type ev = "m.key.verification.request" /\
  source_content ev !! "methods" = None /\
  to_device_callback Mock.callbacks ev s
  = (Return tt, s,
     [Print GotVerificationRequest; Print (Traceback (KeyError (PStr "methods")))]).
Proof.
  cbv zeta. split; [reflexivity|]. split; [reflexivity|].
  exact (proj1 (request_without_methods Mock.callbacks
                  (Mock.request {[ "transaction_id" := PStr "T1";
                                   "from_device" := PStr "ALICEDEVICE" ]})
                  (Mock.state0 [] false false) eq_refl) eq_refl).
Defined.

Lemma prefix_app (n h : string) :
  String.prefix n h = true <-> exists b, h = n ++ b.
Proof.
  revert h. induction n as [|c n IH]; intros h.
  - split; [intros _; by exists h|intros _; by destruct h].
  - destruct h as [|c' h].
    + split; [discriminate|]. intros [b Hb]. discriminate.
    + cbn [String.prefix]. destruct (ascii_dec c c') as [->|Hne].
      * rewrite IH. split; intros [b Hb]; exists b.
        -- by rewrite Hb.
        -- by injection Hb.
      * split; [discriminate|]. intros [b Hb]. injection Hb as Hc _. congruence.
Qed.

(** [str_contains] is the substring test. *)
Lemma str_contains_app (n h : string) :
  str_contains n h = true <-> exists a b, h = a ++ n ++ b.
Proof.
  induction h as [|c h IH]; cbn [str_contains].
  - rewrite orb_false_r, prefix_app. split.
    + intros [b Hb]. by exists "", b.
    + intros (a & b & Hab). exists b. destruct a; [done|discriminate].
  - rewrite orb_true_iff, prefix_app, IH. split.
    + intros [[b Hb]|(a & b & Hab)].
      * by exists "", b.
      * exists (String c a), b. by rewrite Hab.
    + intros (a & b & Hab). destruct a as [|c' a].
      * left. by exists b.
      * right. exists a, b. by injection Hab.
Qed.

(** X6.  When the ['methods'] entry of a request is a string instead of a
    list, Python's [in] is the substring test: the request is answered with
    the ready message exactly when the string contains ["m.sas.v1"]
    somewhere (given, as for a list, the two ids of the client and the
    ['transaction_id'] and ['from_device'] entries); otherwise nothing is
    sent. *)
Theorem request_methods_as_string {W} `{NioRuntime W} (self : Callbacks) (ev : Event)
    (h : string) (txid from_device : pyval) (s : state W) :
  source_type ev = "m.key.verification.request" ->
  source_content ev !! "methods" = Some (PStr h) ->
  device_id (client self) <> PNone ->
  user_id (client self) <> PNone ->
  source_content ev !! "transaction_id" = Some txid ->
  source_content ev !! "from_device" = Some from_device ->
  let tr := trace_of (to_device_callback self ev s) in
  ((exists a b, h = a ++ "m.sas.v1" ++ b) ->
   outbound tr = [ToDevice (ready_message (client self) ev txid from_device) (Some txid)]) /\
  (~ (exists a b, h = a ++ "m.sas.v1" ++ b) -> outbound tr = []).
Proof.
  intros Hty Hm Hd Hu Ht Hf tr. subst tr.
  rewrite to_device_callback_unfold, (request_body self ev Hty).
  rewrite (on_request_head _ _ _ _ Hm). cbn [py_in lift]. rewrite bind_ret.
  destruct (str_contains "m.sas.v1" h) eqn:Hin; cbn [negb].
  - split; [intros _|intros Hno; apply str_contains_app in Hin; by destruct Hno].
    apply is_not_None_true in Hd, Hu. rewrite Hd, Hu. cbn [py_assert]. exec_pure.
    unfold dict_getitem. rewrite Ht, Hf. cbn [lift]. exec_pure.
    unfold to_device. exec_any; try exec_when; reflexivity.
  - split; [|intros _; reflexivity].
    intros Hyes. apply str_contains_app in Hyes. congruence.
Qed.

Lemma request_methods_as_string_witness :
  let ev := Mock.request {[ "methods" := PStr "org.example.m.sas.v1.beta";
                            "transaction_id" := PStr "T1";
                            "from_device" := PStr "ALICEDEVICE" ]} in
  let s := Mock.state0 [] false false in
  source_type ev = "m.key.verification.request" /\
  source_content ev !! "methods" = Some (PStr "org.example.m.sas.v1.beta") /\
  device_id (client Mock.callbacks) <> PNone /\
  user_id (client Mock.callbacks) <> PNone /\
  source_content ev !! "transaction_id" = Some (PStr "T1") /\
  source_content ev !! "from_device" = Some (PStr "ALICEDEVICE") /\
  (exists a b, "org.example.m.sas.v1.beta" = a ++ "m.sas.v1" ++ b) /\
  outbound (trace_of (to_device_callback Mock.callbacks ev s))
  = [ToDevice (ready_message Mock.bot ev (PStr "T1") (PStr "ALICEDEVICE"))
       (Some (PStr "T1"))].
Proof.
  cbv zeta.
  assert (Hd : device_id (client Mock.callbacks) <> PNone) by discriminate.
  assert (Hu : user_id (client Mock.callbacks) <> PNone) by discriminate.
  assert (Hsub : exists a b, "org.example.m.sas.v1.beta" = a ++ "m.sas.v1" ++ b)
    by (exists "org.example.", ".beta"; reflexivity).
  split; [reflexivity|]. split; [reflexivity|]. split; [exact Hd|]. split; [exact Hu|].
  split; [reflexivity|]. split; [reflexivity|]. split; [exact Hsub|].
  exact (proj1 (request_methods_as_string Mock.callbacks
                  (Mock.request {[ "methods" := PStr "org.example.m.sas.v1.beta";
                                   "transaction_id" := PStr "T1";
                                   "from_device" := PStr "ALICEDEVICE" ]})
                  "org.example.m.sas.v1.beta" (PStr "T1") (PStr "ALICEDEVICE")
                  (Mock.state0 [] false false) eq_refl eq_refl Hd Hu eq_refl eq_refl)
           Hsub).
Defined.

(** ** The answer at the emoji prompt *)

(** Only the two cases of a letter lower to that letter. *)
Lemma lower_is_y (yn : string) : lower yn = "y" <-> yn = "y" \/ yn = "Y".
Proof.
  split; [|by intros [->| ->]].
  destruct yn as [|c [|c' t]]; cbn [lower]; try discriminate.
  intros [= Hc]. destruct c as [[] [] [] [] [] [] [] []]; try discriminate Hc; auto.
Qed.

Lemma lower_is_n (yn : string) : lower yn = "n" <-> yn = "n" \/ yn = "N".
Proof.
  split; [|by intros [->| ->]].
  destruct yn as [|c [|c' t]]; cbn [lower]; try discriminate.
  intros [= Hc]. destruct c as [[] [] [] [] [] [] [] []]; try discriminate Hc; auto.
Qed.

(** X7.  The answer at the emoji prompt is compared as a whole: any answer
    other than the single letters [y], [Y], [n] and [N] (the empty line, the
    [C] that the prompt offers, but also [yes] and [no]) cancels the
    verification with [reject=False], and nothing else is transmitted. *)
Theorem other_answers_cancel {W} `{NioRuntime W} (self : Callbacks)
    (sender transaction_id key : string) (s : state W)
    (sas : Sas) (emoji : list (string * string)) (w1 : W) (yn : string) (w2 : W) :
  key_verifications (world s) !! transaction_id = Some sas ->
  sas_get_emoji sas (world s) = (Return emoji, w1) ->
  builtin_input emoji_prompt w1 = (Return yn, w2) ->
  yn ∉ ["y"; "Y"; "n"; "N"] ->
  outbound (trace_of (to_device_callback self
                        (KeyVerificationKey sender transaction_id key) s))
  = [CancelKeyVerification transaction_id false].
Proof.
  intros Hl He Hi Hyn.
  assert (Hy : lower yn <> "y").
  { intros Hy. apply lower_is_y in Hy as [->| ->]; apply Hyn; repeat constructor. }
  assert (Hn : lower yn <> "n").
  { intros Hn. apply lower_is_n in Hn as [->| ->]; apply Hyn; repeat constructor. }
  apply String.eqb_neq in Hy, Hn.
  rewrite to_device_callback_unfold.
  change (to_device_callback_body self (KeyVerificationKey sender transaction_id key))
    with (on_key sender transaction_id).
  unfold on_key, get_emoji, input, cancel_key_verification.
  exec_lookup Hl. exec_call He. exec_call Hi. rewrite Hy, Hn. exec_pure.
  exec_any; try exec_when; reflexivity.
Qed.

Lemma other_answers_cancel_witness :
  let s := Mock.state0 [Return "yes"] true false in
  key_verifications (world s) !! "T1" = Some Mock.sas1 /\
  builtin_input emoji_prompt (world s) = (Return "yes", Mock.world0 [] true false) /\
  ("yes" ∉ ["y"; "Y"; "n"; "N"]) /\
  outbound (trace_of (to_device_callback Mock.callbacks Mock.key_event s))
  = [CancelKeyVerification "T1" false].
Proof.
  cbv zeta.
  assert (Hyn : "yes" ∉ ["y"; "Y"; "n"; "N"]).
  { apply (bool_decide_unpack _). vm_compute. exact I. }
  split; [reflexivity|]. split; [reflexivity|]. split; [exact Hyn|].
  exact (other_answers_cancel Mock.callbacks "@alice:example.org" "T1" "c29tZS1rZXk"
           (Mock.state0 [Return "yes"] true false) Mock.sas1
           [("dog", "Dog"); ("key", "Key"); ("hat", "Hat")]
           (Mock.world0 [Return "yes"] true false) "yes" (Mock.world0 [] true false)
           eq_refl eq_refl eq_refl Hyn).
Defined.

(** ** The sync loop *)

(** The handler returns, whatever happens in it. *)
Lemma to_device_callback_returns {W} `{NioRuntime W} (self : Callbacks) (ev : Event)
    (s : state W) :
  result_of (to_device_callback self ev s) = Return tt.
Proof.
  rewrite to_device_callback_unfold.
  by destruct (to_device_callback_body self ev s) as [[[[]|e] s1] l1].
Qed.

Lemma sync_forever_delivers {W} `{NioRuntime W} (self : Callbacks) (evs : list Event)
    (s : state W) :
  result_of (sync_forever self (map Deliver evs) s) = Return Pending.
Proof.
  revert s. induction evs as [|ev evs IH]; intros s; [reflexivity|].
  cbn [map sync_forever]. unfold bind.
  pose proof (to_device_callback_returns self ev s) as Hret.
  destruct (to_device_callback self ev s) as [[[[]|e] s1] l1]; [|discriminate Hret].
  apply IH.
Qed.

Lemma sync_forever_app {W} `{NioRuntime W} (self : Callbacks) (evs : list Event)
    (rest : list sync_item) (s : state W) :
  sync_forever self (map Deliver evs ++ rest) s
  = after (trace_of (sync_forever self (map Deliver evs) s))
      (sync_forever self rest (state_of (sync_forever self (map Deliver evs) s))).
Proof.
  revert s. induction evs as [|ev evs IH]; intros s.
  - cbn. by rewrite after_nil.
  - cbn [map app sync_forever]. unfold bind.
    pose proof (to_device_callback_returns self ev s) as Hret.
    destruct (to_device_callback self ev s) as [[[[]|e] s1] l1]; [|discriminate Hret].
    rewrite IH. unfold after, result_of, state_of, trace_of. cbn [fst snd].
    by rewrite app_assoc.
Qed.

(** On a console that takes every line the handler returns. *)
Lemma to_device_callback_returns_on {W} `{NioRuntime W} `{Console W} (self : Callbacks)
    (ev : Event) (s : state W) :
  (forall line w, console line w = None) ->
  result_of (to_device_callback self ev s) = Return tt.
Proof.
  intros Hok. rewrite to_device_callback_on_console.
  destruct (to_device_callback_body self ev s) as [[[[]|e] s1] l1]; [reflexivity|].
  by rewrite Hok.
Qed.

(** X8.  On a console that takes every line, events alone never end the
    program with an error, whatever the library and the operator do while
    they are handled.  Under an [asyncio.run] that leaves SIGINT to Python
    the loop is still polling after the last event and the process has not
    exited.  Under the SIGINT handling of [asyncio.run] the process is still
    polling too, or it has ended with exit code 0: the cancellation that
    came with a keyboard interrupt has reached the loop. *)
Theorem events_never_end_the_loop {W} `{NioRuntime W} `{Console W} (self : Callbacks)
    (evs : list Event) (s : state W) :
  (forall line w, console line w = None) ->
  (result_of (sync_forever self (map Deliver evs) s) = Return Pending /\
   result_of (run_module (sync_forever self (map Deliver evs)) s) = Running) /\
  (forall c,
     result_of (run_module_sigint (sync_forever_sigint c self (map Deliver evs)) s)
     = Running \/
     result_of (run_module_sigint (sync_forever_sigint c self (map Deliver evs)) s)
     = Exit 0).
Proof.
  intros Hok. split.
  - assert (Hret : result_of (sync_forever self (map Deliver evs) s) = Return Pending).
    { revert s. induction evs as [|ev evs IH]; intros s; [reflexivity|].
      cbn [map sync_forever]. unfold bind.
      pose proof (to_device_callback_returns_on self ev s Hok) as Hret.
      destruct (to_device_callback self ev s) as [[[[]|e] s1] l1]; [|discriminate Hret].
      apply IH. }
    split; [exact Hret|]. unfold run_module.
    destruct (sync_forever self (map Deliver evs) s) as [[[[]|e] s1] l1];
      [reflexivity|discriminate Hret].
  - intros c.
    assert (Hres : result_of (sync_forever_sigint c self (map Deliver evs) s)
                   = Return Pending \/
                   result_of (sync_forever_sigint c self (map Deliver evs) s)
                   = Raise CancelledError).
    { revert c s. induction evs as [|ev evs IH]; intros c s.
      - destruct c; [by left|by right|by left].
      - cbn [map sync_forever_sigint]. unfold bind.
        pose proof (to_device_callback_returns_on self ev s Hok) as Hret.
        destruct (to_device_callback self ev s) as [[[[]|e] s1] l1];
          [|discriminate Hret].
        apply IH. }
    unfold run_module_sigint, run_module.
    destruct (sync_forever_sigint c self (map Deliver evs) s) as [[[[]|e] s1] l1];
      destruct Hres as [Hres|Hres]; try discriminate Hres.
    + by left.
    + injection Hres as ->. right. cbn [is_Exception]. by rewrite Hok.
Qed.

Lemma events_never_end_the_loop_witness :
  let s := Mock.state0 [Raise KeyboardInterrupt] true false in
  let evs := [Mock.key_event; Mock.cancel_event] in
  (forall line (w : Mock.World), console line w = None) /\
  result_of (run_module (sync_forever Mock.callbacks (map Deliver evs)) s) = Running /\
  result_of (run_module_sigint
               (sync_forever_sigint NotCancelled Mock.callbacks (map Deliver evs)) s)
  = Exit 0.
Proof.
  cbv zeta.
  assert (Hok : forall line (w : Mock.World), console line w = None) by reflexivity.
  split; [exact Hok|].
  split; [|reflexivity].
  exact (proj2 (proj1 (events_never_end_the_loop (H0:=reliable) Mock.callbacks
                         [Mock.key_event; Mock.cancel_event]
                         (Mock.state0 [Raise KeyboardInterrupt] true false) Hok))).
Defined.

Lemma run_module_raised {W} `{NioRuntime W} (m : M W pending) (s s1 : state W)
    (e : exn) (l1 : list action) :
  m s = (Raise e, s1, l1) ->
  result_of (run_module m s) = Exit (exit_code e) /\
  state_of (run_module m s) = s1 /\
  exists closing,
    trace_of (run_module m s) = (l1 ++ closing)%list /\ calls closing = [] /\
    (is_Exception e = true -> closing = [Print (Traceback e)]) /\
    (e = KeyboardInterrupt -> closing = [Print ReceivedKeyboardInterrupt]).
Proof.
  intros Hm. unfold run_module. rewrite Hm.
  destruct e; cbn [is_Exception exit_code result_of state_of trace_of fst snd];
    (split; [reflexivity|]); (split; [reflexivity|]).
  all: first [ by exists []; rewrite app_nil_r | by eexists [_] ].
Qed.


(** ** Starts that fail *)

Section FailedStart.
Context {W : Type} `{NioRuntime W}.
Variable g : Globals.

(** What [login] raises ends [main] at once. *)
Lemma main_login_raised (items : list sync_item) (s s1 : state W) (e : exn)
    (l1 : list action) :
  login g s = (Raise e, s1, l1) -> main g items s = (Raise e, s1, l1).
Proof. intros Hl. unfold main. by rewrite (bind_raised _ _ _ _ _ _ Hl). Qed.

(** The start of a first login, up to the password prompt. *)
Lemma first_login_unfold (s : state W) :
  files s !! CONFIG_FILE g = None -> CONFIG_FILE g ∉ dirs s ->
  login g s
  = after [Print FirstTimeUse]
      ((homeserver <- input "Enter your homeserver URL: [https://matrix.example.org] ";;
        let homeserver := normalize_homeserver homeserver in
        user_id <- input "Enter your full user ID: [@user:example.org] ";;
        store_exists <- path_exists (STORE_PATH g);;
        when (negb store_exists) (mkdir (STORE_PATH g));;;
        let client :=
          AsyncClient_init (PStr homeserver) (PStr user_id) (PStr "") (STORE_PATH g) in
        pw <- call Getpass getpass_getpass;;
        logged <- client_login client pw (device_name g);;
        let resp := fst logged in
        let client := snd logged in
        match resp with
        | LoginOk resp => write_details_to_disk g resp homeserver (device_name g)
        | LoginError message =>
            print (LoginAttempt homeserver user_id);;;
            print (FailedToLogIn message);;;
            sys_exit 1
        end;;;
        print LoggedInWithPassword;;;
        ret client) s).
Proof.
  intros Hf Hd. unfold login.
  rewrite bind_path_exists, (path_exists_false _ _ Hf Hd). cbn [negb].
  by rewrite bind_print.
Qed.

End FailedStart.

(** X10.  A password login that the homeserver refuses ends the start: the
    two lines about the failure are printed after the login call, [login]
    raises [SystemExit(1)], no file is written and the credential file is
    still missing, so the next start asks again.  The process exits with
    code 1 without handling any event. *)
Theorem refused_login_exits {W} `{NioRuntime W} (g : Globals) (s : state W)
    (entered user pw message : string) (w1 w2 w3 w4 : W) :
  files s !! CONFIG_FILE g = None -> CONFIG_FILE g ∉ dirs s ->
  builtin_input "Enter your homeserver URL: [https://matrix.example.org] " (world s)
    = (Return entered, w1) ->
  builtin_input "Enter your full user ID: [@user:example.org] " w1
    = (Return user, w2) ->
  getpass_getpass w2 = (Return pw, w3) ->
  let c0 := AsyncClient_init (PStr (normalize_homeserver entered)) (PStr user)
              (PStr "") (STORE_PATH g) in
  nio_login c0 pw (device_name g) w3 = (Return (LoginError message), w4) ->
  result_of (login g s) = Raise (SystemExit 1) /\
  (exists before,
     trace_of (login g s)
     = (before ++ [PasswordLogin c0 pw (device_name g);
                   Print (LoginAttempt (normalize_homeserver entered) user);
                   Print (FailedToLogIn message)])%list /\
     password_logins before = []) /\
  file_writes (trace_of (login g s)) = [] /\
  files (state_of (login g s)) = files s /\
  forall items,
    program g items s = (Exit 1, state_of (login g s), trace_of (login g s)).
Proof.
  intros Hf Hd H1 H2 H3 c0 H4.
  assert (Hrun : exists before s1,
            login g s
            = (Raise (SystemExit 1), s1,
               (before ++ [PasswordLogin c0 pw (device_name g);
                           Print (LoginAttempt (normalize_homeserver entered) user);
                           Print (FailedToLogIn message)])%list) /\
            password_logins before = [] /\ file_writes before = [] /\
            files s1 = files s).
  { rewrite (first_login_unfold g s Hf Hd). unfold input. exec_call H1. exec_call H2.
    rewrite bind_path_exists.
    match goal with |- context [when ?b _] => destruct b; cbn [when] end;
      rewrite ?bind_mkdir; exec_pure.
    all: exec_call H3.
    all: unfold client_login; rewrite bind_assoc; exec_call H4; cbn [fst snd].
    all: unfold sys_exit; exec_pure.
    - eexists [_; _; _; _; _], _. repeat split.
    - eexists [_; _; _; _], _. repeat split. }
  destruct Hrun as (before & s1 & Hrun & Hp & Hw & Hfiles). rewrite Hrun.
  cbn [result_of state_of trace_of fst snd].
  split; [reflexivity|]. split; [by exists before|].
  split; [by rewrite file_writes_app, Hw|]. split; [exact Hfiles|].
  intros items. unfold program, run_module.
  by rewrite (main_login_raised g items _ _ _ _ Hrun).
Qed.

Lemma refused_login_exits_witness :
  let s := state_denied [Return "matrix.example.org"; Return "@bot:example.org";
                         Return "wrong"] in
  files s !! CONFIG_FILE Mock.globals = None /\
  (CONFIG_FILE Mock.globals ∉ dirs s) /\
  result_of (login Mock.globals s) = Raise (SystemExit 1) /\
  file_writes (trace_of (login Mock.globals s)) = [] /\
  result_of (program Mock.globals [Deliver Mock.key_event] s) = Exit 1.
Proof.
  cbv zeta.
  assert (Hd : CONFIG_FILE Mock.globals
               ∉ dirs (state_denied [Return "matrix.example.org";
                                     Return "@bot:example.org"; Return "wrong"])).
  { apply (bool_decide_unpack _). vm_compute. exact I. }
  pose proof (refused_login_exits Mock.globals
              (state_denied [Return "matrix.example.org"; Return "@bot:example.org";
                             Return "wrong"])
              "matrix.example.org" "@bot:example.org"
              "wrong" "M_FORBIDDEN: Invalid username or password"
              (world_denied [Return "@bot:example.org"; Return "wrong"])
              (world_denied [Return "wrong"]) (world_denied []) (world_denied [])
              eq_refl Hd eq_refl eq_refl eq_refl eq_refl)
    as (Hres & _ & Hw & _ & Hprog).
  split; [reflexivity|]. split; [exact Hd|]. split; [exact Hres|]. split; [exact Hw|].
  by rewrite Hprog.
Defined.

(** X11.  An exception at one of the three prompts of a first login (the
    homeserver, the user id, the password) leaves [login] as it is: no
    password login is made, no file is written, the credential file is still
    missing.  The process ends with the exit code of the exception, 0 for a
    keyboard interrupt, and handles no event. *)
Theorem interrupted_first_login {W} `{NioRuntime W} (g : Globals) (s : state W)
    (e : exn) :
  files s !! CONFIG_FILE g = None -> CONFIG_FILE g ∉ dirs s ->
  (exists w1,
     builtin_input "Enter your homeserver URL: [https://matrix.example.org] " (world s)
     = (Raise e, w1)) \/
  (exists entered w1 w2,
     builtin_input "Enter your homeserver URL: [https://matrix.example.org] " (world s)
     = (Return entered, w1) /\
     builtin_input "Enter your full user ID: [@user:example.org] " w1 = (Raise e, w2)) \/
  (exists entered w1 user w2 w3,
     builtin_input "Enter your homeserver URL: [https://matrix.example.org] " (world s)
     = (Return entered, w1) /\
     builtin_input "Enter your full user ID: [@user:example.org] " w1 = (Return user, w2) /\
     getpass_getpass w2 = (Raise e, w3)) ->
  result_of (login g s) = Raise e /\
  password_logins (trace_of (login g s)) = [] /\
  file_writes (trace_of (login g s)) = [] /\
  files (state_of (login g s)) = files s /\
  forall items,
    result_of (program g items s) = Exit (exit_code e) /\
    exists closing,
      trace_of (program g items s) = (trace_of (login g s) ++ closing)%list /\
      calls closing = [].
Proof.
  intros Hf Hd Hprompt.
  assert (Hrun : exists s1 l1,
            login g s = (Raise e, s1, l1) /\ password_logins l1 = [] /\
            file_writes l1 = [] /\ files s1 = files s).
  { rewrite (first_login_unfold g s Hf Hd). unfold input.
    destruct Hprompt as [(w1 & H1)|[(entered & w1 & w2 & H1 & H2)
                                   |(entered & w1 & user & w2 & w3 & H1 & H2 & H3)]].
    - exec_call H1. by eexists _, _.
    - exec_call H1. exec_call H2. by eexists _, _.
    - exec_call H1. exec_call H2. rewrite bind_path_exists.
      match goal with |- context [when ?b _] => destruct b; cbn [when] end;
        rewrite ?bind_mkdir; exec_pure.
      all: exec_call H3; by eexists _, _. }
  destruct Hrun as (s1 & l1 & Hrun & Hp & Hw & Hfiles). rewrite Hrun.
  cbn [result_of state_of trace_of fst snd].
  split; [reflexivity|]. split; [exact Hp|]. split; [exact Hw|]. split; [exact Hfiles|].
  intros items.
  destruct (run_module_raised _ _ _ _ _ (main_login_raised g items _ _ _ _ Hrun))
    as (Hres & _ & closing & Htr & Hc & _).
  split; [exact Hres|]. by exists closing.
Qed.

Lemma interrupted_first_login_witness :
  let s := Mock.state0 [Return "matrix.example.org"; Return "@bot:example.org";
                        Raise KeyboardInterrupt] false false in
  files s !! CONFIG_FILE Mock.globals = None /\
  (CONFIG_FILE Mock.globals ∉ dirs s) /\
  getpass_getpass (Mock.world0 [Raise KeyboardInterrupt] false false)
  = (Raise KeyboardInterrupt, Mock.world0 [] false false) /\
  result_of (login Mock.globals s) = Raise KeyboardInterrupt /\
  password_logins (trace_of (login Mock.globals s)) = [] /\
  result_of (program Mock.globals [] s) = Exit 0.
Proof.
  cbv zeta.
  assert (Hd : CONFIG_FILE Mock.globals
               ∉ dirs (Mock.state0 [Return "matrix.example.org"; Return "@bot:example.org";
                                    Raise KeyboardInterrupt] false false)).
  { apply (bool_decide_unpack _). vm_compute. exact I. }
  destruct (interrupted_first_login (W:=Mock.World) Mock.globals
              (Mock.state0 [Return "matrix.example.org"; Return "@bot:example.org";
                            Raise KeyboardInterrupt] false false)
              KeyboardInterrupt eq_refl Hd)
    as (Hres & Hp & _ & _ & Hprog).
  { right. right.
    exists "matrix.example.org",
      (Mock.world0 [Return "@bot:example.org"; Raise KeyboardInterrupt] false false),
      "@bot:example.org", (Mock.world0 [Raise KeyboardInterrupt] false false),
      (Mock.world0 [] false false).
    repeat split. }
  split; [reflexivity|]. split; [exact Hd|]. split; [reflexivity|].
  split; [exact Hres|]. split; [exact Hp|].
  exact (proj1 (Hprog [])).
Defined.

(** ** The credential file as it is found *)

(** The restore branch of [login], from the decoding on. *)
Lemma restore_unfold {W} `{NioRuntime W} (g : Globals) (s : state W) (contents : string) :
  files s !! CONFIG_FILE g = Some contents ->
  login g s
  = after [FileRead (CONFIG_FILE g)]
      ((config <- lift (json_loads contents);;
        homeserver <- lift (py_getitem config "homeserver");;
        user <- lift (py_getitem config "user_id");;
        device_id <- lift (py_getitem config "device_id");;
        let client := AsyncClient_init homeserver user device_id (STORE_PATH g) in
        user_id <- lift (py_getitem config "user_id");;
        device_id <- lift (py_getitem config "device_id");;
        access_token <- lift (py_getitem config "access_token");;
        client <- restore_login client user_id device_id access_token;;
        print LoggedInStored;;;
        ret client) s).
Proof.
  intros Hfile. unfold login. rewrite bind_path_exists, Hfile.
  rewrite bool_decide_eq_true_2 by eauto. cbn [orb negb].
  by rewrite (bind_read_file _ _ _ _ Hfile).
Qed.

(** X12.  A credential file that cannot be used stops every start.  If
    [json.loads] raises on its contents, [login] raises the same exception
    right after the read.  If the contents decode to something that is not a
    dict, or to a dict that lacks one of the four entries, [login] raises a
    [TypeError] or a [KeyError] and the process exits with code 1.  In both
    cases nothing is asked, no login is made, the store is not opened and the
    disk is as before, so the next start fails in the same way. *)
Theorem damaged_credentials_stop_the_start {W} `{NioRuntime W} (g : Globals)
    (s : state W) (contents : string) :
  files s !! CONFIG_FILE g = Some contents ->
  (forall e,
     json_loads contents = Raise e ->
     login g s = (Raise e, s, [FileRead (CONFIG_FILE g)])) /\
  (forall config k,
     json_loads contents = Return config ->
     k ∈ ["homeserver"; "user_id"; "device_id"; "access_token"] ->
     (forall v, py_getitem config k <> Return v) ->
     exists e,
       (e = TypeError \/ exists k', e = KeyError (PStr k')) /\
       login g s = (Raise e, s, [FileRead (CONFIG_FILE g)]) /\
       forall items,
         program g items s
         = (Exit 1, s, [FileRead (CONFIG_FILE g); Print (Traceback e)])).
Proof.
  intros Hfile. split.
  - intros e He. rewrite (restore_unfold g s contents Hfile), He. reflexivity.
  - intros config k Hc Hk Hmiss.
    assert (Hrun : exists e,
              (e = TypeError \/ exists k', e = KeyError (PStr k')) /\
              login g s = (Raise e, s, [FileRead (CONFIG_FILE g)])).
    { rewrite (restore_unfold g s contents Hfile), Hc. cbn [lift]. exec_pure.
      destruct config as [| | | | |d];
        try (exists TypeError; split; [by left|reflexivity]).
      cbn [py_getitem] in *. unfold dict_getitem in *.
      destruct (d !! "homeserver") as [hs|] eqn:Hhs; cbn [lift]; exec_pure;
        [|eexists; split; [right; by eexists|reflexivity]].
      destruct (d !! "user_id") as [u|] eqn:Hu; cbn [lift]; exec_pure;
        [|eexists; split; [right; by eexists|reflexivity]].
      destruct (d !! "device_id") as [dv|] eqn:Hdv; cbn [lift]; exec_pure;
        [|eexists; split; [right; by eexists|reflexivity]].
      destruct (d !! "access_token") as [t|] eqn:Ht; cbn [lift]; exec_pure;
        [|eexists; split; [right; by eexists|reflexivity]].
      exfalso. rewrite !elem_of_cons, elem_of_nil in Hk.
      destruct Hk as [->|[->|[->|[->|[]]]]].
      - apply (Hmiss hs). by rewrite Hhs.
      - apply (Hmiss u). by rewrite Hu.
      - apply (Hmiss dv). by rewrite Hdv.
      - apply (Hmiss t). by rewrite Ht. }
    destruct Hrun as (e & He & Hrun). exists e. split; [exact He|]. split; [exact Hrun|].
    intros items. unfold program, run_module.
    rewrite (main_login_raised g items _ _ _ _ Hrun).
    by destruct He as [->|[k' ->]].
Qed.

Lemma damaged_credentials_stop_the_start_witness :
  let s := state_with_config "{}" in
  files s !! CONFIG_FILE Mock.globals = Some "{}" /\
  json_loads "{}" = Return (PDict ∅) /\
  ("access_token" ∈ ["homeserver"; "user_id"; "device_id"; "access_token"]) /\
  (forall v, py_getitem (PDict ∅) "access_token" <> Return v) /\
  exists e, program Mock.globals [Deliver Mock.key_event] s
            = (Exit 1, s, [FileRead (CONFIG_FILE Mock.globals); Print (Traceback e)]).
Proof.
  cbv zeta.
  assert (Hk : "access_token" ∈ ["homeserver"; "user_id"; "device_id"; "access_token"])
    by repeat constructor.
  assert (Hmiss : forall v, py_getitem (PDict ∅) "access_token" <> Return v)
    by (intros v; discriminate).
  split; [reflexivity|]. split; [reflexivity|]. split; [exact Hk|]. split; [exact Hmiss|].
  pose proof (proj2 (damaged_credentials_stop_the_start Mock.globals
                       (state_with_config "{}") "{}" eq_refl)
                (PDict ∅) "access_token" eq_refl Hk Hmiss) as (e & _ & _ & Hprog).
  exists e. apply Hprog.
Defined.

(** ** The key upload *)



(** ** The homeserver address *)

(** X15.  Normalizing the homeserver address twice is normalizing it once:
    an address that [login] has completed with a scheme is left alone when it
    is entered again. *)
Theorem normalize_homeserver_idempotent (homeserver : string) :
  normalize_homeserver (normalize_homeserver homeserver) = normalize_homeserver homeserver.
Proof.
  apply normalize_with_scheme. unfold normalize_homeserver.
  destruct (String.prefix "https://" homeserver) eqn:E1; cbn [orb negb]; [by left|].
  destruct (String.prefix "http://" homeserver) eqn:E2; cbn [orb negb]; [by right|].
  left. apply prefix_app. by eexists.
Qed.

(** ** Where the program writes *)

Lemma in_bot_dir_child (g : Globals) (name : string) :
  in_bot_dir g (BOT_DIR g ++ "/" ++ name) = true.
Proof.
  unfold in_bot_dir. apply orb_true_iff. right. apply prefix_app.
  exists name. by rewrite string_app_assoc.
Qed.

Lemma in_bot_dir_self (g : Globals) : in_bot_dir g (BOT_DIR g) = true.
Proof. unfold in_bot_dir. by rewrite String.eqb_refl. Qed.

Lemma only_weaken {W A} (p q : action -> bool) (m : M W A) :
  (forall a, p a = true -> q a = true) -> only p m -> only q m.
Proof.
  intros Hpq Hm s. specialize (Hm s). rewrite forallb_forall in *. auto.
Qed.

Section Within.
Context {W : Type} `{NioRuntime W}.
Variable g : Globals.

Lemma only_path_exists (allowed : action -> bool) (p : string) :
  only (W:=W) allowed (path_exists p).
Proof. by intros s. Qed.

Lemma only_read_file (allowed : action -> bool) (p : string) :
  allowed (FileRead p) = true -> only (W:=W) allowed (read_file p).
Proof. intros Ha s. unfold read_file. destruct (_ !! _); cbn; by rewrite Ha. Qed.

Lemma only_mkdir (allowed : action -> bool) (p : string) :
  allowed (Mkdir p) = true -> only (W:=W) allowed (mkdir p).
Proof. intros Ha s. cbn. by rewrite Ha. Qed.

Lemma only_write_file (allowed : action -> bool) (p c : string) :
  allowed (FileWrite p c) = true -> only (W:=W) allowed (write_file p c).
Proof. intros Ha s. cbn. by rewrite Ha. Qed.

Lemma stays_sync_forever (self : Callbacks) (items : list sync_item) :
  only (stays_in_bot_dir g) (sync_forever self items).
Proof.
  induction items as [|[ev|e] rest IH]; cbn [sync_forever].
  - apply only_ret.
  - apply only_bind; [|intros _; exact IH].
    apply (only_weaken is_exchange); [by intros []|].
    apply only_exchange_to_device_callback.
  - apply only_raise.
Qed.

Lemma stays_prepare_bot_dir : only (W:=W) (stays_in_bot_dir g) (prepare_bot_dir g).
Proof.
  unfold prepare_bot_dir, when.
  repeat first
    [ apply only_bind
    | apply only_path_exists
    | (apply only_print; reflexivity)
    | apply only_ret
    | (apply only_read_file; reflexivity)
    | (apply only_write_file; apply in_bot_dir_child)
    | (apply only_mkdir; apply in_bot_dir_self)
    | match goal with
      | |- forall _, _ => intro
      | |- only _ (if ?b then _ else _) => destruct b
      end ].
Qed.

Lemma stays_login : only (W:=W) (stays_in_bot_dir g) (login g).
Proof.
  unfold login, when, client_login, write_details_to_disk, restore_login, sys_exit, input.
  repeat first
    [ apply only_bind
    | apply only_path_exists
    | (apply only_print; reflexivity)
    | apply only_ret
    | apply only_raise
    | apply only_lift
    | (apply only_read_file; reflexivity)
    | (apply only_write_file; apply in_bot_dir_child)
    | (apply only_mkdir; apply in_bot_dir_child)
    | (apply only_call; reflexivity)
    | solve [intros ?; reflexivity]
    | match goal with
      | |- forall _, _ => intro
      | |- only _ (if ?b then _ else _) => destruct b
      | |- only _ (match ?x with _ => _ end) => destruct x
      end ].
Qed.

Lemma stays_main (items : list sync_item) :
  only (W:=W) (stays_in_bot_dir g) (main g items).
Proof.
  unfold main. apply only_bind; [apply stays_login|]. intros c.
  apply only_bind; [by intros s|]. intros up.
  apply only_bind.
  { destruct up; [by apply only_call|apply only_ret]. }
  intros _. apply only_bind; [by apply only_print|]. intros _.
  apply stays_sync_forever.
Qed.

End Within.

(** X16.  A start of the process creates and writes nothing outside its bot
    directory: every directory it makes and every file it writes, at the
    preparation of the directory, at the login and while events are handled,
    is the bot directory or a path below it. *)
Theorem process_stays_in_bot_dir {W} `{NioRuntime W} (g : Globals)
    (items : list sync_item) (s : state W) :
  forallb (stays_in_bot_dir g) (trace_of (process g items s)) = true.
Proof.
  unfold process. pose proof (stays_prepare_bot_dir g s) as Hprep.
  destruct (prepare_bot_dir g s) as [[[[]|e] s1] l1];
    unfold trace_of in *; cbn [after fst snd] in *; [|exact Hprep].
  unfold trace_of. cbn [snd]. rewrite forallb_app, Hprep. cbn [andb].
  unfold program, run_module, console, reliable.
  pose proof (stays_main g items s1) as Hmain.
  destruct (main g items s1) as [[[[]|e] s2] l2]; unfold trace_of in *;
    cbn [fst snd] in *; [exact Hmain|].
  destruct e; cbn [is_Exception snd]; rewrite ?forallb_app, ?Hmain; reflexivity.
Qed.

(** ** The preparation of the bot directory *)

Lemma README_is_not_BOTDIRINFO (g : Globals) : README g <> BOTDIRINFO g.
Proof.
  unfold README, BOTDIRINFO, BOT_DIR. rewrite !string_app_assoc.
  intros Heq. apply append_inj_l in Heq. discriminate.
Qed.

Lemma README_is_not_BOT_DIR (g : Globals) : README g <> BOT_DIR g.
Proof.
  unfold README. intros Heq. apply (f_equal String.length) in Heq.
  rewrite string_length_app in Heq.
  change (String.length ("/" ++ "README.md")) with 10 in Heq. lia.
Qed.

Section Prepare.
Context {W : Type} `{NioRuntime W}.
Variable g : Globals.

(** The first statement of the preparation: afterwards the directory is
    there, and no file was touched. *)
Lemma prepare_head (s : state W) :
  exists s0,
    prepare_bot_dir g s
    = after (if exists_at s (BOT_DIR g) then [Print (UsingBotDir (BOT_DIR g))]
             else [Print (CreatingBotDir (BOT_DIR g)); Mkdir (BOT_DIR g)])
        (copy_readme g s0) /\
    world s0 = world s /\ files s0 = files s /\
    (exists_at s (BOT_DIR g) = true -> s0 = s) /\
    (forall p, p <> BOT_DIR g -> exists_at s0 p = exists_at s p) /\
    exists_at s0 (BOT_DIR g) = true.
Proof.
  unfold prepare_bot_dir. rewrite bind_path_exists. fold (exists_at s (BOT_DIR g)).
  destruct (exists_at s (BOT_DIR g)) eqn:Hdir; cbn [negb].
  - exists s. rewrite bind_print. repeat split; auto.
  - exists {| world := world s; files := files s; dirs := {[BOT_DIR g]} ∪ dirs s |}.
    rewrite bind_assoc, bind_print, bind_mkdir.
    unfold exists_at. cbn [world files dirs].
    split; [reflexivity|]. split; [reflexivity|]. split; [reflexivity|].
    split; [discriminate|]. split.
    + intros p Hp. f_equal. apply bool_decide_ext.
      rewrite elem_of_union, elem_of_singleton. tauto.
    + apply orb_true_iff. right. apply bool_decide_eq_true_2.
      apply elem_of_union. left. by apply elem_of_singleton.
Qed.

(** The copy of the README: skipped when the README is there. *)
Lemma copy_readme_existing (s : state W) :
  exists_at s (README g) = true -> copy_readme g s = (Return tt, s, []).
Proof.
  unfold exists_at, copy_readme. intros Hreadme.
  rewrite bind_path_exists, Hreadme. reflexivity.
Qed.

(** The copy of the README when it is missing: the file is opened, and so
    emptied, before the template is read. *)
Lemma copy_readme_missing (s : state W) :
  exists_at s (README g) = false ->
  let emptied := {| world := world s; files := <[README g := ""]> (files s);
                    dirs := dirs s |} in
  copy_readme g s =
  match files s !! BOTDIRINFO g with
  | Some text =>
      (Return tt,
       {| world := world s; files := <[README g := text]> (files emptied);
          dirs := dirs s |},
       [FileWrite (README g) ""; FileRead (BOTDIRINFO g); FileWrite (README g) text])
  | None =>
      (Raise OSError, emptied, [FileWrite (README g) ""; FileRead (BOTDIRINFO g)])
  end.
Proof.
  intros Hreadme emptied. unfold exists_at, copy_readme in *.
  rewrite bind_path_exists, Hreadme. cbn [negb when]. rewrite bind_write_file.
  fold emptied. unfold bind, read_file.
  assert (Hsame : files emptied !! BOTDIRINFO g = files s !! BOTDIRINFO g).
  { subst emptied. cbn [files]. apply lookup_insert_ne, README_is_not_BOTDIRINFO. }
  rewrite Hsame. by destruct (files s !! BOTDIRINFO g).
Qed.

Lemma prepare_existing (s : state W) :
  exists_at s (BOT_DIR g) = true -> exists_at s (README g) = true ->
  prepare_bot_dir g s = (Return tt, s, [Print (UsingBotDir (BOT_DIR g))]).
Proof.
  intros Hdir Hreadme.
  destruct (prepare_head s) as (s0 & Hrun & _ & _ & Hsame & _).
  rewrite (Hsame Hdir), Hdir in Hrun. rewrite Hrun.
  by rewrite (copy_readme_existing s Hreadme).
Qed.

Lemma exists_at_insert (s : state W) (w : W) (p q c : string) :
  exists_at s p = true ->
  exists_at {| world := w; files := <[q := c]> (files s); dirs := dirs s |} p = true.
Proof.
  unfold exists_at. cbn [files dirs].
  intros [Hf|Hd]%orb_true_iff; apply orb_true_iff; [left|by right].
  apply bool_decide_eq_true_1 in Hf. apply bool_decide_eq_true_2.
  destruct (decide (q = p)) as [->|Hne].
  - rewrite lookup_insert_eq. eauto.
  - by rewrite lookup_insert_ne.
Qed.

Lemma exists_at_written (s : state W) (w : W) (p c : string) :
  exists_at {| world := w; files := <[p := c]> (files s); dirs := dirs s |} p = true.
Proof.
  unfold exists_at. cbn [files]. apply orb_true_iff. left.
  apply bool_decide_eq_true_2. rewrite lookup_insert_eq. eauto.
Qed.

End Prepare.

(** X17.  The preparation of the bot directory is done once: after a run
    of it that returned, a later start (whatever the state of the rest of the
    world) finds the directory and the README, reports the directory and
    writes nothing, so an existing README is never overwritten. *)
Theorem prepare_bot_dir_once {W} `{NioRuntime W} (g : Globals) (s : state W) (w' : W) :
  result_of (prepare_bot_dir g s) = Return tt ->
  let s1 := set_world w' (state_of (prepare_bot_dir g s)) in
  prepare_bot_dir g s1 = (Return tt, s1, [Print (UsingBotDir (BOT_DIR g))]).
Proof.
  intros Hret s1.
  assert (Hboth : exists_at (state_of (prepare_bot_dir g s)) (BOT_DIR g) = true /\
                  exists_at (state_of (prepare_bot_dir g s)) (README g) = true).
  { destruct (prepare_head g s) as (s0 & Hrun & _ & _ & _ & _ & Hdir).
    rewrite Hrun in *. clear Hrun.
    destruct (exists_at s0 (README g)) eqn:Hreadme.
    - rewrite (copy_readme_existing g s0 Hreadme). by split.
    - revert Hret. rewrite (copy_readme_missing g s0 Hreadme).
      destruct (files s0 !! BOTDIRINFO g) as [text|]; [intros _|discriminate].
      unfold after, state_of. cbn [fst snd]. split.
      + apply (exists_at_insert
                 {| world := world s0; files := <[README g := ""]> (files s0);
                    dirs := dirs s0 |}).
        by apply exists_at_insert.
      + apply (exists_at_written
                 {| world := world s0; files := <[README g := ""]> (files s0);
                    dirs := dirs s0 |}). }
  destruct Hboth as [Hdir Hreadme]. by apply prepare_existing.
Qed.

Lemma prepare_bot_dir_once_witness :
  let s1 := state_of (prepare_bot_dir Mock.globals state_with_template) in
  result_of (prepare_bot_dir Mock.globals state_with_template) = Return tt /\
  files s1 !! README Mock.globals = Some "About this bot directory" /\
  prepare_bot_dir Mock.globals (set_world (Mock.world0 [Return "y"] true false) s1)
  = (Return tt, set_world (Mock.world0 [Return "y"] true false) s1,
     [Print (UsingBotDir (BOT_DIR Mock.globals))]).
Proof.
  cbv zeta. split; [reflexivity|]. split; [by vm_compute|].
  exact (prepare_bot_dir_once Mock.globals state_with_template
           (Mock.world0 [Return "y"] true false) eq_refl).
Defined.

(** The preparation when the template is missing. *)
Lemma prepare_without_template {W} `{NioRuntime W} (g : Globals)
    (s : state W) :
  exists_at s (README g) = false ->
  files s !! BOTDIRINFO g = None ->
  let s1 := state_of (prepare_bot_dir g s) in
  prepare_bot_dir g s
  = (Raise OSError, s1,
     ((if exists_at s (BOT_DIR g) then [Print (UsingBotDir (BOT_DIR g))]
       else [Print (CreatingBotDir (BOT_DIR g)); Mkdir (BOT_DIR g)])
      ++ [FileWrite (README g) ""; FileRead (BOTDIRINFO g)])%list) /\
  files s1 !! README g = Some "" /\
  (forall (w' : W) (text : string),
     let s2 := {| world := w'; files := <[BOTDIRINFO g := text]> (files s1);
                  dirs := dirs s1 |} in
     prepare_bot_dir g s2 = (Return tt, s2, [Print (UsingBotDir (BOT_DIR g))]) /\
     files s2 !! README g = Some "").
Proof.
  intros Hreadme Htemplate.
  destruct (prepare_head g s) as (s0 & Hrun & _ & Hfiles & _ & Hother & Hdir).
  assert (Hreadme0 : exists_at s0 (README g) = false).
  { rewrite Hother; [exact Hreadme|]. apply README_is_not_BOT_DIR. }
  set (l0 := if exists_at s (BOT_DIR g) then [Print (UsingBotDir (BOT_DIR g))]
             else [Print (CreatingBotDir (BOT_DIR g)); Mkdir (BOT_DIR g)]) in *.
  assert (Hfail : prepare_bot_dir g s
                  = (Raise OSError,
                     {| world := world s0; files := <[README g := ""]> (files s0);
                        dirs := dirs s0 |},
                     (l0 ++ [FileWrite (README g) ""; FileRead (BOTDIRINFO g)])%list)).
  { rewrite Hrun, (copy_readme_missing g s0 Hreadme0), Hfiles, Htemplate. reflexivity. }
  cbv zeta. rewrite Hfail. unfold result_of, state_of. cbn [fst snd files dirs].
  split; [reflexivity|]. split; [by rewrite lookup_insert_eq|].
  intros w' text. cbn [files dirs]. split.
  - apply prepare_existing.
    + unfold exists_at in *. cbn [files dirs].
      apply orb_true_iff in Hdir as [Hf|Hd]; apply orb_true_iff; [left|by right].
      apply bool_decide_eq_true_1 in Hf. apply bool_decide_eq_true_2.
      destruct (decide (BOTDIRINFO g = BOT_DIR g)) as [->|Hne1];
        [rewrite lookup_insert_eq; eauto|rewrite lookup_insert_ne by done].
      destruct (decide (README g = BOT_DIR g)) as [->|Hne2];
        [rewrite lookup_insert_eq; eauto|by rewrite lookup_insert_ne].
    + unfold exists_at. cbn [files]. apply orb_true_iff. left.
      apply bool_decide_eq_true_2.
      rewrite lookup_insert_ne by (intros Heq; by apply (README_is_not_BOTDIRINFO g)).
      rewrite lookup_insert_eq. eauto.
  - rewrite lookup_insert_ne by (intros Heq; by apply (README_is_not_BOTDIRINFO g)).
    by rewrite lookup_insert_eq.
Qed.




(** ** The choice of the device name *)

(** X19.  The names offered as bot names are exactly the names whose bot
    directory is listed: [name] is found by the scan if and only if the
    entry ["botdir_" + name], the directory that [BOT_DIR] names for it, is
    in the listing. *)
Theorem bot_dir_names_are_the_listed_directories (listing : list string) (name : string) :
  In name (bot_dir_names listing) <-> In ("botdir_" ++ name) listing.
Proof.
  unfold bot_dir_names. rewrite in_map_iff. split.
  - intros (entry & Hdrop & [Hin Hpre]%filter_In).
    apply prefix_app in Hpre as [b ->]. by subst name.
  - intros Hin. exists ("botdir_" ++ name). split; [reflexivity|].
    apply filter_In. split; [exact Hin|]. apply prefix_app. by eexists.
Qed.

Lemma bot_dir_names_first (pre post : list string) (entry : string) :
  (forall e, In e pre -> String.prefix "botdir_" e = false) ->
  String.prefix "botdir_" entry = true ->
  bot_dir_names (pre ++ entry :: post)
  = string_drop 7 entry :: bot_dir_names post.
Proof.
  intros Hpre Hentry. unfold bot_dir_names. rewrite List.filter_app.
  assert (Hnone : List.filter (String.prefix "botdir_") pre = []).
  { induction pre as [|e pre IH]; [reflexivity|]. cbn [List.filter].
    rewrite (Hpre e) by (by left). apply IH. intros e' He'. apply Hpre. by right. }
  rewrite Hnone. cbn [app List.filter]. by rewrite Hentry.
Qed.

Lemma bot_dir_names_none (listing : list string) :
  (forall e, In e listing -> String.prefix "botdir_" e = false) ->
  bot_dir_names listing = [].
Proof.
  intros Hnone. unfold bot_dir_names.
  induction listing as [|e l IH]; [reflexivity|]. cbn [List.filter].
  rewrite (Hnone e) by (by left). apply IH. intros e' He'. apply Hnone. by right.
Qed.

(** X20.  The device name is the answer at the first prompt when there is
    one.  On an empty answer it is the default that the prompt showed: the
    name of the first bot directory in the listing, so that [BOT_DIR] is that
    directory again; or, when no bot directory is listed, ['bot'] followed by
    the random number. *)
Theorem device_name_choice {W} `{NioRuntime W} (root : string) (listing : list string)
    (rand : N) (s : state W) (answer : string) (w1 : W) :
  let default := default_bot_name (bot_dir_names listing) rand in
  builtin_input (device_name_prompt default) (world s) = (Return answer, w1) ->
  exists g,
    choose_device_name root listing rand s
    = (Return g, set_world w1 s, [Input (device_name_prompt default)]) /\
    ROOT_DIR g = root /\
    (answer <> "" -> device_name g = answer) /\
    (answer = "" ->
     forall pre entry post,
       listing = (pre ++ entry :: post)%list ->
       (forall e, In e pre -> String.prefix "botdir_" e = false) ->
       String.prefix "botdir_" entry = true ->
       BOT_DIR g = root ++ "/" ++ entry) /\
    (answer = "" ->
     (forall e, In e listing -> String.prefix "botdir_" e = false) ->
     device_name g = "bot" ++ str rand).
Proof.
  intros default Hin. unfold choose_device_name, input. fold default.
  exec_call Hin. eexists. split; [reflexivity|]. cbn [ROOT_DIR device_name].
  split; [reflexivity|]. split; [|split].
  - intros Hne. apply String.eqb_neq in Hne. by rewrite Hne.
  - intros -> pre entry post -> Hpre Hentry. cbn [String.eqb].
    unfold BOT_DIR. cbn [ROOT_DIR device_name]. subst default.
    rewrite (bot_dir_names_first pre post entry Hpre Hentry). cbn [default_bot_name].
    apply prefix_app in Hentry as [b ->]. reflexivity.
  - intros -> Hnone. cbn [String.eqb]. subst default.
    by rewrite (bot_dir_names_none listing Hnone).
Qed.

Lemma device_name_choice_witness :
  let listing := ["create_bot_dir.py"; "botdir_alice"; "botdirinfo.md"; "botdir_bob"] in
  let s := Mock.state0 [Return ""] false false in
  builtin_input (device_name_prompt (default_bot_name (bot_dir_names listing) 4711))
    (world s)
  = (Return "", Mock.world0 [] false false) /\
  device_name_prompt (default_bot_name (bot_dir_names listing) 4711)
  = "Choose a name for the bot device (default 'alice'): " /\
  exists g,
    result_of (choose_device_name "/srv" listing 4711 s) = Return g /\
    BOT_DIR g = "/srv/botdir_alice".
Proof.
  cbv zeta. split; [reflexivity|]. split; [reflexivity|].
  pose proof (device_name_choice "/srv"
                ["create_bot_dir.py"; "botdir_alice"; "botdirinfo.md"; "botdir_bob"] 4711
                (Mock.state0 [Return ""] false false) "" (Mock.world0 [] false false)
                eq_refl) as (g & Hrun & _ & _ & Hfirst & _).
  exists g. rewrite Hrun. split; [reflexivity|].
  apply (Hfirst eq_refl ["create_bot_dir.py"] "botdir_alice" ["botdirinfo.md"; "botdir_bob"]).
  - reflexivity.
  - intros e [<-|[]]. reflexivity.
  - reflexivity.
Defined.

(** X21.  A restart that takes the default reuses the directory: on an
    empty answer, when the first bot directory of the listing is on the disk,
    the preparation reports that directory and creates none. *)
Theorem default_name_reuses_the_directory {W} `{NioRuntime W} (root : string)
    (pre post : list string) (entry : string) (rand : N) (s : state W) (w1 : W) :
  let listing := (pre ++ entry :: post)%list in
  (forall e, In e pre -> String.prefix "botdir_" e = false) ->
  String.prefix "botdir_" entry = true ->
  builtin_input (device_name_prompt (default_bot_name (bot_dir_names listing) rand))
    (world s) = (Return "", w1) ->
  root ++ "/" ++ entry ∈ dirs s ->
  exists g,
    result_of (choose_device_name root listing rand s) = Return g /\
    BOT_DIR g = root ++ "/" ++ entry /\
    prepare_bot_dir g (state_of (choose_device_name root listing rand s))
    = after [Print (UsingBotDir (root ++ "/" ++ entry))]
        (copy_readme g (set_world w1 s)).
Proof.
  intros listing Hpre Hentry Hin Hdir.
  assert (Hrun : exists g,
            choose_device_name root listing rand s
            = (Return g, set_world w1 s,
               [Input (device_name_prompt
                         (default_bot_name (bot_dir_names listing) rand))]) /\
            BOT_DIR g = root ++ "/" ++ entry).
  { unfold choose_device_name, input. exec_call Hin. eexists. split; [reflexivity|].
    cbn [String.eqb]. unfold BOT_DIR. cbn [ROOT_DIR device_name]. subst listing.
    rewrite (bot_dir_names_first pre post entry Hpre Hentry). cbn [default_bot_name].
    apply prefix_app in Hentry as [b ->]. reflexivity. }
  destruct Hrun as (g & Hrun & Hbot). exists g. rewrite Hrun.
  unfold result_of, state_of. cbn [fst snd].
  split; [reflexivity|]. split; [exact Hbot|].
  assert (Hex : exists_at (set_world w1 s) (BOT_DIR g) = true).
  { unfold exists_at. cbn [set_world files dirs]. rewrite Hbot.
    apply orb_true_iff. right. by apply bool_decide_eq_true_2. }
  destruct (prepare_head g (set_world w1 s)) as (s0 & Hprep & _ & _ & Hsame & _).
  rewrite Hprep, Hex, (Hsame Hex), Hbot. reflexivity.
Qed.

Lemma default_name_reuses_the_directory_witness :
  let listing := ["create_bot_dir.py"; "botdir_bot1"; "botdirinfo.md"] in
  let s := Mock.state0 [Return ""] false false in
  String.prefix "botdir_" "botdir_bot1" = true /\
  ("/srv" ++ "/" ++ "botdir_bot1" ∈ dirs s) /\
  exists g,
    result_of (choose_device_name "/srv" listing 4711 s) = Return g /\
    BOT_DIR g = "/srv/botdir_bot1" /\
    prepare_bot_dir g (state_of (choose_device_name "/srv" listing 4711 s))
    = after [Print (UsingBotDir "/srv/botdir_bot1")]
        (copy_readme g (set_world (Mock.world0 [] false false) s)).
Proof.
  cbv zeta.
  assert (Hd : "/srv" ++ "/" ++ "botdir_bot1" ∈ dirs (Mock.state0 [Return ""] false false)).
  { apply (bool_decide_unpack _). vm_compute. exact I. }
  assert (Hpre : forall e, In e ["create_bot_dir.py"] -> String.prefix "botdir_" e = false).
  { intros e [<-|[]]. reflexivity. }
  pose proof (default_name_reuses_the_directory "/srv" ["create_bot_dir.py"]
                ["botdirinfo.md"] "botdir_bot1" 4711 (Mock.state0 [Return ""] false false)
                (Mock.world0 [] false false) Hpre eq_refl eq_refl Hd)
    as (g & Hg & Hbot & Hprep).
  split; [reflexivity|]. split; [exact Hd|].
  exists g. split; [exact Hg|]. split; [exact Hbot|exact Hprep].
Defined.

(** ** The operator and the password *)

(** X22.  The operator is asked only about emoji that were shown: in the
    run of the handler for a key event either there is no prompt at all (the
    transaction is unknown, or the emoji could not be computed), or the run
    starts with [get_emoji] on the verification of the event, the print of
    the emoji that this call returned and the prompt, and no second prompt
    follows. *)
Theorem prompt_follows_the_emoji {W} `{NioRuntime W} (self : Callbacks)
    (sender transaction_id key : string) (s : state W) :
  let tr := trace_of (to_device_callback self
                        (KeyVerificationKey sender transaction_id key) s) in
  forallb is_not_input tr = true \/
  exists sas emoji rest,
    key_verifications (world s) !! transaction_id = Some sas /\
    tr = GetEmoji sas :: Print (ShowEmoji emoji) :: Input emoji_prompt :: rest /\
    forallb is_not_input rest = true /\
    exists w1, sas_get_emoji sas (world s) = (Return emoji, w1).
Proof.
  cbv zeta. rewrite to_device_callback_unfold.
  change (to_device_callback_body self (KeyVerificationKey sender transaction_id key))
    with (on_key sender transaction_id).
  unfold on_key, get_emoji, input, confirm_short_auth_string, cancel_key_verification,
    to_device, log_error.
  destruct (key_verifications (world s) !! transaction_id) as [sas|] eqn:Hl;
    exec_lookup Hl; [|by left].
  destruct (sas_get_emoji sas (world s)) as [[emoji|e] w1] eqn:Hemoji;
    [rewrite (bind_call_return _ _ _ _ _ _ Hemoji)
    |rewrite (bind_call_raise _ _ _ _ _ _ Hemoji); by left].
  exec_pure. right. exists sas, emoji.
  assert (Hshown : exists w, sas_get_emoji sas (world s) = (Return emoji, w))
    by (by exists w1).
  clear Hemoji.
  exec_any; [|by eexists].
  destruct (String.eqb (lower _) "y"); [|destruct (String.eqb (lower _) "n")]; exec_pure.
  - exec_any; [|by eexists]. exec_when; exec_any;
      try (match goal with
           | |- context [if is_ToDeviceError ?r then _ else _] =>
               destruct r; cbn [is_ToDeviceError]
           end; try exec_any); by eexists.
  - exec_any; try exec_when; by eexists.
  - exec_any; try exec_when; by eexists.
Qed.

(** X23.  What [login] writes is the credential record and nothing else.
    Every write of a run of [login] goes to the credential file, it is the
    only write of the run, and its contents are the serialized record of
    three things: the response that the homeserver gave to the password
    login of this run, the normal form of the homeserver address that was
    entered, and the device name of this start.  The password goes into the
    login call and is not part of the record. *)
Theorem login_writes_only_the_record {W} `{NioRuntime W} (g : Globals) (s : state W)
    (p c : string) :
  In (p, c) (file_writes (trace_of (login g s))) ->
  p = CONFIG_FILE g /\
  file_writes (trace_of (login g s)) = [(p, c)] /\
  exists entered w1 user w2 pw w3 resp w4,
    builtin_input "Enter your homeserver URL: [https://matrix.example.org] " (world s)
    = (Return entered, w1) /\
    builtin_input "Enter your full user ID: [@user:example.org] " w1
    = (Return user, w2) /\
    getpass_getpass w2 = (Return pw, w3) /\
    nio_login
      (AsyncClient_init (PStr (normalize_homeserver entered)) (PStr user) (PStr "")
         (STORE_PATH g)) pw (device_name g) w3
    = (Return (LoginOk resp), w4) /\
    c = json_dumps (credential_record resp (normalize_homeserver entered) (device_name g)).
Proof.
  destruct (exists_at s (CONFIG_FILE g)) eqn:Hex.
  { assert (Hcfg : config_exists g s).
    { unfold exists_at in Hex. apply orb_true_iff in Hex as [Hf|Hd].
      - left. by apply bool_decide_eq_true_1 in Hf.
      - right. by apply bool_decide_eq_true_1 in Hd. }
    destruct (keeps_disk_login_restore g s Hcfg) as (_ & _ & ->). intros []. }
  unfold login. rewrite bind_path_exists. fold (exists_at s (CONFIG_FILE g)).
  rewrite Hex. cbn [negb]. exec_pure. unfold input.
  exec_any; [|intros []]. exec_any; [|intros []].
  rewrite bind_path_exists.
  match goal with |- context [when ?b _] => destruct b; cbn [when] end;
    rewrite ?bind_mkdir; exec_pure.
  all: exec_any; [|intros []].
  all: unfold client_login; rewrite bind_assoc.
  all: exec_any; [|intros []].
  all: match goal with |- context [match ?r with LoginOk _ => _ | LoginError _ => _ end] =>
         destruct r end; exec_pure; cbn [fst snd].
  all: unfold write_details_to_disk; rewrite ?bind_write_file; exec_pure.
  all: try (intros []; fail).
  all: intros [[= <- <-]|[]]; split; [reflexivity|]; split; [reflexivity|].
  all: do 8 eexists; repeat split; eassumption.
Qed.

Lemma login_writes_only_the_record_witness :
  let s := Mock.state0 [Return "matrix.example.org"; Return "@bot:example.org";
                        Return "pw"] false false in
  let resp := {| resp_user_id := "@bot:example.org"; resp_device_id := "BOTDEVICE";
                 resp_access_token := "syt_token" |} in
  let record := json_dumps (credential_record resp "https://matrix.example.org" "bot1") in
  In (CONFIG_FILE Mock.globals, record) (file_writes (trace_of (login Mock.globals s))) /\
  file_writes (trace_of (login Mock.globals s)) = [(CONFIG_FILE Mock.globals, record)].
Proof.
  cbv zeta.
  assert (Hin : In (CONFIG_FILE Mock.globals,
                    json_dumps (credential_record
                                  {| resp_user_id := "@bot:example.org";
                                     resp_device_id := "BOTDEVICE";
                                     resp_access_token := "syt_token" |}
                                  "https://matrix.example.org" "bot1"))
                  (file_writes (trace_of (login Mock.globals
                     (Mock.state0 [Return "matrix.example.org"; Return "@bot:example.org";
                                   Return "pw"] false false))))).
  { left. reflexivity. }
  split; [exact Hin|].
  exact (proj1 (proj2 (login_writes_only_the_record Mock.globals _ _ _ Hin))).
Defined.
